(** * DevLinker backend: the user router (feed and swipe handlers)

    A shallow embedding of [routes/user.js]: the query-string helpers
    ([parsePositiveInt], [normalizeString], [normalizeSkills]), the
    [/feed] handler and the [/swipe-left] and [/swipe-right] handlers,
    over an explicit model of the two MongoDB collections they use.

    Conventions of the model.
    - A JavaScript string is a [string] whose characters are code units
      below 256.
    - A JavaScript number that holds an integer is a [Z]; [NaN] is [None].
      The model is exact wherever the JavaScript value is an integer below
      2^53 in absolute value.
    - An [ObjectId] is represented by its canonical rendering, the
      24-character lower-case hexadecimal string that [toString()] returns.
    - A collection is the list of its documents in natural order, the order
      in which an unsorted [find] returns them and in which [save] appends.
    - A value of the JSON body is a scalar ([undefined], [null], a boolean,
      an integer or a string); a value of the query string is absent, a
      string or an array of strings.
    - The handlers are [async] functions that run their store calls one
      after the other; a handler is modelled as one atomic step, from the
      point where the middlewares [userAuth] and [checkProfileComplete]
      have set [req.user] and let the request through. *)

From stdpp Require Import base list gmap strings.
From Stdlib Require Import ZArith String Ascii Lia.
From Stdlib Require DecimalString DecimalPos DecimalN.

Open Scope string_scope.
Open Scope list_scope.

(** ** JavaScript values and strings *)

Module Js.

(** A value read from [req.query]: absent, a string, or (for a repeated
    parameter) an array of strings. *)
Inductive QueryValue :=
| QUndefined
| QString (s : string)
| QArray (l : list string).

(** A value read from the JSON body of a request. *)
Inductive Value :=
| VUndefined
| VNull
| VBool (b : bool)
| VNumber (n : Z)
| VString (s : string).

(** [Boolean(v)], the test behind [!v] and [if (v)]. *)
Definition truthy (v : Value) : bool :=
  match v with
  | VUndefined | VNull => false
  | VBool b => b
  | VNumber n => negb (n =? 0)%Z
  | VString s => negb (String.eqb s "")
  end.

(** [Boolean(s)] for a string. *)
Definition truthy_string (s : string) : bool := negb (String.eqb s "").

(** White space and line terminators below code 256: TAB, LF, VT, FF, CR,
    SPACE and NBSP. *)
Definition is_space (c : ascii) : bool :=
  let n := nat_of_ascii c in
  ((9 <=? n)%nat && (n <=? 13)%nat) || (n =? 32)%nat || (n =? 160)%nat.

Fixpoint trimStart (s : string) : string :=
  match s with
  | String c r => if is_space c then trimStart r else s
  | EmptyString => EmptyString
  end.

(** The string without its trailing white space: a character is kept when
    it is no space or when something is kept after it. *)
Fixpoint trimEnd (s : string) : string :=
  match s with
  | EmptyString => EmptyString
  | String c r =>
      match trimEnd r with
      | EmptyString => if is_space c then EmptyString else String c EmptyString
      | r' => String c r'
      end
  end.

(** [s.trim()] *)
Definition trim (s : string) : string := trimEnd (trimStart s).

(** [l.join(",")] *)
Fixpoint join_comma (l : list string) : string :=
  match l with
  | [] => ""
  | [s] => s
  | s :: r => (s ++ "," ++ join_comma r)%string
  end.

(** [String(v)] for a query value. *)
Definition toString (v : QueryValue) : string :=
  match v with
  | QUndefined => "undefined"
  | QString s => s
  | QArray l => join_comma l
  end.

Definition is_digit (c : ascii) : bool :=
  let n := nat_of_ascii c in (48 <=? n)%nat && (n <=? 57)%nat.

Definition digit_value (c : ascii) : Z := (Z.of_nat (nat_of_ascii c) - 48)%Z.

(** The longest prefix of decimal digits, read left to right with the
    value [acc] of the digits already consumed; [seen] tells whether any
    digit was consumed. *)
Fixpoint digits (s : string) (seen : bool) (acc : Z) : option Z :=
  match s with
  | String c r =>
      if is_digit c then digits r true (10 * acc + digit_value c)%Z
      else if seen then Some acc else None
  | EmptyString => if seen then Some acc else None
  end.

(** [Number.parseInt(s, 10)]: leading white space is skipped, one sign is
    accepted, and the digits up to the first other character are read;
    [None] is [NaN]. *)
Definition parseInt (s : string) : option Z :=
  match trimStart s with
  | String "-" r => option_map Z.opp (digits r false 0)
  | String "+" r => digits r false 0
  | t => digits t false 0
  end.

(** What [parseInt] reads digits from: the string after its leading
    white space and one sign. *)
Definition unsigned_part (s : string) : string :=
  match trimStart s with
  | String "-" r => r
  | String "+" r => r
  | t => t
  end.

(** Whether a string is numeric for [parseInt]: a decimal digit comes
    first in its unsigned part. *)
Definition numeric (s : string) : bool :=
  match unsigned_part s with
  | String c _ => is_digit c
  | EmptyString => false
  end.

(** [s.includes(",")] *)
Fixpoint includes_comma (s : string) : bool :=
  match s with
  | EmptyString => false
  | String c r => if Ascii.eqb c "," then true else includes_comma r
  end.

(** [s.split(",")]; [cur] is the piece being read. *)
Fixpoint split_comma_aux (s : string) (cur : string) : list string :=
  match s with
  | EmptyString => [cur]
  | String c r =>
      if Ascii.eqb c "," then cur :: split_comma_aux r ""
      else split_comma_aux r (cur ++ String c "")%string
  end.

Definition split_comma (s : string) : list string := split_comma_aux s "".

End Js.

(** ** The helpers of the router *)

(** [parsePositiveInt(value, fallback)] *)
Definition parsePositiveInt (value : Js.QueryValue) (fallback : Z) : Z :=
  match Js.parseInt (Js.toString value) with
  | None => fallback
  | Some parsed => if (parsed <=? 0)%Z then fallback else parsed
  end.

(** [normalizeString(value)] *)
Definition normalizeString (value : Js.QueryValue) : string :=
  match value with
  | Js.QUndefined => ""
  | _ => Js.trim (Js.toString value)
  end.

(** [normalizeSkills(value)] *)
Definition normalizeSkills (value : Js.QueryValue) : list string :=
  match value with
  | Js.QUndefined => []
  | Js.QArray l =>
      List.filter Js.truthy_string
        (map (fun v => normalizeString (Js.QString v)) l)
  | Js.QString _ =>
      let str := normalizeString value in
      if negb (Js.truthy_string str) then []
      else if Js.includes_comma str then
        List.filter Js.truthy_string (map Js.trim (Js.split_comma str))
      else [str]
  end.

(** ** The data model *)

Definition ObjectId := string.

(** A document of the [User] collection, with the fields the router reads.
    All of them are on the [USER_SAFE_DATA] allow-list (and [_id] is always
    selected), so [select(USER_SAFE_DATA)] leaves such a record as it is. *)
Record User := mkUser {
  _id : ObjectId;
  isProfileComplete : bool;
  skills : list string;
  experience : string;
  role : string;
  availability : string;
  location : string
}.

(** A document of the [ConnectionRequest] collection. The status is the
    string the store holds: the handlers write ["ignored"], ["interested"]
    and ["accepted"]. A document is identified by its position in the
    collection. *)
Record ConnectionRequest := mkConnectionRequest {
  fromUserId : ObjectId;
  toUserId : ObjectId;
  status : string
}.

Record Db := mkDb {
  users : list User;
  connectionRequests : list ConnectionRequest
}.

(** What the handlers take from the database driver: the cast of a request
    value to an [ObjectId] ([None] when the cast fails and the query
    throws), and the compilation of a pattern to a case-insensitive
    regular expression ([None] when the pattern is rejected). *)
Class Mongoose := {
  castObjectId : Js.Value -> option ObjectId;
  compileRegex : string -> option (string -> bool)
}.

(** ** Store calls: state and exceptions *)

Inductive Outcome (A : Type) :=
| Returned (a : A)
| Thrown (message : string).
Arguments Returned {A} a.
Arguments Thrown {A} message.

(** An awaited computation: it reads and writes the database and either
    returns or throws; what was written before a throw stays written. *)
Definition Async (A : Type) := Db -> Outcome A * Db.

Definition ret {A} (a : A) : Async A := fun db => (Returned a, db).

Definition throw {A} (message : string) : Async A :=
  fun db => (Thrown message, db).

Definition bind {A B} (m : Async A) (k : A -> Async B) : Async B :=
  fun db =>
    match m db with
    | (Returned a, db') => k a db'
    | (Thrown e, db') => (Thrown e, db')
    end.

(** [const x = await m; k] *)
Notation "'await' x <- m ; k" := (bind m (fun x => k))
  (at level 10, x name, m at level 100, k at level 200).

(** [try { body } catch (err) { handler(err.message) }] *)
Definition try_catch {R} (body : Async R) (handler : string -> R) : Db -> R * Db :=
  fun db =>
    match body db with
    | (Returned r, db') => (r, db')
    | (Thrown e, db') => (handler e, db')
    end.

Definition eqb_id (a b : ObjectId) : bool := String.eqb a b.

Section Store.
Context `{Mongoose}.

(** A value given for an [ObjectId] path of a query or of a new document:
    an [ObjectId] (such as [loggedInUser._id]) or a raw request value,
    which is cast. *)
Inductive IdArg :=
| Oid (o : ObjectId)
| Raw (v : Js.Value).

Definition castArg (a : IdArg) : Async ObjectId :=
  match a with
  | Oid o => ret o
  | Raw v =>
      match castObjectId v with
      | Some o => ret o
      | None => throw "Cast to ObjectId failed"
      end
  end.

(** [User.findById(id)] *)
Definition User_findById (id : Js.Value) : Async (option User) :=
  await o <- castArg (Raw id) ;
  fun db => (Returned (find (fun u => eqb_id (_id u) o) (users db)), db).

(** The filter [{ fromUserId, toUserId }], with [status] when given. *)
Definition matches_pair (f t : ObjectId) (st : option string)
    (r : ConnectionRequest) : bool :=
  eqb_id (fromUserId r) f && eqb_id (toUserId r) t &&
  match st with
  | Some s => String.eqb (status r) s
  | None => true
  end.

(** [ConnectionRequest.findOne({ fromUserId, toUserId, status })] *)
Definition ConnectionRequest_findOne (f t : IdArg) (st : option string)
    : Async (option ConnectionRequest) :=
  await f' <- castArg f ;
  await t' <- castArg t ;
  fun db => (Returned (find (matches_pair f' t' st) (connectionRequests db)), db).

(** The filter [{ $or: [{ fromUserId: id }, { toUserId: id }] }]. *)
Definition involves (id : ObjectId) (r : ConnectionRequest) : bool :=
  eqb_id (fromUserId r) id || eqb_id (toUserId r) id.

(** [ConnectionRequest.find({ $or: [{ fromUserId: id }, { toUserId: id }] })] *)
Definition ConnectionRequest_find_involving (id : ObjectId)
    : Async (list ConnectionRequest) :=
  fun db => (Returned (List.filter (involves id) (connectionRequests db)), db).

(** [new ConnectionRequest({ fromUserId, toUserId, status })]: the
    document before it is validated and saved. *)
Record NewConnectionRequest := mkNew {
  new_fromUserId : IdArg;
  new_toUserId : IdArg;
  new_status : string
}.

(** Modelled from the spec: the model [models/connectionRequest] is not
    among the sources. The store keeps the two invariants that the data
    model of the spec gives for a record: [fromUserId ≠ toUserId] (no
    self-requests) and at most one record per ordered pair (the Request
    Store contract: [upsertIfAbsent] fails with [Conflict] if a record
    already exists for that ordered pair). So [save] casts the two
    identifiers, throws when they are equal, throws when the ordered pair
    already has a document, and appends the document otherwise. The two
    messages stand for those of the store, which the spec does not give:
    no theorem below depends on them. *)
Definition save (doc : NewConnectionRequest) : Async ConnectionRequest :=
  await f <- castArg (new_fromUserId doc) ;
  await t <- castArg (new_toUserId doc) ;
  fun db =>
    if eqb_id f t then (Thrown "ValidationError", db)
    else
      match find (matches_pair f t None) (connectionRequests db) with
      | Some _ => (Thrown "Conflict", db)
      | None =>
          let r := mkConnectionRequest f t (new_status doc) in
          (Returned r, mkDb (users db) (connectionRequests db ++ [r]))
      end.

(** The filter
    [{ $or: [{ fromUserId: a, toUserId: b }, { fromUserId: b, toUserId: a }] }]. *)
Definition between (a b : ObjectId) (r : ConnectionRequest) : bool :=
  matches_pair a b None r || matches_pair b a None r.

Definition set_status (s : string) (r : ConnectionRequest) : ConnectionRequest :=
  mkConnectionRequest (fromUserId r) (toUserId r) s.

(** [ConnectionRequest.updateMany({ $or: [...] }, { $set: { status } })] *)
Definition ConnectionRequest_updateMany_between (a b : IdArg) (s : string)
    : Async unit :=
  await a' <- castArg a ;
  await b' <- castArg b ;
  fun db =>
    (Returned tt,
     mkDb (users db)
          (map (fun r => if between a' b' r then set_status s r else r)
               (connectionRequests db))).

(** [o.toString()] of an [ObjectId]: its canonical rendering. *)
Definition ObjectId_toString (o : ObjectId) : string := o.

(** The query object given to [User.find] by the feed: the three
    conditions under [$and], and the optional paths. *)
Record FilterQuery := mkFilterQuery {
  fq_nin : list string;
  fq_ne : ObjectId;
  fq_isProfileComplete : bool;
  fq_skills_in : option (list string);
  fq_experience : option string;
  fq_role : option string;
  fq_availability : option string;
  fq_location_regex : option string
}.

Definition opt_eq (want : option string) (have : string) : bool :=
  match want with
  | Some w => String.eqb have w
  | None => true
  end.

(** Whether a user document satisfies the query, the location pattern
    being compiled to [re]. *)
Definition satisfies (fq : FilterQuery) (re : option (string -> bool))
    (u : User) : bool :=
  negb (existsb (String.eqb (ObjectId_toString (_id u))) (fq_nin fq)) &&
  negb (eqb_id (_id u) (fq_ne fq)) &&
  Bool.eqb (isProfileComplete u) (fq_isProfileComplete fq) &&
  match fq_skills_in fq with
  | Some wanted => existsb (fun s => existsb (String.eqb s) wanted) (skills u)
  | None => true
  end &&
  opt_eq (fq_experience fq) (experience u) &&
  opt_eq (fq_role fq) (role u) &&
  opt_eq (fq_availability fq) (availability u) &&
  match re with
  | Some matches => matches (location u)
  | None => true
  end.

(** [User.find(fq).select(USER_SAFE_DATA).skip(skip).limit(n)] *)
Definition User_find (fq : FilterQuery) (skip n : Z) : Async (list User) :=
  fun db =>
    let run re :=
      (Returned (firstn (Z.to_nat n)
                   (skipn (Z.to_nat skip)
                      (List.filter (satisfies fq re) (users db)))), db) in
    match fq_location_regex fq with
    | None => run None
    | Some pattern =>
        match compileRegex pattern with
        | Some re => run (Some re)
        | None => (Thrown "Regular expression is invalid", db)
        end
    end.

End Store.

(** ** Requests and responses *)

(** [req.query] of a feed request. *)
Module Query.
Record t := mk {
  page : Js.QueryValue;
  limit : Js.QueryValue;
  skills : Js.QueryValue;
  experience : Js.QueryValue;
  role : Js.QueryValue;
  availability : Js.QueryValue;
  location : Js.QueryValue
}.
End Query.

(** [req.body] of a swipe request, when there is one. *)
Record Body := mkBody { body_toUserId : Js.Value }.

(** [const { toUserId } = req.body || {}] *)
Definition destructure_toUserId (body : option Body) : Js.Value :=
  match body with
  | Some b => body_toUserId b
  | None => Js.VUndefined
  end.

(** The answer of the feed: [res.json({ data, page, limit, hasMore })]
    with status 200, or [res.status(code).json({ message })]. *)
Inductive FeedResponse :=
| FeedJson (data : list User) (page limit : Z) (hasMore : bool)
| FeedStatus (code : nat) (message : string).

(** The answer of a swipe: [res.json({ message, data, matched })] with
    status 200 ([matched] is absent from the answers of swipe-left), or
    [res.status(code).json({ message })]. *)
Inductive SwipeResponse :=
| SwipeJson (message : string) (data : ConnectionRequest) (matched : option bool)
| SwipeStatus (code : nat) (message : string).

(** ** The handlers *)

Section Handlers.
Context `{Mongoose}.

(** The set built by the [forEach] of the feed. *)
Definition hideUsersFromFeed (rs : list ConnectionRequest) : gset string :=
  foldl (fun hide req =>
           {[ ObjectId_toString (toUserId req) ]} ∪
           ({[ ObjectId_toString (fromUserId req) ]} ∪ hide))
        ∅ rs.

Definition some_if (b : bool) (s : string) : option string :=
  if b then Some s else None.

(** [GET /feed] *)
Definition feed (loggedInUser : User) (query : Query.t) : Db -> FeedResponse * Db :=
  try_catch
    (let page := parsePositiveInt (Query.page query) 1 in
     let limit := parsePositiveInt (Query.limit query) 10 in
     let limit := if (50 <? limit)%Z then 50%Z else limit in
     let skip := ((page - 1) * limit)%Z in
     let skills := normalizeSkills (Query.skills query) in
     let experience := normalizeString (Query.experience query) in
     let role := normalizeString (Query.role query) in
     let availability := normalizeString (Query.availability query) in
     let location := normalizeString (Query.location query) in
     await connectionRequests <- ConnectionRequest_find_involving (_id loggedInUser) ;
     let hide := hideUsersFromFeed connectionRequests in
     let filterQuery :=
       {| fq_nin := elements hide;
          fq_ne := _id loggedInUser;
          fq_isProfileComplete := true;
          fq_skills_in :=
            if (0 <? List.length skills)%nat then Some skills else None;
          fq_experience :=
            some_if (Js.truthy_string experience && negb (String.eqb experience "any"))
                    experience;
          fq_role :=
            some_if (Js.truthy_string role && negb (String.eqb role "any")) role;
          fq_availability :=
            some_if (Js.truthy_string availability &&
                     negb (String.eqb availability "any"))
                    availability;
          fq_location_regex := some_if (Js.truthy_string location) location |} in
     await users <- User_find filterQuery skip (limit + 1) ;
     let hasMore := (limit <? Z.of_nat (List.length users))%Z in
     let sliced := if hasMore then firstn (Z.to_nat limit) users else users in
     ret (FeedJson sliced page limit hasMore))
    (fun message => FeedStatus 400 message).

(** [POST /swipe-left] *)
Definition swipe_left (loggedInUser : User) (body : option Body)
    : Db -> SwipeResponse * Db :=
  try_catch
    (let toUserId := destructure_toUserId body in
     if negb (Js.truthy toUserId) then ret (SwipeStatus 400 "toUserId is required")
     else
       await toUser <- User_findById toUserId ;
       match toUser with
       | None => ret (SwipeStatus 404 "User not found")
       | Some _ =>
           await existing <-
             ConnectionRequest_findOne (Oid (_id loggedInUser)) (Raw toUserId) None ;
           match existing with
           | Some existing => ret (SwipeJson "Already swiped" existing None)
           | None =>
               let connectionRequest :=
                 mkNew (Oid (_id loggedInUser)) (Raw toUserId) "ignored" in
               await data <- save connectionRequest ;
               ret (SwipeJson "Swiped left" data None)
           end
       end)
    (fun message => SwipeStatus 400 message).

(** [Boolean(doc)] for the result of a [findOne]. *)
Definition found {A} (o : option A) : bool :=
  match o with Some _ => true | None => false end.

(** [POST /swipe-right] *)
Definition swipe_right (loggedInUser : User) (body : option Body)
    : Db -> SwipeResponse * Db :=
  try_catch
    (let toUserId := destructure_toUserId body in
     if negb (Js.truthy toUserId) then ret (SwipeStatus 400 "toUserId is required")
     else
       await toUser <- User_findById toUserId ;
       match toUser with
       | None => ret (SwipeStatus 404 "User not found")
       | Some _ =>
           await existing <-
             ConnectionRequest_findOne (Oid (_id loggedInUser)) (Raw toUserId) None ;
           match existing with
           | Some existing =>
               await reciprocal <-
                 ConnectionRequest_findOne (Raw toUserId) (Oid (_id loggedInUser))
                   (Some "interested") ;
               ret (SwipeJson "Already swiped" existing (Some (found reciprocal)))
           | None =>
               await reciprocalInterested <-
                 ConnectionRequest_findOne (Raw toUserId) (Oid (_id loggedInUser))
                   (Some "interested") ;
               let connectionRequest :=
                 mkNew (Oid (_id loggedInUser)) (Raw toUserId) "interested" in
               await data <- save connectionRequest ;
               if found reciprocalInterested then
                 await _u <-
                   ConnectionRequest_updateMany_between
                     (Oid (_id loggedInUser)) (Raw toUserId) "accepted" ;
                 ret (SwipeJson "It's a match!" data (Some true))
               else
                 ret (SwipeJson "Connection request sent" data (Some false))
           end
       end)
    (fun message => SwipeStatus 400 message).

(** *** The parts of the feed, named

    The values the feed handler computes on its way, as functions of the
    request, for the statements below; [feed_unfold] relates them to the
    handler. *)

(** [page] *)
Definition page_of (query : Query.t) : Z := parsePositiveInt (Query.page query) 1.

(** [limit], after the cap *)
Definition limit_of (query : Query.t) : Z :=
  let limit := parsePositiveInt (Query.limit query) 10 in
  if (50 <? limit)%Z then 50%Z else limit.

(** [skip] *)
Definition skip_of (query : Query.t) : Z := ((page_of query - 1) * limit_of query)%Z.

(** [filterQuery], after the optional paths have been set *)
Definition filterQuery_of (loggedInUser : User) (query : Query.t) (db : Db)
    : FilterQuery :=
  let skills := normalizeSkills (Query.skills query) in
  let experience := normalizeString (Query.experience query) in
  let role := normalizeString (Query.role query) in
  let availability := normalizeString (Query.availability query) in
  let location := normalizeString (Query.location query) in
  {| fq_nin :=
       elements (hideUsersFromFeed
                   (List.filter (involves (_id loggedInUser)) (connectionRequests db)));
     fq_ne := _id loggedInUser;
     fq_isProfileComplete := true;
     fq_skills_in := if (0 <? List.length skills)%nat then Some skills else None;
     fq_experience :=
       some_if (Js.truthy_string experience && negb (String.eqb experience "any"))
               experience;
     fq_role := some_if (Js.truthy_string role && negb (String.eqb role "any")) role;
     fq_availability :=
       some_if (Js.truthy_string availability && negb (String.eqb availability "any"))
               availability;
     fq_location_regex := some_if (Js.truthy_string location) location |}.

(** The request with another [limit] parameter. *)
Definition with_limit (query : Query.t) (v : Js.QueryValue) : Query.t :=
  Query.mk (Query.page query) v (Query.skills query) (Query.experience query)
           (Query.role query) (Query.availability query) (Query.location query).

(** The candidates of a feed request: all the users that satisfy its
    filter query, in natural order, before [skip] and [limit]; or the
    exception of the query. *)
Definition candidates (loggedInUser : User) (query : Query.t) (db : Db)
    : Outcome (list User) :=
  let fq := filterQuery_of loggedInUser query db in
  match fq_location_regex fq with
  | None => Returned (List.filter (satisfies fq None) (users db))
  | Some pattern =>
      match compileRegex pattern with
      | Some re => Returned (List.filter (satisfies fq (Some re)) (users db))
      | None => Thrown "Regular expression is invalid"
      end
  end.

(** The users of an answer of the feed. *)
Definition feed_data (r : FeedResponse) : list User :=
  match r with
  | FeedJson data _ _ _ => data
  | FeedStatus _ _ => []
  end.

(** The [matched] flag of an answer of a swipe. *)
Definition matched_of (r : SwipeResponse) : option bool :=
  match r with
  | SwipeJson _ _ matched => matched
  | SwipeStatus _ _ => None
  end.

(** A swipe request: the intent is the route, the actor is the
    authenticated user. *)
Inductive Intent := Left | Right.

Record Swipe := mkSwipe {
  intent : Intent;
  actor : User;
  body : option Body
}.

Definition swipe (s : Swipe) : Db -> SwipeResponse * Db :=
  match intent s with
  | Left => swipe_left (actor s) (body s)
  | Right => swipe_right (actor s) (body s)
  end.

(** The database after a sequence of swipe requests, served in order. *)
Definition run (ops : list Swipe) (db : Db) : Db :=
  foldl (fun db s => snd (swipe s db)) db ops.

(** *** The ledger: vocabulary of the statements *)

(** The ordered pair of a record. *)
Definition pair_of (r : ConnectionRequest) : ObjectId * ObjectId :=
  (fromUserId r, toUserId r).

(** At most one record per ordered pair. *)
Definition unique_pairs (l : list ConnectionRequest) : Prop :=
  NoDup (map pair_of l).

(** One record at two moments: the pair is kept, and the status is kept
    or moves from ["interested"] to ["accepted"]. *)
Definition advance (r r' : ConnectionRequest) : Prop :=
  pair_of r' = pair_of r /\
  (status r' = status r \/ (status r = "interested" /\ status r' = "accepted")).

(** A record that a swipe has created. *)
Definition created (r : ConnectionRequest) : Prop :=
  status r = "interested" \/ status r = "ignored" \/ status r = "accepted".

(** The ledger at two moments: the records of the first are all there in
    the second, in place and advanced, followed by the created ones. *)
Definition evolves (old new : list ConnectionRequest) : Prop :=
  exists kept added,
    new = kept ++ added /\ Forall2 advance old kept /\ Forall created added.

End Handlers.

(** ** The read-only views of the router

    [GET /requests/received], [GET /requests/sent] and [GET /connections].
    They read the ledger with [find] and replace identifiers by user
    documents with [populate]; the [console.log] of [/connections] is left
    out. *)

(** A record of the ledger as a view returns it: each of the two paths
    holds an identifier, or, once populated, the user document with that
    identifier ([None] is [null]: no user has it). *)
Record Row (F T : Type) := mkRow {
  row_fromUserId : F;
  row_toUserId : T;
  row_status : string
}.
Arguments mkRow {F T} _ _ _.
Arguments row_fromUserId {F T} _.
Arguments row_toUserId {F T} _.
Arguments row_status {F T} _.

(** [ConnectionRequest.find(filter)], the filter being given as the test
    it makes on a document. *)
Definition ConnectionRequest_find (filter : ConnectionRequest -> bool)
    : Async (list ConnectionRequest) :=
  fun db => (Returned (List.filter filter (connectionRequests db)), db).

(** The document that [populate(path, USER_SAFE_DATA)] puts in place of
    an identifier. *)
Definition populated (o : ObjectId) (db : Db) : option User :=
  find (fun u => eqb_id (_id u) o) (users db).

(** [.populate("fromUserId", USER_SAFE_DATA)] *)
Definition populate_fromUserId (rs : list ConnectionRequest)
    : Async (list (Row (option User) ObjectId)) :=
  fun db =>
    (Returned (map (fun r => mkRow (populated (fromUserId r) db) (toUserId r) (status r))
                   rs), db).

(** [.populate("toUserId", USER_SAFE_DATA)] *)
Definition populate_toUserId (rs : list ConnectionRequest)
    : Async (list (Row ObjectId (option User))) :=
  fun db =>
    (Returned (map (fun r => mkRow (fromUserId r) (populated (toUserId r) db) (status r))
                   rs), db).

(** [.populate("fromUserId", USER_SAFE_DATA).populate("toUserId", USER_SAFE_DATA)] *)
Definition populate_both (rs : list ConnectionRequest)
    : Async (list (Row (option User) (option User))) :=
  fun db =>
    (Returned (map (fun r => mkRow (populated (fromUserId r) db)
                                   (populated (toUserId r) db) (status r))
                   rs), db).

(** The filter [{ toUserId: id, status: "interested" }]. *)
Definition received_by (id : ObjectId) (r : ConnectionRequest) : bool :=
  eqb_id (toUserId r) id && String.eqb (status r) "interested".

(** The filter [{ fromUserId: id, status: "interested" }]. *)
Definition sent_by (id : ObjectId) (r : ConnectionRequest) : bool :=
  eqb_id (fromUserId r) id && String.eqb (status r) "interested".

(** The filter
    [{ $or: [{ toUserId: id, status: "accepted" },
             { fromUserId: id, status: "accepted" }] }]. *)
Definition accepted_with (id : ObjectId) (r : ConnectionRequest) : bool :=
  (eqb_id (toUserId r) id && String.eqb (status r) "accepted") ||
  (eqb_id (fromUserId r) id && String.eqb (status r) "accepted").

(** The answer of a view: [res.json({ message, data })] with status 200
    ([message] is absent from the answer of [/connections]), or
    [res.status(code).json({ message })]. *)
Inductive ViewResponse (D : Type) :=
| ViewJson (message : option string) (data : D)
| ViewStatus (code : nat) (message : string).
Arguments ViewJson {D} message data.
Arguments ViewStatus {D} code message.

(** [err?.message || "Request failed"] *)
Definition message_or_default (message : string) : string :=
  if Js.truthy_string message then message else "Request failed".

(** [GET /requests/received] *)
Definition requests_received (loggedInUser : User)
    : Db -> ViewResponse (list (Row (option User) ObjectId)) * Db :=
  try_catch
    (await docs <- ConnectionRequest_find (received_by (_id loggedInUser)) ;
     await connectionRequests <- populate_fromUserId docs ;
     ret (ViewJson (Some "Data fetched successfully") connectionRequests))
    (fun message => ViewStatus 400 (message_or_default message)).

(** [GET /requests/sent] *)
Definition requests_sent (loggedInUser : User)
    : Db -> ViewResponse (list (Row ObjectId (option User))) * Db :=
  try_catch
    (await docs <- ConnectionRequest_find (sent_by (_id loggedInUser)) ;
     await connectionRequests <- populate_toUserId docs ;
     ret (ViewJson (Some "Data fetched successfully") connectionRequests))
    (fun message => ViewStatus 400 (message_or_default message)).

(** The callback of the [map] of [/connections]: the other party of a
    row. Reading [_id] of a [fromUserId] that is [null] throws a
    [TypeError]; the text of its message is the one of V8. *)
Definition other_party (loggedInUser : User) (row : Row (option User) (option User))
    : Outcome (option User) :=
  match row_fromUserId row with
  | None => Thrown "Cannot read properties of null (reading '_id')"
  | Some from =>
      if String.eqb (ObjectId_toString (_id from))
                    (ObjectId_toString (_id loggedInUser))
      then Returned (row_toUserId row)
      else Returned (Some from)
  end.

(** [rows.map(callback)], for a callback that may throw: the first
    exception, from the left, ends the [map]. *)
Fixpoint map_throwing {A B} (callback : A -> Outcome B) (rows : list A)
    : Outcome (list B) :=
  match rows with
  | [] => Returned []
  | row :: rest =>
      match callback row with
      | Thrown e => Thrown e
      | Returned b =>
          match map_throwing callback rest with
          | Thrown e => Thrown e
          | Returned bs => Returned (b :: bs)
          end
      end
  end.

(** [GET /connections] *)
Definition connections (loggedInUser : User)
    : Db -> ViewResponse (list (option User)) * Db :=
  try_catch
    (await docs <- ConnectionRequest_find (accepted_with (_id loggedInUser)) ;
     await connectionRequests <- populate_both docs ;
     await data <- (fun db => (map_throwing (other_party loggedInUser)
                                 connectionRequests, db)) ;
     ret (ViewJson None data))
    (fun message => ViewStatus 400 (message_or_default message)).

(** The data of an answer of a view; none when the answer is an error. *)
Definition view_data {D} (r : ViewResponse (list D)) : list D :=
  match r with
  | ViewJson _ data => data
  | ViewStatus _ _ => []
  end.

(** ** The application: CORS and the port

    From [app.js]: the [origin] function given to [cors], and
    [normalizePort] with the port the server listens on. *)

Module App.

(** What the [origin] function tells its callback: [callback(null, true)]
    or [callback(new Error(message))]. *)
Inductive CorsDecision :=
| Allowed
| Refused (message : string).

(** [s.startsWith(prefix)] *)
Definition startsWith (s prefix : string) : bool := String.prefix prefix s.

(** The [origin] function; [None] is a request without the [Origin]
    header. *)
Definition origin (o : option string) : CorsDecision :=
  match o with
  | None => Allowed
  | Some origin =>
      if negb (Js.truthy_string origin) then Allowed
      else if startsWith origin "http://localhost:" then Allowed
      else if startsWith origin "http://127.0.0.1:" then Allowed
      else Refused "Not allowed by CORS"
  end.

(** [normalizePort(value)]; [None] is [null] for the result and
    [undefined] for the argument. *)
Definition normalizePort (value : option string) : option Z :=
  match value with
  | None => None
  | Some v =>
      let trimmed := Js.trim v in
      if negb (Js.truthy_string trimmed) then None
      else
        match Js.parseInt trimmed with
        | None => None
        | Some parsed =>
            if (parsed <=? 0)%Z || (65535 <? parsed)%Z then None else Some parsed
        end
  end.

(** [normalizePort(process.env.PORT) ?? 4000] *)
Definition port (env_PORT : option string) : Z :=
  match normalizePort env_PORT with
  | Some p => p
  | None => 4000%Z
  end.

End App.

(** ** Vocabulary for statements about strings *)

(** A string made of white space only. *)
Fixpoint all_space (s : string) : bool :=
  match s with
  | EmptyString => true
  | String c r => Js.is_space c && all_space r
  end.

Definition first_char (s : string) : option ascii :=
  match s with
  | EmptyString => None
  | String c _ => Some c
  end.

Fixpoint last_char (s : string) : option ascii :=
  match s with
  | EmptyString => None
  | String c EmptyString => Some c
  | String _ r => last_char r
  end.

(** A string that neither starts nor ends with white space. *)
Definition trimmed (s : string) : Prop :=
  (forall c, first_char s = Some c -> Js.is_space c = false) /\
  (forall c, last_char s = Some c -> Js.is_space c = false).

(** The decimal numeral of a natural number. *)
Definition decimal (n : N) : string :=
  DecimalString.NilZero.string_of_uint (N.to_uint n).

(** ** Vocabulary for statements about the page and the limit

    The text of a query parameter, described character by character. *)

(** The white space of a query string: TAB, LF, VT, FF, CR, SPACE and
    NBSP. *)
Definition white_space : list ascii :=
  map ascii_of_nat [9; 10; 11; 12; 13; 32; 160]%nat.

Definition decimal_digits : list ascii := list_ascii_of_string "0123456789".

Definition signs : list ascii := ["+"%char; "-"%char].

Definition one_of (l : list ascii) (c : ascii) : bool := existsb (Ascii.eqb c) l.

(** Every character of [s] is one of [l]. *)
Fixpoint made_of (l : list ascii) (s : string) : bool :=
  match s with
  | EmptyString => true
  | String c r => one_of l c && made_of l r
  end.

(** [s] is empty or begins with a character that is none of [l]. *)
Definition begins_without (l : list ascii) (s : string) : bool :=
  match s with
  | EmptyString => true
  | String c _ => negb (one_of l c)
  end.

Inductive Sign := NoSign | Plus | Minus.

Definition sign_text (sg : Sign) : string :=
  match sg with
  | NoSign => ""
  | Plus => "+"
  | Minus => "-"
  end.

(** [s] begins with a numeral: white space, then the sign [sg], then the
    digits [d], at least one and with any leading zeros, then a rest that
    does not go on with a digit. *)
Definition begins_with_numeral (s : string) (sg : Sign) (d : Decimal.uint) : Prop :=
  d <> Decimal.Nil /\
  exists w rest,
    s = (w ++ sign_text sg ++ DecimalString.NilEmpty.string_of_uint d ++ rest)%string /\
    made_of white_space w = true /\
    begins_without decimal_digits rest = true.

(** [s] begins with no numeral: after its white space comes a sign that
    no digit follows or, with no sign, a rest that begins with no digit
    (nor with white space or a sign). *)
Definition begins_with_no_numeral (s : string) : Prop :=
  exists w sg rest,
    s = (w ++ sign_text sg ++ rest)%string /\
    made_of white_space w = true /\
    begins_without decimal_digits rest = true /\
    (sg = NoSign -> begins_without (white_space ++ signs) rest = true).

(** A parameter with no positive number to read: it is missing, or its
    text begins with no numeral, or with a numeral that has a minus sign
    or is zero. *)
Definition gives_no_positive (value : Js.QueryValue) : Prop :=
  value = Js.QUndefined \/
  begins_with_no_numeral (Js.toString value) \/
  exists sg d,
    begins_with_numeral (Js.toString value) sg d /\
    (sg = Minus \/ N.of_uint d = 0%N).

(** A parameter whose text begins with the numeral of the positive number
    [n], with no sign or with a plus sign. *)
Definition gives_positive (value : Js.QueryValue) (n : Z) : Prop :=
  exists sg d,
    begins_with_numeral (Js.toString value) sg d /\
    sg <> Minus /\ n = Z.of_N (N.of_uint d) /\ (0 < n)%Z.

(** ** Further vocabulary for statements about the ledger *)

(** The ordered pair in the other direction. *)
Definition reverse_pair (r : ConnectionRequest) : ObjectId * ObjectId :=
  (toUserId r, fromUserId r).

(** Every accepted record has an accepted record in the other direction. *)
Definition symmetric_accepted (l : list ConnectionRequest) : Prop :=
  forall r, r ∈ l -> status r = "accepted" ->
  exists r', r' ∈ l /\ pair_of r' = reverse_pair r /\ status r' = "accepted".

(** No two distinct users both have an interested record toward each
    other. *)
Definition no_mutual_interest (l : list ConnectionRequest) : Prop :=
  forall r r', r ∈ l -> r' ∈ l ->
  fromUserId r <> toUserId r ->
  status r = "interested" -> status r' = "interested" ->
  pair_of r' <> reverse_pair r.

(** No accepted record goes from a user to themselves. *)
Definition no_accepted_self (l : list ConnectionRequest) : Prop :=
  forall r, r ∈ l -> status r = "accepted" -> fromUserId r <> toUserId r.

(** Every sender of a record is a user of the collection. *)
Definition senders_exist (db : Db) : Prop :=
  forall r, r ∈ connectionRequests db ->
  exists u, u ∈ users db /\ _id u = fromUserId r.

(** Every recipient of a record is a user of the collection. *)
Definition recipients_exist (db : Db) : Prop :=
  forall r, r ∈ connectionRequests db ->
  exists u, u ∈ users db /\ _id u = toUserId r.

(** The entry of [/connections] for a record, as seen by the user [me]:
    the populated recipient when [me] is the sender, the populated sender
    otherwise. *)
Definition other_of (me : ObjectId) (db : Db) (r : ConnectionRequest) : option User :=
  if eqb_id (fromUserId r) me then populated (toUserId r) db
  else populated (fromUserId r) db.

(** The request with another [page] parameter. *)
Definition with_page (query : Query.t) (v : Js.QueryValue) : Query.t :=
  Query.mk v (Query.limit query) (Query.skills query) (Query.experience query)
           (Query.role query) (Query.availability query) (Query.location query).

(** The request with another [experience], [role] or [availability]
    parameter. *)
Definition with_experience (query : Query.t) (v : Js.QueryValue) : Query.t :=
  Query.mk (Query.page query) (Query.limit query) (Query.skills query) v
           (Query.role query) (Query.availability query) (Query.location query).

Definition with_role (query : Query.t) (v : Js.QueryValue) : Query.t :=
  Query.mk (Query.page query) (Query.limit query) (Query.skills query)
           (Query.experience query) v (Query.availability query)
           (Query.location query).

Definition with_availability (query : Query.t) (v : Js.QueryValue) : Query.t :=
  Query.mk (Query.page query) (Query.limit query) (Query.skills query)
           (Query.experience query) (Query.role query) v (Query.location query).

(** ** A driver for the examples

    It casts a string of 24 hexadecimal digits to its lower-case form and
    no other value; a pattern made of letters, digits and spaces is
    compiled to a case-insensitive substring search, and any other pattern
    is refused. *)

Module Sample.

Definition lower (c : ascii) : ascii :=
  let n := nat_of_ascii c in
  if (65 <=? n)%nat && (n <=? 90)%nat then ascii_of_nat (n + 32) else c.

Fixpoint lowercase (s : string) : string :=
  match s with
  | EmptyString => EmptyString
  | String c r => String (lower c) (lowercase r)
  end.

Fixpoint all_chars (p : ascii -> bool) (s : string) : bool :=
  match s with
  | EmptyString => true
  | String c r => p c && all_chars p r
  end.

Definition is_hex (c : ascii) : bool :=
  let n := nat_of_ascii (lower c) in
  Js.is_digit c || ((97 <=? n)%nat && (n <=? 102)%nat).

Definition is_plain (c : ascii) : bool :=
  let n := nat_of_ascii (lower c) in
  Js.is_digit c || ((97 <=? n)%nat && (n <=? 122)%nat) || (n =? 32)%nat.

Fixpoint contains (needle hay : string) : bool :=
  String.prefix needle hay ||
  match hay with
  | EmptyString => false
  | String _ r => contains needle r
  end.

#[export] Instance driver : Mongoose := {|
  castObjectId v :=
    match v with
    | Js.VString s =>
        if (String.length s =? 24)%nat && all_chars is_hex s
        then Some (lowercase s) else None
    | _ => None
    end;
  compileRegex pattern :=
    if all_chars is_plain pattern
    then Some (fun s => contains (lowercase pattern) (lowercase s))
    else None
|}.

Definition idA : ObjectId := "64b7f0a1c2d3e4f5a6b7c8d1".
Definition idB : ObjectId := "64b7f0a1c2d3e4f5a6b7c8d2".
Definition idC : ObjectId := "64b7f0a1c2d3e4f5a6b7c8d3".

Definition userA : User := mkUser idA true ["go"] "senior" "backend" "full-time" "Pune".
Definition userB : User := mkUser idB true ["go"] "junior" "frontend" "part-time" "Delhi".
Definition userC : User := mkUser idC true ["rust"] "junior" "backend" "full-time" "Mumbai".

Definition to (id : ObjectId) : option Body := Some (mkBody (Js.VString id)).

Definition db0 : Db := mkDb [userA; userB; userC] [].

(** The database once [userA] has swiped right on [userB]. *)
Definition db1 : Db :=
  mkDb [userA; userB; userC] [mkConnectionRequest idA idB "interested"].

Definition no_query : Query.t :=
  Query.mk Js.QUndefined Js.QUndefined Js.QUndefined Js.QUndefined
           Js.QUndefined Js.QUndefined Js.QUndefined.

(** Sixty more users, all with a complete profile, and a database where
    nobody has swiped yet. *)
Definition hex_digit (n : nat) : ascii :=
  if (n <? 10)%nat then ascii_of_nat (48 + n) else ascii_of_nat (87 + n).

Definition nth_id (n : nat) : ObjectId :=
  ("5f00000000000000000000" ++
   String (hex_digit (n / 16)) (String (hex_digit (n mod 16)) ""))%string.

Definition crowd (k : nat) : list User :=
  map (fun n => mkUser (nth_id n) true ["go"] "junior" "backend" "full-time" "Pune")
      (seq 0 k).

Definition db_crowd : Db := mkDb (userA :: crowd 60) [].

End Sample.

(** * Properties *)

(** ** Parsing the page and the limit *)

Lemma digits_seen (s : string) (acc : Z) : Js.digits s true acc <> None.
Proof.
  revert acc. induction s as [|c r IH]; intros acc; simpl; [discriminate|].
  destruct (Js.is_digit c); [apply IH | discriminate].
Qed.

Lemma parseInt_unsigned_part (s : string) :
  Js.parseInt s = None <-> Js.digits (Js.unsigned_part s) false 0 = None.
Proof.
  unfold Js.parseInt, Js.unsigned_part.
  destruct (Js.trimStart s) as [|c r]; [reflexivity|].
  destruct c as [[] [] [] [] [] [] [] []]; try reflexivity.
  destruct (Js.digits r false 0); simpl; split; congruence.
Qed.

(** [parseInt] gives [NaN] on the strings that are not numeric, and on
    no other. *)
Lemma parseInt_None (s : string) :
  Js.parseInt s = None <-> Js.numeric s = false.
Proof.
  rewrite parseInt_unsigned_part. unfold Js.numeric.
  destruct (Js.unsigned_part s) as [|c r]; simpl; [tauto|].
  destruct (Js.is_digit c); [|tauto].
  split; [intros Hd; now apply digits_seen in Hd | discriminate].
Qed.

Lemma parsePositiveInt_positive (value : Js.QueryValue) (fallback : Z) :
  (1 <= fallback)%Z -> (1 <= parsePositiveInt value fallback)%Z.
Proof.
  intros Hf. unfold parsePositiveInt.
  destruct (Js.parseInt _) as [parsed|]; [|exact Hf].
  destruct (Z.leb_spec parsed 0); lia.
Qed.

Lemma page_of_positive (query : Query.t) : (1 <= page_of query)%Z.
Proof. apply parsePositiveInt_positive. lia. Qed.

Lemma limit_of_range (query : Query.t) : (1 <= limit_of query <= 50)%Z.
Proof.
  unfold limit_of.
  pose proof (parsePositiveInt_positive (Query.limit query) 10).
  destruct (Z.ltb_spec 50 (parsePositiveInt (Query.limit query) 10)); lia.
Qed.

Example parsePositiveInt_samples :
  parsePositiveInt (Js.QString "7") 1 = 7%Z /\
  parsePositiveInt (Js.QString "  +12abc") 1 = 12%Z /\
  parsePositiveInt (Js.QString "2.9") 1 = 2%Z /\
  parsePositiveInt (Js.QString "-3") 10 = 10%Z /\
  parsePositiveInt (Js.QString "0") 10 = 10%Z /\
  parsePositiveInt (Js.QString "-0") 10 = 10%Z /\
  parsePositiveInt (Js.QString "abc") 10 = 10%Z /\
  parsePositiveInt (Js.QString "") 10 = 10%Z /\
  parsePositiveInt Js.QUndefined 10 = 10%Z /\
  parsePositiveInt (Js.QArray ["5"; "6"]) 10 = 5%Z.
Proof. repeat split; reflexivity. Qed.

Example normalizeSkills_samples :
  normalizeSkills (Js.QString " go , rust,,") = ["go"; "rust"] /\
  normalizeSkills (Js.QString "  go ") = ["go"] /\
  normalizeSkills (Js.QArray [" go"; " "; "js "]) = ["go"; "js"] /\
  normalizeSkills Js.QUndefined = [].
Proof. repeat split; vm_compute; reflexivity. Qed.

(** ** Lists, identifiers and the store calls *)

Lemma eqb_id_eq (a b : ObjectId) : eqb_id a b = true <-> a = b.
Proof. apply String.eqb_eq. Qed.

Lemma eqb_id_neq (a b : ObjectId) : eqb_id a b = false <-> a <> b.
Proof. apply String.eqb_neq. Qed.

Lemma eqb_id_refl (a : ObjectId) : eqb_id a a = true.
Proof. apply String.eqb_refl. Qed.

Lemma find_app {A} (p : A -> bool) (l l' : list A) :
  find p (l ++ l') =
  match find p l with Some x => Some x | None => find p l' end.
Proof.
  induction l as [|x l IH]; simpl; [reflexivity|].
  destruct (p x); [reflexivity | exact IH].
Qed.

Lemma find_None {A} (p : A -> bool) (l : list A) :
  find p l = None <-> (forall x, x ∈ l -> p x = false).
Proof.
  induction l as [|y l IH]; simpl.
  - split; [intros _ x Hx; inversion Hx | reflexivity].
  - destruct (p y) eqn:Hy.
    + split; [discriminate|]. intros Hall.
      rewrite (Hall y) in Hy; [discriminate | left].
    + rewrite IH. split.
      * intros Hall x Hx. apply elem_of_cons in Hx as [->|Hx]; auto.
      * intros Hall x Hx. apply Hall. now right.
Qed.

Lemma find_Some_elem {A} (p : A -> bool) (l : list A) (x : A) :
  find p l = Some x -> x ∈ l /\ p x = true.
Proof.
  intros Hf. apply find_some in Hf as [Hin Hp].
  split; [now apply list_elem_of_In | exact Hp].
Qed.

Lemma find_is_Some {A} (p : A -> bool) (l : list A) (x : A) :
  x ∈ l -> p x = true -> exists y, find p l = Some y.
Proof.
  intros Hin Hp. destruct (find p l) as [y|] eqn:Hf; [now exists y|].
  rewrite find_None in Hf. rewrite (Hf x Hin) in Hp. discriminate.
Qed.

Lemma matches_pair_None (f t : ObjectId) (r : ConnectionRequest) :
  matches_pair f t None r = true <-> pair_of r = (f, t).
Proof.
  unfold matches_pair, pair_of.
  rewrite Bool.andb_true_r, Bool.andb_true_iff, !eqb_id_eq.
  split; [intros [-> ->]; reflexivity | intros [= -> ->]; auto].
Qed.

Lemma matches_pair_Some (f t : ObjectId) (s : string) (r : ConnectionRequest) :
  matches_pair f t (Some s) r = true <-> pair_of r = (f, t) /\ status r = s.
Proof.
  unfold matches_pair, pair_of.
  rewrite !Bool.andb_true_iff, !eqb_id_eq, ?String.eqb_eq.
  split; [intros [[-> ->] ->]; auto | intros [[= -> ->] ->]; auto].
Qed.

Lemma between_true (a b : ObjectId) (r : ConnectionRequest) :
  between a b r = true <-> pair_of r = (a, b) \/ pair_of r = (b, a).
Proof.
  unfold between. now rewrite Bool.orb_true_iff, !matches_pair_None.
Qed.

Lemma between_sym (a b : ObjectId) (r : ConnectionRequest) :
  between a b r = between b a r.
Proof. unfold between. apply Bool.orb_comm. Qed.

Lemma involves_true (a : ObjectId) (r : ConnectionRequest) :
  involves a r = true <-> fromUserId r = a \/ toUserId r = a.
Proof. unfold involves. now rewrite Bool.orb_true_iff, !eqb_id_eq. Qed.

Lemma pair_of_set_status (s : string) (r : ConnectionRequest) :
  pair_of (set_status s r) = pair_of r.
Proof. reflexivity. Qed.

(** ** The two swipe handlers, case by case *)

Section Swipes.
Context `{Mongoose}.

(** The handler of swipe-left, with its store calls run. *)
Lemma swipe_left_unfold (loggedInUser : User) (body : option Body) (db : Db) :
  swipe_left loggedInUser body db =
  let v := destructure_toUserId body in
  if negb (Js.truthy v) then (SwipeStatus 400 "toUserId is required", db)
  else
    match castObjectId v with
    | None => (SwipeStatus 400 "Cast to ObjectId failed", db)
    | Some t =>
        match find (fun u => eqb_id (_id u) t) (users db) with
        | None => (SwipeStatus 404 "User not found", db)
        | Some _ =>
            match find (matches_pair (_id loggedInUser) t None)
                       (connectionRequests db) with
            | Some existing => (SwipeJson "Already swiped" existing None, db)
            | None =>
                if eqb_id (_id loggedInUser) t then (SwipeStatus 400 "ValidationError", db)
                else
                  let r := mkConnectionRequest (_id loggedInUser) t "ignored" in
                  (SwipeJson "Swiped left" r None,
                   mkDb (users db) (connectionRequests db ++ [r]))
            end
        end
    end.
Proof.
  unfold swipe_left, try_catch, bind, User_findById, ConnectionRequest_findOne,
    save, castArg, ret, throw; cbn zeta.
  destruct (Js.truthy (destructure_toUserId body)); cbn; [|reflexivity].
  destruct (castObjectId (destructure_toUserId body)) as [t|]; cbn; [|reflexivity].
  destruct (find _ (users db)); cbn; [|reflexivity].
  destruct (find _ (connectionRequests db)) eqn:Hex; cbn; [reflexivity|].
  destruct (eqb_id (_id loggedInUser) t); [reflexivity|].
  rewrite Hex. reflexivity.
Qed.

(** The handler of swipe-right, with its store calls run. *)
Lemma swipe_right_unfold (loggedInUser : User) (body : option Body) (db : Db) :
  swipe_right loggedInUser body db =
  let v := destructure_toUserId body in
  let a := _id loggedInUser in
  if negb (Js.truthy v) then (SwipeStatus 400 "toUserId is required", db)
  else
    match castObjectId v with
    | None => (SwipeStatus 400 "Cast to ObjectId failed", db)
    | Some t =>
        match find (fun u => eqb_id (_id u) t) (users db) with
        | None => (SwipeStatus 404 "User not found", db)
        | Some _ =>
            let reciprocal :=
              find (matches_pair t a (Some "interested")) (connectionRequests db) in
            match find (matches_pair a t None) (connectionRequests db) with
            | Some existing =>
                (SwipeJson "Already swiped" existing (Some (found reciprocal)), db)
            | None =>
                if eqb_id a t then (SwipeStatus 400 "ValidationError", db)
                else
                let r := mkConnectionRequest a t "interested" in
                let saved := connectionRequests db ++ [r] in
                if found reciprocal then
                  (SwipeJson "It's a match!" r (Some true),
                   mkDb (users db)
                        (map (fun x => if between a t x then set_status "accepted" x
                                       else x) saved))
                else
                  (SwipeJson "Connection request sent" r (Some false),
                   mkDb (users db) saved)
            end
        end
    end.
Proof.
  unfold swipe_right, try_catch, bind, User_findById, ConnectionRequest_findOne,
    save, ConnectionRequest_updateMany_between, castArg, ret, throw; cbn zeta.
  destruct (Js.truthy (destructure_toUserId body)); cbn; [|reflexivity].
  destruct (castObjectId (destructure_toUserId body)) as [t|] eqn:Hc; cbn;
    [|reflexivity].
  destruct (find _ (users db)); cbn; [|reflexivity].
  destruct (find (matches_pair (_id loggedInUser) t None) _) eqn:Hex; cbn.
  - reflexivity.
  - destruct (eqb_id (_id loggedInUser) t); [reflexivity|].
    rewrite Hex.
    destruct (found (find (matches_pair t _ (Some _)) _)); cbn;
      rewrite ?Hex; reflexivity.
Qed.

End Swipes.

(** ** Swipes that fail validation *)

Lemma find_user_None (t : ObjectId) (us : list User) :
  (forall u, u ∈ us -> _id u <> t) ->
  find (fun u => eqb_id (_id u) t) us = None.
Proof.
  intros Hno. apply find_None. intros u Hu. apply eqb_id_neq. now apply Hno.
Qed.

Lemma find_user_Some (t : ObjectId) (us : list User) (target : User) :
  target ∈ us -> _id target = t ->
  exists u, find (fun u => eqb_id (_id u) t) us = Some u.
Proof.
  intros Hin Hid. apply (find_is_Some _ _ target Hin). now apply eqb_id_eq.
Qed.

(** C7. A swipe, left or right, whose body has no [toUserId] is answered
    with status 400, and a swipe whose [toUserId] is an identifier of no
    user is answered with status 404; in both cases the database is the
    one before the request, so no record is created or modified. *)
Theorem swipe_rejected_without_write `{Mongoose} (s : Swipe) (db : Db) :
  let v := destructure_toUserId (body s) in
  (v = Js.VUndefined ->
   swipe s db = (SwipeStatus 400 "toUserId is required", db)) /\
  (forall t,
     Js.truthy v = true -> castObjectId v = Some t ->
     (forall u, u ∈ users db -> _id u <> t) ->
     swipe s db = (SwipeStatus 404 "User not found", db)).
Proof.
  intros v. split.
  - intros Hv. unfold swipe.
    destruct (intent s); rewrite ?swipe_left_unfold, ?swipe_right_unfold;
      cbn zeta; fold v; rewrite Hv; reflexivity.
  - intros t Htruthy Hcast Hno. unfold swipe.
    destruct (intent s); rewrite ?swipe_left_unfold, ?swipe_right_unfold;
      cbn zeta; fold v; rewrite Htruthy, Hcast, (find_user_None t _ Hno);
      reflexivity.
Qed.

Lemma swipe_rejected_without_write_witness :
  swipe (H := Sample.driver) (mkSwipe Right Sample.userA None) Sample.db0 =
    (SwipeStatus 400 "toUserId is required", Sample.db0) /\
  swipe (H := Sample.driver)
    (mkSwipe Left Sample.userA (Sample.to "64b7f0a1c2d3e4f5a6b7c8ff")) Sample.db0 =
    (SwipeStatus 404 "User not found", Sample.db0).
Proof.
  split.
  - apply (swipe_rejected_without_write (mkSwipe Right Sample.userA None) Sample.db0).
    reflexivity.
  - apply (swipe_rejected_without_write
             (mkSwipe Left Sample.userA (Sample.to "64b7f0a1c2d3e4f5a6b7c8ff"))
             Sample.db0)
      with (t := "64b7f0a1c2d3e4f5a6b7c8ff"); [reflexivity | reflexivity |].
    intros u Hu. vm_compute in Hu.
    repeat (apply elem_of_cons in Hu as [-> | Hu]; [discriminate|]).
    inversion Hu.
Defined.

(** A swipe whose [toUserId] is falsy, or is no identifier at all, is
    answered with status 400 and writes nothing either. *)
Lemma swipe_falsy_or_malformed `{Mongoose} (s : Swipe) (db : Db) :
  let v := destructure_toUserId (body s) in
  Js.truthy v = false \/ castObjectId v = None ->
  exists message, swipe s db = (SwipeStatus 400 message, db).
Proof.
  intros v Hv. unfold swipe.
  destruct (intent s); rewrite ?swipe_left_unfold, ?swipe_right_unfold;
    cbn zeta; fold v; destruct (Js.truthy v); cbn; eauto;
    destruct Hv as [Hv|Hv]; try discriminate; rewrite Hv; eauto.
Qed.

(** ** Repeated swipes *)

(** The first record of an ordered pair, when the pair has a record. *)
Lemma find_pair_Some (a t : ObjectId) (l : list ConnectionRequest)
    (r : ConnectionRequest) :
  r ∈ l -> pair_of r = (a, t) ->
  exists existing,
    find (matches_pair a t None) l = Some existing /\
    existing ∈ l /\ pair_of existing = (a, t).
Proof.
  intros Hin Hpair.
  destruct (find_is_Some (matches_pair a t None) l r Hin) as [e He].
  { now apply matches_pair_None. }
  exists e. split; [exact He|].
  apply find_Some_elem in He as [? ?]. split; [assumption|].
  now apply matches_pair_None.
Qed.

Lemma unique_pairs_inj (l : list ConnectionRequest) (r r' : ConnectionRequest) :
  unique_pairs l -> r ∈ l -> r' ∈ l -> pair_of r = pair_of r' -> r = r'.
Proof.
  unfold unique_pairs. induction l as [|x l IH]; simpl; intros Hnd Hr Hr' Heq.
  - inversion Hr.
  - apply NoDup_cons in Hnd as [Hx Hnd].
    apply elem_of_cons in Hr as [->|Hr]; apply elem_of_cons in Hr' as [->|Hr'].
    + reflexivity.
    + exfalso. apply Hx. rewrite Heq. now apply (list_elem_of_fmap_2 pair_of).
    + exfalso. apply Hx. rewrite <- Heq. now apply (list_elem_of_fmap_2 pair_of).
    + now apply IH.
Qed.

(** C9. When the ledger has a record from the actor to the target, a
    swipe-left of the actor on the target is answered with a record of
    that ordered pair taken from the ledger (the record itself when the
    pair has one record only), and the database is left as it was: the
    status of the record, be it ["interested"] or ["accepted"], is not
    turned into ["ignored"], and no other record changes. *)
Theorem swipe_left_again_is_noop `{Mongoose} (loggedInUser target : User)
    (v : Js.Value) (r : ConnectionRequest) (db : Db) :
  Js.truthy v = true ->
  castObjectId v = Some (_id target) ->
  target ∈ users db ->
  r ∈ connectionRequests db ->
  pair_of r = (_id loggedInUser, _id target) ->
  exists existing,
    swipe_left loggedInUser (Some (mkBody v)) db =
      (SwipeJson "Already swiped" existing None, db) /\
    existing ∈ connectionRequests db /\
    pair_of existing = (_id loggedInUser, _id target) /\
    (unique_pairs (connectionRequests db) -> existing = r).
Proof.
  intros Htruthy Hcast Htarget Hr Hpair.
  destruct (find_pair_Some _ _ _ _ Hr Hpair) as (e & He & Hin & Hpe).
  destruct (find_user_Some (_id target) _ target Htarget eq_refl) as [u Hu].
  exists e. rewrite swipe_left_unfold; cbn.
  rewrite Htruthy, Hcast, Hu, He; cbn.
  repeat split; try assumption.
  intros Huniq. apply (unique_pairs_inj _ _ _ Huniq Hin Hr). congruence.
Qed.

Lemma swipe_left_again_is_noop_witness :
  exists existing,
    swipe_left (H := Sample.driver) Sample.userA (Sample.to Sample.idB) Sample.db1 =
      (SwipeJson "Already swiped" existing None, Sample.db1) /\
    existing ∈ connectionRequests Sample.db1 /\
    pair_of existing = (Sample.idA, Sample.idB) /\
    (unique_pairs (connectionRequests Sample.db1) ->
     existing = mkConnectionRequest Sample.idA Sample.idB "interested").
Proof.
  apply (swipe_left_again_is_noop (H := Sample.driver) Sample.userA Sample.userB
           (Js.VString Sample.idB)
           (mkConnectionRequest Sample.idA Sample.idB "interested") Sample.db1).
  - reflexivity.
  - reflexivity.
  - right; left.
  - left.
  - reflexivity.
Defined.




(** ** Self-requests *)

Lemma elem_of_map_update (p : ConnectionRequest -> bool) (s : string)
    (l : list ConnectionRequest) (r : ConnectionRequest) :
  r ∈ map (fun x => if p x then set_status s x else x) l ->
  exists x, x ∈ l /\ pair_of r = pair_of x.
Proof.
  intros Hr.
  apply (list_elem_of_fmap_1 (fun x => if p x then set_status s x else x)) in Hr
    as (x & -> & Hx).
  exists x. split; [exact Hx|]. now destruct (p x).
Qed.

(** A swipe of a user on their own identifier, when the ledger has no
    record from the user to themselves, reaches [save]: neither handler
    compares [toUserId] with [loggedInUser._id]. The store refuses the
    document, the handler answers with status 400, and nothing is
    written. *)
Lemma self_swipe_is_refused_by_save `{Mongoose} (i : Intent) (loggedInUser : User)
    (v : Js.Value) (db : Db) :
  Js.truthy v = true ->
  castObjectId v = Some (_id loggedInUser) ->
  loggedInUser ∈ users db ->
  (forall r, r ∈ connectionRequests db ->
             pair_of r <> (_id loggedInUser, _id loggedInUser)) ->
  exists message,
    swipe (mkSwipe i loggedInUser (Some (mkBody v))) db =
      (SwipeStatus 400 message, db).
Proof.
  intros Htruthy Hcast Huser Hfresh.
  destruct (find_user_Some _ _ loggedInUser Huser eq_refl) as [u Hu].
  assert (Hnone : find (matches_pair (_id loggedInUser) (_id loggedInUser) None)
                       (connectionRequests db) = None).
  { apply find_None. intros r Hr.
    destruct (matches_pair _ _ None r) eqn:Hm; [exfalso | reflexivity].
    apply (Hfresh r Hr). now apply matches_pair_None in Hm. }
  eexists. unfold swipe; destruct i; cbn [intent actor body].
  - rewrite swipe_left_unfold; cbn.
    rewrite Htruthy, Hcast, Hu, Hnone, eqb_id_refl; reflexivity.
  - rewrite swipe_right_unfold; cbn.
    rewrite Htruthy, Hcast, Hu, Hnone, eqb_id_refl; reflexivity.
Qed.

(** One swipe, whoever its target is, creates no self-request: a record
    of the ledger after the swipe that goes from a user to themselves was
    in the ledger before it. *)
Lemma swipe_self_request_is_old `{Mongoose} (s : Swipe) (db : Db)
    (r : ConnectionRequest) :
  r ∈ connectionRequests (snd (swipe s db)) ->
  fromUserId r = toUserId r ->
  r ∈ connectionRequests db.
Proof.
  assert (Hsnoc : forall t st,
             eqb_id (_id (actor s)) t = false ->
             r ∈ connectionRequests db ++ [mkConnectionRequest (_id (actor s)) t st] ->
             fromUserId r = toUserId r -> r ∈ connectionRequests db).
  { intros t st Ht Hr Hself. apply elem_of_app in Hr as [Hr|Hr]; [exact Hr|].
    apply list_elem_of_singleton in Hr. subst r. cbn in Hself.
    apply eqb_id_neq in Ht. contradiction. }
  unfold swipe. destruct (intent s).
  - rewrite swipe_left_unfold; cbn zeta.
    destruct (negb _); [auto|].
    destruct (castObjectId _) as [t|] eqn:Ht; [|auto].
    destruct (find _ (users db)); [|auto].
    destruct (find _ (connectionRequests db)); [auto|].
    destruct (eqb_id (_id (actor s)) t) eqn:Hne; [auto|]. cbn.
    now apply Hsnoc.
  - rewrite swipe_right_unfold; cbn zeta.
    destruct (negb _); [auto|].
    destruct (castObjectId _) as [t|] eqn:Ht; [|auto].
    destruct (find _ (users db)); [|auto].
    destruct (find (matches_pair (_id (actor s)) t None) _); [auto|].
    destruct (eqb_id (_id (actor s)) t) eqn:Hne; [auto|].
    destruct (found _); cbn; [|now apply (Hsnoc t "interested")].
    intros Hr Hself.
    apply (list_elem_of_fmap_1
             (fun x => if between (_id (actor s)) t x then set_status "accepted" x
                       else x)) in Hr as (x & -> & Hx).
    destruct (between (_id (actor s)) t x) eqn:Hb.
    + exfalso. apply eqb_id_neq in Hne. apply Hne.
      cbn in Hself. apply between_true in Hb.
      destruct Hb as [Hb|Hb]; injection Hb as Hf Hto; congruence.
    + now apply (Hsnoc t "interested").
Qed.

Lemma run_self_request_is_old `{Mongoose} (ops : list Swipe) (db : Db)
    (r : ConnectionRequest) :
  r ∈ connectionRequests (run ops db) ->
  fromUserId r = toUserId r ->
  r ∈ connectionRequests db.
Proof.
  revert db. induction ops as [|s ops IH]; intros db Hr Hself; [exact Hr|].
  apply (swipe_self_request_is_old s); [|exact Hself]. now apply IH.
Qed.

(** C8. No swipe creates a self-request: after any sequence of swipes,
    swipes of a user on their own identifier included, a record of the
    ledger whose [fromUserId] equals its [toUserId] was in the ledger
    before the swipes. So, starting from a ledger without self-requests
    (the empty ledger is one), every record of the ledger has
    [fromUserId ≠ toUserId]. The handlers do not make the comparison: the
    document of a self-swipe reaches [save], which refuses it. *)
Theorem no_self_request_is_created `{Mongoose} (ops : list Swipe) (db : Db) :
  (forall r, r ∈ connectionRequests (run ops db) ->
             fromUserId r = toUserId r -> r ∈ connectionRequests db) /\
  ((forall r, r ∈ connectionRequests db -> fromUserId r <> toUserId r) ->
   forall r, r ∈ connectionRequests (run ops db) -> fromUserId r <> toUserId r).
Proof.
  split.
  - intros r. apply run_self_request_is_old.
  - intros Hold r Hr Hself. apply (Hold r); [|exact Hself].
    now apply (run_self_request_is_old ops).
Qed.

Lemma no_self_request_is_created_witness :
  let ops :=
    [mkSwipe Left Sample.userA (Sample.to Sample.idA);
     mkSwipe Right Sample.userB (Sample.to Sample.idA);
     mkSwipe Right Sample.userC (Sample.to Sample.idC);
     mkSwipe Left Sample.userC (Sample.to Sample.idA)] in
  snd (swipe (H := Sample.driver) (mkSwipe Left Sample.userA (Sample.to Sample.idA))
         Sample.db1) = Sample.db1 /\
  List.length (connectionRequests (run (H := Sample.driver) ops Sample.db1)) = 3%nat /\
  Forall (fun r => fromUserId r <> toUserId r)
    (connectionRequests (run (H := Sample.driver) ops Sample.db1)).
Proof.
  intros ops. split; [reflexivity|]. split; [reflexivity|].
  apply Forall_forall.
  apply (proj2 (no_self_request_is_created (H := Sample.driver) ops Sample.db1)).
  intros r Hr. apply list_elem_of_singleton in Hr. subst r. discriminate.
Defined.

(** ** The ledger under swipes *)

Lemma advance_refl (r : ConnectionRequest) : advance r r.
Proof. split; [reflexivity | now left]. Qed.

Lemma advance_trans (r1 r2 r3 : ConnectionRequest) :
  advance r1 r2 -> advance r2 r3 -> advance r1 r3.
Proof.
  intros [Hp1 Hs1] [Hp2 Hs2]. split; [congruence|].
  destruct Hs1 as [Hs1|[Hi1 Ha1]], Hs2 as [Hs2|[Hi2 Ha2]].
  - left; congruence.
  - right; split; congruence.
  - right; split; congruence.
  - rewrite Ha1 in Hi2. discriminate.
Qed.

Lemma advance_created (r r' : ConnectionRequest) :
  created r -> advance r r' -> created r'.
Proof.
  unfold created. intros Hc [_ [Hs|[_ Ha]]]; [rewrite Hs; exact Hc | auto].
Qed.

Lemma Forall2_advance_refl (l : list ConnectionRequest) : Forall2 advance l l.
Proof. induction l; constructor; auto using advance_refl. Qed.

Lemma Forall2_advance_trans (l1 l2 l3 : list ConnectionRequest) :
  Forall2 advance l1 l2 -> Forall2 advance l2 l3 -> Forall2 advance l1 l3.
Proof.
  intros H12. revert l3.
  induction H12 as [|x y l1 l2 Hxy _ IH]; intros l3 H23; inversion H23; subst;
    constructor; eauto using advance_trans.
Qed.

Lemma Forall2_advance_created (l l' : list ConnectionRequest) :
  Forall created l -> Forall2 advance l l' -> Forall created l'.
Proof.
  intros Hc Hadv. induction Hadv as [|x y l l' Hxy _ IH]; [constructor|].
  inversion Hc; subst. constructor; eauto using advance_created.
Qed.

Lemma Forall2_map_r {A} (P : A -> A -> Prop) (f : A -> A) (l : list A) :
  (forall x, x ∈ l -> P x (f x)) -> Forall2 P l (map f l).
Proof.
  induction l as [|x l IH]; intros Hall; simpl; constructor.
  - apply Hall. left.
  - apply IH. intros y Hy. apply Hall. now right.
Qed.

Lemma evolves_refl (l : list ConnectionRequest) : evolves l l.
Proof.
  exists l, []. rewrite app_nil_r.
  split; [reflexivity|]. split; [apply Forall2_advance_refl | constructor].
Qed.

Lemma evolves_trans (l1 l2 l3 : list ConnectionRequest) :
  evolves l1 l2 -> evolves l2 l3 -> evolves l1 l3.
Proof.
  intros (k1 & a1 & -> & Hk1 & Ha1) (k2 & a2 & -> & Hk2 & Ha2).
  apply Forall2_app_inv_l in Hk2 as (k2a & k2b & Hka & Hkb & ->).
  exists k2a, (k2b ++ a2). split; [now rewrite app_assoc|]. split.
  - eapply Forall2_advance_trans; eassumption.
  - apply Forall_app. split; [|assumption].
    apply (Forall2_advance_created a1); assumption.
Qed.

Lemma map_pair_of_update (p : ConnectionRequest -> bool) (s : string)
    (l : list ConnectionRequest) :
  map pair_of (map (fun x => if p x then set_status s x else x) l) = map pair_of l.
Proof.
  induction l as [|x l IH]; simpl; [reflexivity|].
  rewrite IH. now destruct (p x).
Qed.

Lemma unique_pairs_snoc (l : list ConnectionRequest) (r : ConnectionRequest) :
  unique_pairs l ->
  find (matches_pair (fromUserId r) (toUserId r) None) l = None ->
  unique_pairs (l ++ [r]).
Proof.
  unfold unique_pairs. intros Hnd Hfind. rewrite map_app; simpl.
  apply NoDup_app. split; [assumption|]. split.
  - intros p Hp Hp'. apply list_elem_of_singleton in Hp'. subst p.
    apply (list_elem_of_fmap_1 pair_of) in Hp as (x & Hx & Hin).
    rewrite find_None in Hfind. specialize (Hfind x Hin).
    assert (matches_pair (fromUserId r) (toUserId r) None x = true) as Ht
      by (apply matches_pair_None; symmetry; exact Hx).
    congruence.
  - apply NoDup_singleton.
Qed.

Section Ledger.
Context `{Mongoose}.

(** One swipe: the users are kept, the ledger evolves, and pairs stay
    unique. *)
Lemma swipe_step (s : Swipe) (db : Db) :
  unique_pairs (connectionRequests db) ->
  users (snd (swipe s db)) = users db /\
  evolves (connectionRequests db) (connectionRequests (snd (swipe s db))) /\
  unique_pairs (connectionRequests (snd (swipe s db))).
Proof.
  intros Huniq.
  assert (Hsame : users db = users db /\
                  evolves (connectionRequests db) (connectionRequests db) /\
                  unique_pairs (connectionRequests db))
    by (repeat split; [apply evolves_refl | assumption]).
  unfold swipe. destruct (intent s).
  - rewrite swipe_left_unfold; cbn zeta.
    destruct (negb _); [exact Hsame|].
    destruct (castObjectId _) as [t|]; [|exact Hsame].
    destruct (find _ (users db)); [|exact Hsame].
    destruct (find _ (connectionRequests db)) eqn:Hex; [exact Hsame|].
    destruct (eqb_id (_id (actor s)) t); [exact Hsame|]. cbn.
    split; [reflexivity|]. split.
    + exists (connectionRequests db), [mkConnectionRequest (_id (actor s)) t "ignored"].
      split; [reflexivity|]. split; [apply Forall2_advance_refl|].
      constructor; [right; left; reflexivity | constructor].
    + now apply unique_pairs_snoc.
  - rewrite swipe_right_unfold; cbn zeta.
    destruct (negb _); [exact Hsame|].
    destruct (castObjectId _) as [t|]; [|exact Hsame].
    destruct (find _ (users db)); [|exact Hsame].
    destruct (find (matches_pair (_id (actor s)) t None) _) eqn:Hex; [exact Hsame|].
    destruct (eqb_id (_id (actor s)) t); [exact Hsame|].
    set (r := mkConnectionRequest (_id (actor s)) t "interested").
    destruct (find (matches_pair t (_id (actor s)) (Some "interested")) _)
      as [e|] eqn:Hrec; cbn [found snd users connectionRequests].
    + split; [reflexivity|]. split.
      * rewrite map_app; simpl.
        eexists _, _. split; [reflexivity|]. split.
        -- apply Forall2_map_r. intros x Hx.
           destruct (between (_id (actor s)) t x) eqn:Hb; [|apply advance_refl].
           split; [reflexivity|]. right. split; [|reflexivity].
           apply find_Some_elem in Hrec as [Hein Hem].
           apply matches_pair_Some in Hem as [Hep Hes].
           apply between_true in Hb as [Hb|Hb].
           ++ rewrite find_None in Hex. specialize (Hex x Hx).
              apply matches_pair_None in Hb. congruence.
           ++ rewrite (unique_pairs_inj _ x e Huniq Hx Hein); [exact Hes|congruence].
        -- constructor; [|constructor].
           destruct (between _ _ r); [right; right | left]; reflexivity.
      * unfold unique_pairs. rewrite map_pair_of_update.
        now apply unique_pairs_snoc.
    + split; [reflexivity|]. split.
      * exists (connectionRequests db), [r].
        split; [reflexivity|]. split; [apply Forall2_advance_refl|].
        constructor; [left; reflexivity | constructor].
      * now apply unique_pairs_snoc.
Qed.

Lemma run_cons (s : Swipe) (ops : list Swipe) (db : Db) :
  run (s :: ops) db = run ops (snd (swipe s db)).
Proof. reflexivity. Qed.

(** Any sequence of swipes: the same three facts. *)
Lemma run_steps (ops : list Swipe) (db : Db) :
  unique_pairs (connectionRequests db) ->
  users (run ops db) = users db /\
  evolves (connectionRequests db) (connectionRequests (run ops db)) /\
  unique_pairs (connectionRequests (run ops db)).
Proof.
  revert db. induction ops as [|s ops IH]; intros db Huniq.
  - repeat split; [apply evolves_refl | assumption].
  - rewrite run_cons.
    destruct (swipe_step s db Huniq) as (Hu1 & He1 & Hq1).
    destruct (IH _ Hq1) as (Hu2 & He2 & Hq2).
    split; [congruence|]. split; [|assumption].
    eapply evolves_trans; eassumption.
Qed.

End Ledger.

(** C4. Starting from a ledger with at most one record per ordered pair
    (the empty ledger is one), after any sequence of swipes: every record
    of the ledger is still there, at its place and with its pair, and its
    status is the one it had, or has moved from ["interested"] to
    ["accepted"]; so a record that was ["ignored"] is ["ignored"], and an
    ["accepted"] one stays so. The records that come after them were
    created by the swipes with status ["interested"] or ["ignored"], the
    former possibly moved to ["accepted"] since. Pairs are still unique. *)
Theorem status_only_moves_forward `{Mongoose} (ops : list Swipe) (db : Db) :
  unique_pairs (connectionRequests db) ->
  let old := connectionRequests db in
  let new := connectionRequests (run ops db) in
  unique_pairs new /\
  (forall i r,
     old !! i = Some r ->
     exists r',
       new !! i = Some r' /\
       pair_of r' = pair_of r /\
       (status r' = status r \/
        (status r = "interested" /\ status r' = "accepted")) /\
       (status r = "ignored" -> status r' = "ignored") /\
       (status r = "accepted" -> status r' = "accepted")) /\
  (forall i r',
     (List.length old <= i)%nat -> new !! i = Some r' ->
     status r' = "interested" \/ status r' = "ignored" \/ status r' = "accepted").
Proof.
  intros Huniq old new.
  destruct (run_steps ops db Huniq) as (_ & (kept & added & Hnew & Hkept & Hadd) & Hq).
  fold new in Hnew, Hq. split; [exact Hq|]. split.
  - intros i r Hi.
    destruct (Forall2_lookup_l _ _ _ _ _ Hkept Hi) as (r' & Hi' & Hp & Hs).
    exists r'. rewrite Hnew. split; [now apply lookup_app_l_Some|].
    split; [exact Hp|]. split; [exact Hs|].
    split; intros Hst; destruct Hs as [Hs|[Hint _]]; congruence.
  - intros i r' Hlen Hi. rewrite Hnew in Hi.
    rewrite lookup_app_r in Hi.
    + rewrite Forall_lookup in Hadd. exact (Hadd _ _ Hi).
    + apply Forall2_length in Hkept. fold old in Hkept. rewrite <- Hkept. exact Hlen.
Qed.

Lemma status_only_moves_forward_witness :
  let ops := [mkSwipe Right Sample.userB (Sample.to Sample.idA);
              mkSwipe Left Sample.userC (Sample.to Sample.idA)] in
  let old := connectionRequests Sample.db1 in
  let new := connectionRequests (run (H := Sample.driver) ops Sample.db1) in
  unique_pairs new /\
  (forall i r,
     old !! i = Some r ->
     exists r',
       new !! i = Some r' /\
       pair_of r' = pair_of r /\
       (status r' = status r \/
        (status r = "interested" /\ status r' = "accepted")) /\
       (status r = "ignored" -> status r' = "ignored") /\
       (status r = "accepted" -> status r' = "accepted")) /\
  (forall i r',
     (List.length old <= i)%nat -> new !! i = Some r' ->
     status r' = "interested" \/ status r' = "ignored" \/ status r' = "accepted").
Proof.
  apply (status_only_moves_forward (H := Sample.driver)
           [mkSwipe Right Sample.userB (Sample.to Sample.idA);
            mkSwipe Left Sample.userC (Sample.to Sample.idA)]
           Sample.db1).
  unfold unique_pairs; simpl. apply NoDup_singleton.
Defined.

Example run_sample :
  connectionRequests
    (run (H := Sample.driver)
       [mkSwipe Right Sample.userB (Sample.to Sample.idA);
        mkSwipe Left Sample.userC (Sample.to Sample.idA)]
       Sample.db1) =
  [mkConnectionRequest Sample.idA Sample.idB "accepted";
   mkConnectionRequest Sample.idB Sample.idA "accepted";
   mkConnectionRequest Sample.idC Sample.idA "ignored"].
Proof. vm_compute. reflexivity. Qed.

(** ** The match *)

Lemma map_update_id (p : ConnectionRequest -> bool) (s : string)
    (l : list ConnectionRequest) :
  (forall x, x ∈ l -> p x = false) ->
  map (fun x => if p x then set_status s x else x) l = l.
Proof.
  induction l as [|x l IH]; intros Hall; simpl; [reflexivity|].
  rewrite (Hall x) by left. f_equal. apply IH. intros y Hy. apply Hall. now right.
Qed.

Lemma find_pair_None_of_between (a b : ObjectId) (st : option string)
    (l : list ConnectionRequest) :
  (forall r, r ∈ l -> between a b r = false) ->
  find (matches_pair a b st) l = None /\ find (matches_pair b a st) l = None.
Proof.
  intros Hno. split; apply find_None; intros r Hr; specialize (Hno r Hr);
    unfold between in Hno; apply Bool.orb_false_iff in Hno as [Hab Hba];
    unfold matches_pair in *; rewrite Bool.andb_true_r in Hab, Hba;
    [rewrite Hab | rewrite Hba]; reflexivity.
Qed.

(** C1. Two distinct users, both in the collection, with no record
    between them in the ledger: [A] swipes right on [B] and is answered
    [matched = false]; then [B] swipes right on [A] and is answered
    [matched = true]; the ledger is then the one before the two swipes
    followed by the record from [A] to [B] and the record from [B] to [A],
    both with status ["accepted"]. [A] and [B] are any two users, so the
    two orders are covered. *)
Theorem mutual_right_swipe_matches `{Mongoose} (A B : User) (vA vB : Js.Value)
    (db : Db) :
  _id A <> _id B ->
  A ∈ users db -> B ∈ users db ->
  Js.truthy vA = true -> castObjectId vA = Some (_id A) ->
  Js.truthy vB = true -> castObjectId vB = Some (_id B) ->
  (forall r, r ∈ connectionRequests db -> between (_id A) (_id B) r = false) ->
  let first := swipe_right A (Some (mkBody vB)) db in
  let second := swipe_right B (Some (mkBody vA)) (snd first) in
  matched_of (fst first) = Some false /\
  matched_of (fst second) = Some true /\
  connectionRequests (snd second) =
    connectionRequests db ++
      [mkConnectionRequest (_id A) (_id B) "accepted";
       mkConnectionRequest (_id B) (_id A) "accepted"].
Proof.
  intros Hne HA HB HtA HcA HtB HcB Hno first second.
  destruct (find_user_Some _ _ A HA eq_refl) as [uA HuA].
  destruct (find_user_Some _ _ B HB eq_refl) as [uB HuB].
  destruct (find_pair_None_of_between _ _ None _ Hno) as [HAB HBA].
  destruct (find_pair_None_of_between _ _ (Some "interested") _ Hno) as [_ HBAi].
  assert (HneAB : eqb_id (_id A) (_id B) = false) by now apply eqb_id_neq.
  assert (HneBA : eqb_id (_id B) (_id A) = false)
    by (apply eqb_id_neq; congruence).
  assert (Hfirst : first =
            (SwipeJson "Connection request sent"
               (mkConnectionRequest (_id A) (_id B) "interested") (Some false),
             mkDb (users db)
                  (connectionRequests db ++
                     [mkConnectionRequest (_id A) (_id B) "interested"]))).
  { unfold first. rewrite swipe_right_unfold; cbn.
    rewrite HtB, HcB, HuB, HAB, HneAB, HBAi. reflexivity. }
  assert (Hsecond : second =
            (SwipeJson "It's a match!"
               (mkConnectionRequest (_id B) (_id A) "interested") (Some true),
             mkDb (users db)
                  (connectionRequests db ++
                     [mkConnectionRequest (_id A) (_id B) "accepted";
                      mkConnectionRequest (_id B) (_id A) "accepted"]))).
  { unfold second. rewrite Hfirst, swipe_right_unfold; cbn.
    rewrite HtA, HcA, HuA, !find_app, HBA, (proj1 (find_pair_None_of_between
      _ _ (Some "interested") _ Hno)); cbn.
    set (r1 := mkConnectionRequest (_id A) (_id B) "interested").
    set (r2 := mkConnectionRequest (_id B) (_id A) "interested").
    assert (matches_pair (_id B) (_id A) None r1 = false) as ->
      by (apply Bool.not_true_is_false; intros Hm;
          apply matches_pair_None in Hm; injection Hm; intros; congruence).
    assert (matches_pair (_id A) (_id B) (Some "interested") r1 = true) as ->
      by (apply matches_pair_Some; split; reflexivity).
    rewrite HneBA.
    cbn. rewrite !map_app, map_update_id; cbn.
    - assert (between (_id B) (_id A) r1 = true) as ->
        by (apply between_true; right; reflexivity).
      assert (between (_id B) (_id A) r2 = true) as ->
        by (apply between_true; left; reflexivity).
      rewrite <- app_assoc. reflexivity.
    - intros x Hx. rewrite between_sym. now apply Hno. }
  rewrite Hsecond, Hfirst. repeat split.
Qed.

Lemma mutual_right_swipe_matches_witness :
  let first :=
    swipe_right (H := Sample.driver) Sample.userA (Sample.to Sample.idB) Sample.db0 in
  let second :=
    swipe_right (H := Sample.driver) Sample.userB (Sample.to Sample.idA) (snd first) in
  matched_of (fst first) = Some false /\
  matched_of (fst second) = Some true /\
  connectionRequests (snd second) =
    [mkConnectionRequest Sample.idA Sample.idB "accepted";
     mkConnectionRequest Sample.idB Sample.idA "accepted"].
Proof.
  apply (mutual_right_swipe_matches (H := Sample.driver) Sample.userA Sample.userB
           (Js.VString Sample.idA) (Js.VString Sample.idB) Sample.db0).
  - discriminate.
  - left.
  - right; left.
  - reflexivity.
  - reflexivity.
  - reflexivity.
  - reflexivity.
  - intros r Hr. inversion Hr.
Defined.

(** ** The feed *)

Lemma elem_of_hideUsersFromFeed (x : string) (rs : list ConnectionRequest) :
  x ∈ hideUsersFromFeed rs <->
  exists r, r ∈ rs /\ (x = fromUserId r \/ x = toUserId r).
Proof.
  unfold hideUsersFromFeed, ObjectId_toString.
  assert (Hgen : forall acc : gset string,
             x ∈ foldl (fun hide req =>
                          {[ toUserId req ]} ∪ ({[ fromUserId req ]} ∪ hide))
                       acc rs <->
             x ∈ acc \/ exists r, r ∈ rs /\ (x = fromUserId r \/ x = toUserId r)).
  { induction rs as [|r rs IH]; intros acc; simpl.
    - split; [now left | intros [?|(r & Hr & _)]; [assumption | inversion Hr]].
    - rewrite IH. rewrite !elem_of_union, !elem_of_singleton. split.
      + intros [[?|[?|?]]|(r' & Hr' & Hx)].
        * right. exists r. split; [left | now right].
        * right. exists r. split; [left | now left].
        * now left.
        * right. exists r'. split; [now right | assumption].
      + intros [?|(r' & Hr' & Hx)]; [left; right; now right|].
        apply elem_of_cons in Hr' as [->|Hr'].
        * left. destruct Hx; [right; now left | now left].
        * right. now exists r'. }
  rewrite Hgen. split; [intros [Hx|?]; [set_solver | assumption] | now right].
Qed.

Section Feed.
Context `{Mongoose}.

(** The feed handler, with its store calls run. *)
Lemma feed_unfold (loggedInUser : User) (query : Query.t) (db : Db) :
  feed loggedInUser query db =
  match candidates loggedInUser query db with
  | Thrown message => (FeedStatus 400 message, db)
  | Returned c =>
      let limit := limit_of query in
      let rows :=
        firstn (Z.to_nat (limit + 1)) (skipn (Z.to_nat (skip_of query)) c) in
      let hasMore := (limit <? Z.of_nat (List.length rows))%Z in
      (FeedJson (if hasMore then firstn (Z.to_nat limit) rows else rows)
         (page_of query) limit hasMore, db)
  end.
Proof.
  unfold feed, candidates, try_catch, bind, ConnectionRequest_find_involving,
    User_find, ret; cbn zeta.
  change (fq_location_regex _) with (fq_location_regex (filterQuery_of loggedInUser query db)).
  destruct (fq_location_regex (filterQuery_of loggedInUser query db)) as [pattern|];
    [destruct (compileRegex pattern)|]; reflexivity.
Qed.

(** The feed answers with a page whenever its query runs. *)
Lemma feed_returns (loggedInUser : User) (query : Query.t) (db : Db)
    (c : list User) :
  (1 <= limit_of query)%Z ->
  candidates loggedInUser query db = Returned c ->
  let rest := skipn (Z.to_nat (skip_of query)) c in
  feed loggedInUser query db =
    (FeedJson (firstn (Z.to_nat (limit_of query)) rest) (page_of query)
       (limit_of query) (limit_of query <? Z.of_nat (List.length rest))%Z, db).
Proof.
  intros Hlimit Hc rest. rewrite feed_unfold, Hc; cbn zeta. fold rest.
  set (limit := limit_of query) in *.
  replace (Z.to_nat (limit + 1)) with (S (Z.to_nat limit)) by lia.
  destruct (Nat.le_gt_cases (List.length rest) (Z.to_nat limit)) as [Hle|Hgt].
  - rewrite !take_ge by lia.
    replace (limit <? Z.of_nat (List.length rest))%Z with false
      by (symmetry; apply Z.ltb_ge; lia).
    reflexivity.
  - rewrite length_take_le by lia.
    replace (limit <? Z.of_nat (S (Z.to_nat limit)))%Z with true
      by (symmetry; apply Z.ltb_lt; lia).
    replace (limit <? Z.of_nat (List.length rest))%Z with true
      by (symmetry; apply Z.ltb_lt; lia).
    rewrite take_take.
    replace (Nat.min (Z.to_nat limit) (S (Z.to_nat limit))) with (Z.to_nat limit)
      by lia.
    reflexivity.
Qed.

(** Every user of an answer of the feed is a candidate. *)
Lemma feed_data_candidates (loggedInUser : User) (query : Query.t) (db : Db)
    (u : User) :
  u ∈ feed_data (fst (feed loggedInUser query db)) ->
  exists c, candidates loggedInUser query db = Returned c /\ u ∈ c.
Proof.
  rewrite feed_unfold.
  destruct (candidates loggedInUser query db) as [c|message]; cbn;
    [|intros Hu; inversion Hu].
  intros Hu. exists c. split; [reflexivity|].
  assert (Hrows : u ∈ firstn (Z.to_nat (limit_of query + 1))
                        (skipn (Z.to_nat (skip_of query)) c)).
  { destruct (_ <? _)%Z; [|exact Hu].
    apply elem_of_take in Hu as (i & Hi & _). eapply list_elem_of_lookup_2, Hi. }
  apply elem_of_take in Hrows as (i & Hi & _).
  rewrite lookup_drop in Hi. eapply list_elem_of_lookup_2, Hi.
Qed.

(** A candidate is a user of the collection, is not in the set of hidden
    users, is not the requester, and has a complete profile. *)
Lemma candidate_inv (loggedInUser : User) (query : Query.t) (db : Db)
    (c : list User) (u : User) :
  candidates loggedInUser query db = Returned c -> u ∈ c ->
  u ∈ users db /\
  (_id u ∉ hideUsersFromFeed
             (List.filter (involves (_id loggedInUser)) (connectionRequests db))) /\
  _id u <> _id loggedInUser /\
  isProfileComplete u = true.
Proof.
  unfold candidates. set (fq := filterQuery_of loggedInUser query db).
  intros Hc Hu.
  assert (Hsat : u ∈ users db /\ exists re, satisfies fq re u = true).
  { destruct (fq_location_regex fq) as [pattern|];
      [destruct (compileRegex pattern) as [re|]; [|discriminate]|];
      injection Hc as <-; apply list_elem_of_In, filter_In in Hu as [Hin Hs];
      (split; [now apply list_elem_of_In | eauto]). }
  destruct Hsat as [Hin [re Hs]]. split; [exact Hin|].
  unfold satisfies in Hs. rewrite !Bool.andb_true_iff in Hs.
  destruct Hs as [[[[[[[Hnin Hne] Hcomplete] _] _] _] _] _].
  split; [|split].
  - intros Hhide. apply Bool.negb_true_iff in Hnin.
    assert (existsb (String.eqb (ObjectId_toString (_id u))) (fq_nin fq) = true)
      as Hex; [|congruence].
    apply existsb_exists. exists (_id u). split; [|apply String.eqb_refl].
    apply list_elem_of_In. cbn. now apply elem_of_elements.
  - apply Bool.negb_true_iff in Hne. now apply eqb_id_neq.
  - cbn in Hcomplete. now destruct (isProfileComplete u).
Qed.

(** Once the ledger has a record between the requester and another user,
    in either direction, that user is in no answer of the feed. *)
Lemma feed_hides (loggedInUser : User) (query : Query.t) (db : Db)
    (other : ObjectId) (r : ConnectionRequest) (u : User) :
  r ∈ connectionRequests db ->
  between (_id loggedInUser) other r = true ->
  u ∈ feed_data (fst (feed loggedInUser query db)) ->
  _id u <> other.
Proof.
  intros Hr Hb Hu Heq.
  destruct (feed_data_candidates _ _ _ _ Hu) as (c & Hc & Hin).
  destruct (candidate_inv _ _ _ _ _ Hc Hin) as (_ & Hhide & _).
  apply Hhide, elem_of_hideUsersFromFeed. exists r.
  apply between_true in Hb. split.
  - apply list_elem_of_In, filter_In. split; [now apply list_elem_of_In|].
    apply involves_true. destruct Hb as [[= ? ?]|[= ? ?]]; auto.
  - rewrite Heq. destruct Hb as [[= ? ?]|[= ? ?]]; auto.
Qed.

(** A swipe keeps the pair of every record of the ledger. *)
Lemma swipe_keeps_pairs (s : Swipe) (db : Db) (p : ObjectId * ObjectId) :
  p ∈ map pair_of (connectionRequests db) ->
  p ∈ map pair_of (connectionRequests (snd (swipe s db))).
Proof.
  intros Hp. unfold swipe. destruct (intent s).
  - rewrite swipe_left_unfold; cbn zeta.
    repeat (match goal with |- context [match ?x with _ => _ end] => destruct x end;
            try exact Hp).
    cbn. rewrite map_app. apply elem_of_app. now left.
  - rewrite swipe_right_unfold; cbn zeta.
    repeat (match goal with |- context [match ?x with _ => _ end] => destruct x end;
            try exact Hp);
      cbn; rewrite ?map_pair_of_update, map_app; apply elem_of_app; now left.
Qed.

Lemma run_keeps_pairs (ops : list Swipe) (db : Db) (p : ObjectId * ObjectId) :
  p ∈ map pair_of (connectionRequests db) ->
  p ∈ map pair_of (connectionRequests (run ops db)).
Proof.
  revert db. induction ops as [|s ops IH]; intros db Hp; [exact Hp|].
  rewrite run_cons. now apply IH, swipe_keeps_pairs.
Qed.

End Feed.

(** A record between two users hides each from the feed of the other,
    whatever swipes follow. *)
Lemma connected_stay_hidden `{Mongoose} (a b : ObjectId) (r : ConnectionRequest)
    (ops : list Swipe) (db : Db) :
  r ∈ connectionRequests db ->
  pair_of r = (a, b) \/ pair_of r = (b, a) ->
  forall (loggedInUser : User) (query : Query.t) (u : User),
    u ∈ feed_data (fst (feed loggedInUser query (run ops db))) ->
    (_id loggedInUser = a -> _id u <> b) /\
    (_id loggedInUser = b -> _id u <> a).
Proof.
  intros Hr Hpair loggedInUser query u Hu.
  assert (Hkept : pair_of r ∈ map pair_of (connectionRequests (run ops db))).
  { apply run_keeps_pairs. now apply (list_elem_of_fmap_2 pair_of). }
  apply (list_elem_of_fmap_1 pair_of) in Hkept as (r' & Hp' & Hr').
  split; intros Hid; apply (feed_hides loggedInUser query (run ops db) _ r' u Hr');
    try exact Hu; apply between_true; rewrite Hid, <- Hp';
    destruct Hpair; auto.
Qed.

(** C3. Once the ledger has a record between two users, in either
    direction and with any status, then after any sequence of swipes, and
    for any query (filters, page and limit), the answer of the feed to
    either of them has no user with the identifier of the other. *)
Theorem feed_excludes_connected `{Mongoose} (a b : ObjectId) (r : ConnectionRequest)
    (ops : list Swipe) (db : Db) :
  r ∈ connectionRequests db ->
  pair_of r = (a, b) \/ pair_of r = (b, a) ->
  forall (loggedInUser : User) (query : Query.t) (u : User),
    u ∈ feed_data (fst (feed loggedInUser query (run ops db))) ->
    (_id loggedInUser = a -> _id u <> b) /\
    (_id loggedInUser = b -> _id u <> a).
Proof. exact (connected_stay_hidden a b r ops db). Qed.

Lemma feed_excludes_connected_witness :
  let db :=
    run (H := Sample.driver) [mkSwipe Left Sample.userC (Sample.to Sample.idB)]
      Sample.db1 in
  Sample.userC ∈ feed_data (fst (feed (H := Sample.driver) Sample.userA
                                  Sample.no_query db)) /\
  (_id Sample.userA = Sample.idA -> _id Sample.userC <> Sample.idB) /\
  (_id Sample.userA = Sample.idB -> _id Sample.userC <> Sample.idA).
Proof.
  assert (Hin : Sample.userC ∈
                feed_data (fst (feed (H := Sample.driver) Sample.userA Sample.no_query
                                  (run (H := Sample.driver)
                                     [mkSwipe Left Sample.userC (Sample.to Sample.idB)]
                                     Sample.db1))))
    by (vm_compute; left).
  split; [exact Hin|].
  apply (feed_excludes_connected (H := Sample.driver) Sample.idA Sample.idB
           (mkConnectionRequest Sample.idA Sample.idB "interested")
           [mkSwipe Left Sample.userC (Sample.to Sample.idB)] Sample.db1
           (list_elem_of_here _ _) (or_introl eq_refl)
           Sample.userA Sample.no_query Sample.userC Hin).
Defined.

(** C5, as the code has it. Two distinct users with no record between
    them, [B] in the collection: after [A] swipes left on [B], the ledger
    is the one before followed by the record from [A] to [B] with status
    ["ignored"], it has no record from [B] to [A], and from then on, after
    any sequence of swipes and for any query, [B] is in no answer of the
    feed to [A] and [A] is in no answer of the feed to [B]. *)
Theorem swipe_left_hides_both_ways `{Mongoose} (A B : User) (vB : Js.Value)
    (db : Db) :
  _id A <> _id B ->
  B ∈ users db ->
  Js.truthy vB = true -> castObjectId vB = Some (_id B) ->
  (forall r, r ∈ connectionRequests db -> between (_id A) (_id B) r = false) ->
  let db' := snd (swipe_left A (Some (mkBody vB)) db) in
  connectionRequests db' =
    connectionRequests db ++ [mkConnectionRequest (_id A) (_id B) "ignored"] /\
  (forall r, r ∈ connectionRequests db' -> pair_of r <> (_id B, _id A)) /\
  (forall (ops : list Swipe) (loggedInUser : User) (query : Query.t) (u : User),
     u ∈ feed_data (fst (feed loggedInUser query (run ops db'))) ->
     (_id loggedInUser = _id A -> _id u <> _id B) /\
     (_id loggedInUser = _id B -> _id u <> _id A)).
Proof.
  intros Hne HB Ht Hc Hno db'.
  destruct (find_user_Some _ _ B HB eq_refl) as [uB HuB].
  destruct (find_pair_None_of_between _ _ None _ Hno) as [HAB HBA].
  assert (Hdb' : connectionRequests db' =
            connectionRequests db ++ [mkConnectionRequest (_id A) (_id B) "ignored"]).
  { unfold db'. rewrite swipe_left_unfold; cbn.
    rewrite Ht, Hc, HuB, HAB, (proj2 (eqb_id_neq _ _) Hne). reflexivity. }
  split; [exact Hdb'|]. split.
  - intros r Hr Hp. rewrite Hdb' in Hr. apply elem_of_app in Hr as [Hr|Hr].
    + specialize (Hno r Hr).
      assert (between (_id A) (_id B) r = true) by (apply between_true; now right).
      congruence.
    + apply list_elem_of_singleton in Hr. subst r.
      injection Hp as Hp _. contradiction.
  - intros ops loggedInUser query u.
    apply (connected_stay_hidden (_id A) (_id B)
             (mkConnectionRequest (_id A) (_id B) "ignored") ops db').
    + rewrite Hdb'. apply elem_of_app. right. left.
    + left. reflexivity.
Qed.

Lemma swipe_left_hides_both_ways_witness :
  let db' :=
    snd (swipe_left (H := Sample.driver) Sample.userA (Sample.to Sample.idB)
           Sample.db0) in
  connectionRequests db' = [mkConnectionRequest Sample.idA Sample.idB "ignored"] /\
  (forall r, r ∈ connectionRequests db' -> pair_of r <> (Sample.idB, Sample.idA)) /\
  (forall (ops : list Swipe) (loggedInUser : User) (query : Query.t) (u : User),
     u ∈ feed_data
           (fst (feed (H := Sample.driver) loggedInUser query
                   (run (H := Sample.driver) ops db'))) ->
     (_id loggedInUser = Sample.idA -> _id u <> Sample.idB) /\
     (_id loggedInUser = Sample.idB -> _id u <> Sample.idA)).
Proof.
  apply (swipe_left_hides_both_ways (H := Sample.driver) Sample.userA Sample.userB
           (Js.VString Sample.idB) Sample.db0).
  - discriminate.
  - right; left.
  - reflexivity.
  - reflexivity.
  - intros r Hr. inversion Hr.
Defined.

(** C5, as stated, fails. In the sample database nobody has swiped and
    [userA] is in the feed of [userB]; once [userA] has swiped left on
    [userB], the ledger has no record from [userB], who has made no
    signal, and yet [userA] is no longer in the feed of [userB]. *)
Lemma swiper_leaves_feed_of_swiped :
  let db' :=
    snd (swipe_left (H := Sample.driver) Sample.userA (Sample.to Sample.idB)
           Sample.db0) in
  (forall r, r ∈ connectionRequests db' -> fromUserId r <> Sample.idB) /\
  Sample.userA ∈
    feed_data (fst (feed (H := Sample.driver) Sample.userB Sample.no_query Sample.db0)) /\
  Sample.userA ∉
    feed_data (fst (feed (H := Sample.driver) Sample.userB Sample.no_query db')).
Proof.
  cbv zeta. split; [|split].
  - intros r Hr. vm_compute in Hr.
    apply list_elem_of_singleton in Hr. subst r. discriminate.
  - vm_compute. left.
  - vm_compute. intros Hin.
    apply list_elem_of_singleton in Hin. discriminate.
Qed.

(** ** Pages of the feed *)

(** The rows that [User.find] fetches are cut out of the candidates. *)
Lemma User_find_candidates `{Mongoose} (loggedInUser : User) (query : Query.t)
    (db : Db) (c : list User) (skip n : Z) :
  candidates loggedInUser query db = Returned c ->
  User_find (filterQuery_of loggedInUser query db) skip n db =
    (Returned (firstn (Z.to_nat n) (skipn (Z.to_nat skip) c)), db).
Proof.
  unfold candidates, User_find.
  destruct (fq_location_regex _) as [pattern|];
    [destruct (compileRegex pattern); [|discriminate]|];
    intros [= <-]; reflexivity.
Qed.

(** The candidates do not depend on the [limit] parameter. *)
Lemma candidates_with_limit `{Mongoose} (loggedInUser : User) (query : Query.t)
    (v : Js.QueryValue) (db : Db) :
  candidates loggedInUser (with_limit query v) db = candidates loggedInUser query db.
Proof. reflexivity. Qed.

(** C6. The limit of the feed is at most 50; a request with [limit=10000]
    is answered as the same request with [limit=50]; when the query runs,
    the handler fetches at most [limit + 1] rows after the skipped ones,
    answers with the first [limit] of them, and [hasMore] tells whether
    the number of fetched rows exceeds [limit]; and a request with
    [limit=50] for which at least 51 candidates remain after the skipped
    ones (on page 1, for which there are at least 51 candidates) is
    answered with exactly 50 users and [hasMore = true]. *)
Theorem feed_limit_capped_at_50 `{Mongoose} (loggedInUser : User) (query : Query.t)
    (db : Db) :
  (limit_of query <= 50)%Z /\
  feed loggedInUser (with_limit query (Js.QString "10000")) db =
    feed loggedInUser (with_limit query (Js.QString "50")) db /\
  (forall c,
     candidates loggedInUser query db = Returned c ->
     let limit := limit_of query in
     exists rows,
       User_find (filterQuery_of loggedInUser query db) (skip_of query) (limit + 1) db =
         (Returned rows, db) /\
       (Z.of_nat (List.length rows) <= limit + 1)%Z /\
       fst (feed loggedInUser query db) =
         FeedJson (firstn (Z.to_nat limit) rows) (page_of query) limit
                  (limit <? Z.of_nat (List.length rows))%Z) /\
  (forall c,
     Query.limit query = Js.QString "50" ->
     candidates loggedInUser query db = Returned c ->
     (skip_of query + 51 <= Z.of_nat (List.length c))%Z ->
     exists data,
       fst (feed loggedInUser query db) = FeedJson data (page_of query) 50 true /\
       List.length data = 50%nat) /\
  (forall c,
     Query.limit query = Js.QString "50" ->
     page_of query = 1%Z ->
     candidates loggedInUser query db = Returned c ->
     (51 <= List.length c)%nat ->
     exists data,
       fst (feed loggedInUser query db) = FeedJson data 1 50 true /\
       List.length data = 50%nat).
Proof.
  pose proof (limit_of_range query) as Hrange.
  pose proof (page_of_positive query) as Hpage.
  assert (Hfull : forall c,
             Query.limit query = Js.QString "50" ->
             candidates loggedInUser query db = Returned c ->
             (skip_of query + 51 <= Z.of_nat (List.length c))%Z ->
             exists data,
               fst (feed loggedInUser query db) =
                 FeedJson data (page_of query) 50 true /\
               List.length data = 50%nat).
  { intros c Hlimit Hc Hmany.
    assert (Hl : limit_of query = 50%Z) by (unfold limit_of; now rewrite Hlimit).
    rewrite (feed_returns _ _ _ _ (proj1 Hrange) Hc); cbn [fst]. rewrite Hl.
    assert (Hskip : (0 <= skip_of query)%Z) by (unfold skip_of; nia).
    assert (Hrest : (51 <= List.length (skipn (Z.to_nat (skip_of query)) c))%nat)
      by (rewrite length_drop; lia).
    eexists. split.
    + f_equal. apply Z.ltb_lt. lia.
    + rewrite length_take. lia. }
  split; [lia|]. split; [|split; [|split]].
  - rewrite !feed_unfold, !candidates_with_limit. reflexivity.
  - intros c Hc limit.
    exists (firstn (Z.to_nat (limit + 1)) (skipn (Z.to_nat (skip_of query)) c)).
    split; [now apply User_find_candidates|].
    split; [rewrite length_take; lia|].
    rewrite feed_unfold, Hc; cbn zeta. fold limit.
    set (rows := firstn _ _).
    destruct (Z.ltb_spec limit (Z.of_nat (List.length rows))) as [Hlt|Hge];
      [reflexivity|].
    cbn. now rewrite take_ge by lia.
  - exact Hfull.
  - intros c Hlimit Hp Hc Hmany.
    destruct (Hfull c Hlimit Hc) as (data & Hdata & Hlen).
    + unfold skip_of. rewrite Hp. lia.
    + exists data. rewrite Hp in Hdata. now split.
Qed.

Lemma feed_limit_capped_at_50_witness :
  exists data,
    fst (feed (H := Sample.driver) Sample.userA
           (with_limit Sample.no_query (Js.QString "50")) Sample.db_crowd) =
      FeedJson data 1 50 true /\
    List.length data = 50%nat.
Proof.
  destruct (feed_limit_capped_at_50 (H := Sample.driver) Sample.userA
              (with_limit Sample.no_query (Js.QString "50")) Sample.db_crowd)
    as (_ & _ & _ & _ & Hfull).
  apply (Hfull (Sample.crowd 60)).
  - reflexivity.
  - reflexivity.
  - vm_compute. reflexivity.
  - vm_compute. lia.
Defined.

(** * Further properties of the swipe handlers *)

(** The record of an ordered pair is found as soon as the ledger has one. *)
Lemma find_pair_in (a t : ObjectId) (l : list ConnectionRequest)
    (r : ConnectionRequest) :
  r ∈ l -> pair_of r = (a, t) ->
  exists e, find (matches_pair a t None) l = Some e.
Proof.
  intros Hin Hp. destruct (find_pair_Some a t l r Hin Hp) as (e & He & _).
  now exists e.
Qed.

Lemma elem_of_update (p : ConnectionRequest -> bool) (s : string)
    (l : list ConnectionRequest) (x : ConnectionRequest) :
  x ∈ l -> (if p x then set_status s x else x) ∈
           map (fun x => if p x then set_status s x else x) l.
Proof.
  intros Hx. now apply (list_elem_of_fmap_2 (fun x => if p x then set_status s x else x)).
Qed.

(** A swipe of a user on their own identifier writes nothing: either the
    ledger has a record from the user to themselves, and the swipe is
    answered with it, or [save] refuses the document. *)
Lemma self_swipe_writes_nothing `{Mongoose} (s : Swipe) (db : Db) :
  castObjectId (destructure_toUserId (body s)) = Some (_id (actor s)) ->
  snd (swipe s db) = db.
Proof.
  intros Hc. unfold swipe. destruct (intent s);
    rewrite ?swipe_left_unfold, ?swipe_right_unfold; cbn zeta;
    (destruct (negb _); [reflexivity|]); rewrite Hc;
    (destruct (find _ (users db)); [|reflexivity]);
    (destruct (find (matches_pair _ _ None) _); [reflexivity|]);
    rewrite eqb_id_refl; reflexivity.
Qed.

(** X1. The first swipe of a user on a target is final: whatever the two
    intents, serving the same actor and body a second time leaves the
    database as the first swipe left it. *)
Theorem first_swipe_is_final `{Mongoose} (i1 i2 : Intent) (loggedInUser : User)
    (b : option Body) (db : Db) :
  snd (swipe (mkSwipe i2 loggedInUser b) (snd (swipe (mkSwipe i1 loggedInUser b) db))) =
  snd (swipe (mkSwipe i1 loggedInUser b) db).
Proof.
  set (v := destructure_toUserId b). set (a := _id loggedInUser).
  assert (Hnoop : forall i db',
             users db' = users db ->
             (Js.truthy v = true ->
              forall t, castObjectId v = Some t ->
              find (fun u => eqb_id (_id u) t) (users db) <> None ->
              exists e, find (matches_pair a t None) (connectionRequests db') = Some e) ->
             snd (swipe (mkSwipe i loggedInUser b) db') = db').
  { intros i db' Hus Hex. unfold swipe; destruct i; cbn [intent actor body];
      rewrite ?swipe_left_unfold, ?swipe_right_unfold; cbn zeta; fold v a;
      (destruct (Js.truthy v) eqn:Ht; cbn [negb]; [|reflexivity]);
      (destruct (castObjectId v) as [t|] eqn:Hc; [|reflexivity]);
      rewrite Hus;
      (destruct (find _ (users db)) eqn:Hu; [|reflexivity]);
      (destruct (Hex eq_refl t eq_refl) as [e He]; [rewrite Hu; discriminate|]);
      rewrite He; reflexivity. }
  unfold swipe at 2 3. destruct i1; cbn [intent actor body].
  - rewrite swipe_left_unfold; cbn zeta; fold v a.
    destruct (Js.truthy v) eqn:Ht; cbn [negb];
      [|apply Hnoop; [reflexivity | congruence]].
    destruct (castObjectId v) as [t|] eqn:Hc;
      [|apply Hnoop; [reflexivity | congruence]].
    destruct (find _ (users db)) eqn:Hu;
      [|apply Hnoop; [reflexivity | intros _ t' [= <-] Hne; congruence]].
    destruct (find (matches_pair a t None) _) as [e|] eqn:He; cbn [snd].
    + apply Hnoop; [reflexivity|]. intros _ t' [= <-] _. now exists e.
    + destruct (eqb_id a t) eqn:Hself; cbn [snd].
      { apply (self_swipe_writes_nothing (mkSwipe i2 loggedInUser b)).
        cbn [body actor]. fold v a. rewrite Hc. f_equal.
        symmetry. now apply eqb_id_eq. }
      apply Hnoop; [reflexivity|]. intros _ t' [= <-] _. cbn.
      apply (find_pair_in a t _ (mkConnectionRequest a t "ignored"));
        [apply elem_of_app; right; left | reflexivity].
  - rewrite swipe_right_unfold; cbn zeta; fold v a.
    destruct (Js.truthy v) eqn:Ht; cbn [negb];
      [|apply Hnoop; [reflexivity | congruence]].
    destruct (castObjectId v) as [t|] eqn:Hc;
      [|apply Hnoop; [reflexivity | congruence]].
    destruct (find _ (users db)) eqn:Hu;
      [|apply Hnoop; [reflexivity | intros _ t' [= <-] Hne; congruence]].
    destruct (find (matches_pair a t None) _) as [e|] eqn:He; cbn [snd].
    + apply Hnoop; [reflexivity|]. intros _ t' [= <-] _. now exists e.
    + destruct (eqb_id a t) eqn:Hself; cbn [snd].
      { apply (self_swipe_writes_nothing (mkSwipe i2 loggedInUser b)).
        cbn [body actor]. fold v a. rewrite Hc. f_equal.
        symmetry. now apply eqb_id_eq. }
      destruct (found _); cbn [snd]; (apply Hnoop; [reflexivity|]);
        intros _ t' [= <-] _; cbn.
      * set (r := mkConnectionRequest a t "interested").
        apply (find_pair_in a t _ (if between a t r then set_status "accepted" r else r)).
        -- apply elem_of_update. apply elem_of_app; right; left.
        -- now destruct (between a t r).
      * apply (find_pair_in a t _ (mkConnectionRequest a t "interested"));
          [apply elem_of_app; right; left | reflexivity].
Qed.

(** What one swipe does to the database: nothing; or it appends a record
    from the actor to the target; or, on a match, it appends the record
    and sets every record between the two users to ["accepted"]. *)
Lemma swipe_effect `{Mongoose} (s : Swipe) (db : Db) :
  let a := _id (actor s) in
  let l := connectionRequests db in
  let db' := snd (swipe s db) in
  users db' = users db /\
  (connectionRequests db' = l \/
   exists t,
     castObjectId (destructure_toUserId (body s)) = Some t /\
     (exists u, u ∈ users db /\ _id u = t) /\
     find (matches_pair a t None) l = None /\
     (connectionRequests db' = l ++ [mkConnectionRequest a t "ignored"] \/
      (find (matches_pair t a (Some "interested")) l = None /\
       connectionRequests db' = l ++ [mkConnectionRequest a t "interested"]) \/
      (exists e,
         find (matches_pair t a (Some "interested")) l = Some e /\
         connectionRequests db' =
           map (fun x => if between a t x then set_status "accepted" x else x)
               (l ++ [mkConnectionRequest a t "interested"])))).
Proof.
  intros a l db'. unfold db', swipe. destruct (intent s).
  - rewrite swipe_left_unfold; cbn zeta.
    destruct (negb _); [now split; [|left]|].
    destruct (castObjectId _) as [t|] eqn:Hc; [|now split; [|left]].
    destruct (find _ (users db)) as [u|] eqn:Hu; [|now split; [|left]].
    destruct (find _ (connectionRequests db)) eqn:Hex; [now split; [|left]|].
    destruct (eqb_id _ t); [now split; [|left]|].
    apply find_Some_elem in Hu as [Hu Hid]. apply eqb_id_eq in Hid.
    split; [reflexivity|]. right. exists t. repeat split; try assumption.
    + now exists u.
    + now left.
  - rewrite swipe_right_unfold; cbn zeta.
    destruct (negb _); [now split; [|left]|].
    destruct (castObjectId _) as [t|] eqn:Hc; [|now split; [|left]].
    destruct (find _ (users db)) as [u|] eqn:Hu; [|now split; [|left]].
    destruct (find (matches_pair _ t None) _) eqn:Hex; [now split; [|left]|].
    destruct (eqb_id _ t); [now split; [|left]|].
    apply find_Some_elem in Hu as [Hu Hid]. apply eqb_id_eq in Hid.
    destruct (find (matches_pair t _ (Some "interested")) _) as [e|] eqn:Hrec;
      cbn [found]; (split; [reflexivity|]); right; exists t;
      (split; [reflexivity|]); (split; [now exists u|]); (split; [exact Hex|]); right.
    + right. exists e. now split.
    + left. now split.
Qed.

Lemma in_update_inv (a t : ObjectId) (l : list ConnectionRequest)
    (y : ConnectionRequest) :
  y ∈ map (fun x => if between a t x then set_status "accepted" x else x) l ->
  exists x, x ∈ l /\ pair_of y = pair_of x /\
    ((between a t x = true /\ status y = "accepted") \/
     (between a t x = false /\ y = x)).
Proof.
  intros Hy.
  apply (list_elem_of_fmap_1
           (fun x => if between a t x then set_status "accepted" x else x)) in Hy
    as (x & -> & Hx).
  exists x. split; [exact Hx|].
  destruct (between a t x); (split; [reflexivity|]); [left | right]; now split.
Qed.

Lemma between_new (a t : ObjectId) (st : string) :
  between a t (mkConnectionRequest a t st) = true.
Proof. apply between_true. now left. Qed.

(** On a match the two users are distinct. *)
Lemma match_is_between_two (a t : ObjectId) (l : list ConnectionRequest)
    (e : ConnectionRequest) :
  find (matches_pair a t None) l = None ->
  find (matches_pair t a (Some "interested")) l = Some e ->
  a <> t /\ e ∈ l /\ pair_of e = (t, a) /\ status e = "interested".
Proof.
  intros Hnone Hrec.
  apply find_Some_elem in Hrec as [Hin Hm].
  apply matches_pair_Some in Hm as [Hp Hs].
  repeat split; try assumption.
  intros ->. rewrite find_None in Hnone. specialize (Hnone e Hin).
  apply matches_pair_None in Hp. congruence.
Qed.

Section Invariants.
Context `{Mongoose}.

Lemma swipe_symmetric_accepted (s : Swipe) (db : Db) :
  symmetric_accepted (connectionRequests db) ->
  symmetric_accepted (connectionRequests (snd (swipe s db))).
Proof.
  intros Hsym.
  destruct (swipe_effect s db) as (_ & [->|(t & _ & _ & Hnone & Hcase)]); [exact Hsym|].
  set (a := _id (actor s)) in *.
  assert (Hsnoc : forall st, st <> "accepted" ->
            symmetric_accepted (connectionRequests db ++ [mkConnectionRequest a t st])).
  { intros st Hst r Hr Hacc. apply elem_of_app in Hr as [Hr|Hr].
    - destruct (Hsym r Hr Hacc) as (r' & Hr' & Hp & Hs).
      exists r'. split; [apply elem_of_app; now left | now split].
    - apply list_elem_of_singleton in Hr. subst r. cbn in Hacc. congruence. }
  destruct Hcase as [->|[[_ ->]|(e & Hrec & ->)]];
    [apply Hsnoc; discriminate | apply Hsnoc; discriminate |].
  destruct (match_is_between_two _ _ _ _ Hnone Hrec) as (Hne & Hein & Hep & Hes).
  set (r := mkConnectionRequest a t "interested").
  set (flip := fun x => if between a t x then set_status "accepted" x else x).
  assert (Hflip_e : flip e ∈ map flip (connectionRequests db ++ [r]) /\
                    pair_of (flip e) = (t, a) /\ status (flip e) = "accepted").
  { split; [apply elem_of_update, elem_of_app; now left|].
    unfold flip. replace (between a t e) with true
      by (symmetry; apply between_true; now right).
    now split. }
  assert (Hflip_r : flip r ∈ map flip (connectionRequests db ++ [r]) /\
                    pair_of (flip r) = (a, t) /\ status (flip r) = "accepted").
  { split; [apply elem_of_update, elem_of_app; right; left|].
    unfold flip. replace (between a t r) with true
      by (symmetry; apply between_true; now left).
    now split. }
  intros y Hy Hacc.
  apply in_update_inv in Hy as (x & Hx & Hp & [[Hb _]|[Hb ->]]).
  - apply between_true in Hb as [Hb|Hb].
    + exists (flip e). destruct Hflip_e as (? & ? & ?).
      repeat split; try assumption. unfold reverse_pair.
      rewrite Hb in Hp. injection Hp as Hf Ht. now rewrite Hf, Ht.
    + exists (flip r). destruct Hflip_r as (? & ? & ?).
      repeat split; try assumption. unfold reverse_pair.
      rewrite Hb in Hp. injection Hp as Hf Ht. now rewrite Hf, Ht.
  - apply elem_of_app in Hx as [Hx|Hx].
    + destruct (Hsym x Hx Hacc) as (x' & Hx' & Hp' & Hs').
      exists (flip x'). split; [apply elem_of_update, elem_of_app; now left|].
      unfold flip. destruct (between a t x'); now split.
    + apply list_elem_of_singleton in Hx. subst x. discriminate.
Qed.

Lemma swipe_no_accepted_self (s : Swipe) (db : Db) :
  no_accepted_self (connectionRequests db) ->
  no_accepted_self (connectionRequests (snd (swipe s db))).
Proof.
  intros Hinv.
  destruct (swipe_effect s db) as (_ & [->|(t & _ & _ & Hnone & Hcase)]); [exact Hinv|].
  set (a := _id (actor s)) in *.
  assert (Hsnoc : forall st, st <> "accepted" ->
            no_accepted_self (connectionRequests db ++ [mkConnectionRequest a t st])).
  { intros st Hst r Hr Hacc. apply elem_of_app in Hr as [Hr|Hr]; [now apply Hinv|].
    apply list_elem_of_singleton in Hr. subst r. cbn in Hacc. congruence. }
  destruct Hcase as [->|[[_ ->]|(e & Hrec & ->)]];
    [apply Hsnoc; discriminate | apply Hsnoc; discriminate |].
  destruct (match_is_between_two _ _ _ _ Hnone Hrec) as (Hne & _).
  intros y Hy Hacc.
  apply in_update_inv in Hy as (x & Hx & Hp & [[Hb _]|[Hb ->]]).
  - apply between_true in Hb as [Hb|Hb]; rewrite Hb in Hp;
      injection Hp as Hf Ht; congruence.
  - apply elem_of_app in Hx as [Hx|Hx]; [now apply Hinv|].
    apply list_elem_of_singleton in Hx. subst x. discriminate.
Qed.


End Invariants.

(** X2. Matches stay symmetric: if every accepted record of the ledger
    has an accepted record in the other direction, this is still so after
    any sequence of swipes. *)
Theorem accepted_stays_symmetric `{Mongoose} (ops : list Swipe) (db : Db) :
  symmetric_accepted (connectionRequests db) ->
  symmetric_accepted (connectionRequests (run ops db)).
Proof.
  revert db. induction ops as [|s ops IH]; intros db Hinv; [exact Hinv|].
  rewrite run_cons. now apply IH, swipe_symmetric_accepted.
Qed.

Lemma accepted_stays_symmetric_witness :
  symmetric_accepted (connectionRequests Sample.db1) /\
  symmetric_accepted
    (connectionRequests
       (run (H := Sample.driver)
          [mkSwipe Right Sample.userB (Sample.to Sample.idA);
           mkSwipe Right Sample.userC (Sample.to Sample.idA)] Sample.db1)).
Proof.
  assert (Hstart : symmetric_accepted (connectionRequests Sample.db1)).
  { intros r Hr Hacc. apply list_elem_of_singleton in Hr. subst r. discriminate. }
  split; [exact Hstart|].
  apply (accepted_stays_symmetric (H := Sample.driver) _ Sample.db1 Hstart).
Defined.



(** X4. Nobody is matched with themselves: if no accepted record goes
    from a user to the same user, this is still so after any sequence of
    swipes, swipes of a user on their own identifier included. *)
Theorem self_request_never_accepted `{Mongoose} (ops : list Swipe) (db : Db) :
  no_accepted_self (connectionRequests db) ->
  no_accepted_self (connectionRequests (run ops db)).
Proof.
  revert db. induction ops as [|s ops IH]; intros db Hinv; [exact Hinv|].
  rewrite run_cons. now apply IH, swipe_no_accepted_self.
Qed.

Lemma self_request_never_accepted_witness :
  no_accepted_self (connectionRequests Sample.db0) /\
  no_accepted_self
    (connectionRequests
       (run (H := Sample.driver)
          [mkSwipe Right Sample.userA (Sample.to Sample.idA);
           mkSwipe Right Sample.userA (Sample.to Sample.idA);
           mkSwipe Right Sample.userB (Sample.to Sample.idA)] Sample.db0)).
Proof.
  assert (Hstart : no_accepted_self (connectionRequests Sample.db0)).
  { intros r Hr. inversion Hr. }
  split; [exact Hstart|].
  apply (self_request_never_accepted (H := Sample.driver) _ Sample.db0 Hstart).
Defined.

(** X5. What the answers of a swipe tell about the database. An error
    answer and the answer "Already swiped" leave the database as it was.
    Every other answer leaves the users as they were and adds exactly one
    record to the ledger, with the pair of the returned [data], which
    goes from the actor to the identifier that [toUserId] casts to. *)
Theorem swipe_answer_and_write `{Mongoose} (s : Swipe) (db : Db) :
  let db' := snd (swipe s db) in
  match fst (swipe s db) with
  | SwipeStatus _ _ => db' = db
  | SwipeJson message data _ =>
      fromUserId data = _id (actor s) /\
      castObjectId (destructure_toUserId (body s)) = Some (toUserId data) /\
      ((message = "Already swiped" /\ db' = db /\ data ∈ connectionRequests db) \/
       (message <> "Already swiped" /\
        users db' = users db /\
        map pair_of (connectionRequests db') =
          map pair_of (connectionRequests db) ++ [pair_of data] /\
        pair_of data ∉ map pair_of (connectionRequests db)))
  end.
Proof.
  assert (Hfresh : forall a t,
             find (matches_pair a t None) (connectionRequests db) = None ->
             (a, t) ∉ map pair_of (connectionRequests db)).
  { intros a t Hnone Hin.
    apply (list_elem_of_fmap_1 pair_of) in Hin as (x & Hx & Hin).
    rewrite find_None in Hnone. specialize (Hnone x Hin).
    assert (matches_pair a t None x = true) by (now apply matches_pair_None).
    congruence. }
  cbn zeta. unfold swipe. destruct (intent s).
  - rewrite swipe_left_unfold; cbn zeta.
    destruct (negb _); [reflexivity|].
    destruct (castObjectId _) as [t|] eqn:Hc; [|reflexivity].
    destruct (find _ (users db)); [|reflexivity].
    destruct (find _ (connectionRequests db)) as [e|] eqn:Hex; cbn.
    + apply find_Some_elem in Hex as [Hin Hm].
      apply matches_pair_None in Hm. injection Hm as Hf Ht.
      split; [exact Hf|]. split; [now rewrite Ht|]. left. now repeat split.
    + destruct (eqb_id _ t); cbn; [reflexivity|].
      split; [reflexivity|]. split; [reflexivity|]. right.
      split; [discriminate|]. split; [reflexivity|].
      split; [now rewrite map_app | now apply Hfresh].
  - rewrite swipe_right_unfold; cbn zeta.
    destruct (negb _); [reflexivity|].
    destruct (castObjectId _) as [t|] eqn:Hc; [|reflexivity].
    destruct (find _ (users db)); [|reflexivity].
    destruct (find (matches_pair _ t None) _) as [e|] eqn:Hex; cbn.
    + apply find_Some_elem in Hex as [Hin Hm].
      apply matches_pair_None in Hm. injection Hm as Hf Ht.
      split; [exact Hf|]. split; [now rewrite Ht|]. left. now repeat split.
    + destruct (eqb_id _ t); cbn; [reflexivity|].
      destruct (found _); cbn; (split; [reflexivity|]); (split; [reflexivity|]);
        right; (split; [discriminate|]); (split; [reflexivity|]);
        (split; [now rewrite ?map_pair_of_update, map_app | now apply Hfresh]).
Qed.

(** X6. The answer "It's a match!" and the ledger. When a right-swipe is
    answered "It's a match!", the flag [matched] is [true], the ledger
    holds, as accepted, the record of the returned [data] and a record in
    the other direction, and the returned [data] itself still carries the
    status ["interested"] with which it was saved. *)
Theorem match_answer_is_sound `{Mongoose} (loggedInUser : User) (b : option Body)
    (db : Db) (data : ConnectionRequest) (matched : option bool) :
  fst (swipe_right loggedInUser b db) = SwipeJson "It's a match!" data matched ->
  let l' := connectionRequests (snd (swipe_right loggedInUser b db)) in
  matched = Some true /\
  status data = "interested" /\
  set_status "accepted" data ∈ l' /\
  (exists r, r ∈ l' /\ pair_of r = reverse_pair data /\ status r = "accepted") /\
  fromUserId data <> toUserId data.
Proof.
  rewrite swipe_right_unfold; cbn zeta.
  destruct (negb _); [discriminate|].
  destruct (castObjectId _) as [t|]; [|discriminate].
  destruct (find _ (users db)); [|discriminate].
  destruct (find (matches_pair _ t None) _) eqn:Hex; [discriminate|].
  destruct (eqb_id _ t); [discriminate|].
  destruct (find (matches_pair t _ (Some "interested")) _) as [e|] eqn:Hrec;
    cbn [found fst snd connectionRequests]; [|discriminate].
  intros [= <- <-].
  destruct (match_is_between_two _ _ _ _ Hex Hrec) as (Hne & Hein & Hep & Hes).
  set (a := _id loggedInUser) in *.
  set (r := mkConnectionRequest a t "interested").
  set (flip := fun x => if between a t x then set_status "accepted" x else x).
  split; [reflexivity|]. split; [reflexivity|]. split; [|split; [|exact Hne]].
  - replace (set_status "accepted" r) with (flip r)
      by (unfold flip, r; now rewrite (between_new a t "interested")).
    apply elem_of_update, elem_of_app. right. left.
  - exists (flip e). split; [apply elem_of_update, elem_of_app; now left|].
    unfold flip. replace (between a t e) with true
      by (symmetry; apply between_true; now right).
    now split.
Qed.

Lemma match_answer_is_sound_witness :
  let answer :=
    swipe_right (H := Sample.driver) Sample.userB (Sample.to Sample.idA) Sample.db1 in
  fst answer =
    SwipeJson "It's a match!" (mkConnectionRequest Sample.idB Sample.idA "interested")
      (Some true) /\
  mkConnectionRequest Sample.idB Sample.idA "accepted" ∈ connectionRequests (snd answer).
Proof.
  assert (Hfst : fst (swipe_right (H := Sample.driver) Sample.userB
                        (Sample.to Sample.idA) Sample.db1) =
                 SwipeJson "It's a match!"
                   (mkConnectionRequest Sample.idB Sample.idA "interested") (Some true))
    by reflexivity.
  split; [exact Hfst|].
  exact (proj1 (proj2 (proj2 (match_answer_is_sound (H := Sample.driver) _ _ _ _ _ Hfst)))).
Defined.

(** X7. The flag of a repeated right-swipe. In a ledger with unique
    pairs, symmetric matches and no mutual pending interest (every ledger
    that swipes build from the empty one), a user who right-swipes again
    on another user is answered [matched = false] whenever their own
    record is ["accepted"] or ["interested"]: once two users are matched,
    the repeated swipe does not report the match. *)
Theorem repeated_right_swipe_flag `{Mongoose} (loggedInUser target : User)
    (v : Js.Value) (r : ConnectionRequest) (db : Db) :
  unique_pairs (connectionRequests db) ->
  symmetric_accepted (connectionRequests db) ->
  no_mutual_interest (connectionRequests db) ->
  _id loggedInUser <> _id target ->
  Js.truthy v = true ->
  castObjectId v = Some (_id target) ->
  target ∈ users db ->
  r ∈ connectionRequests db ->
  pair_of r = (_id loggedInUser, _id target) ->
  status r = "accepted" \/ status r = "interested" ->
  swipe_right loggedInUser (Some (mkBody v)) db =
    (SwipeJson "Already swiped" r (Some false), db).
Proof.
  intros Huniq Hsym Hmut Hne Htruthy Hcast Htarget Hr Hpair Hstatus.
  destruct (find_pair_Some _ _ _ _ Hr Hpair) as (e & He & Hein & Hpe).
  assert (e = r) as -> by (apply (unique_pairs_inj _ _ _ Huniq Hein Hr); congruence).
  destruct (find_user_Some (_id target) _ target Htarget eq_refl) as [u Hu].
  rewrite swipe_right_unfold; cbn.
  rewrite Htruthy, Hcast, Hu, He; cbn.
  destruct (find (matches_pair (_id target) (_id loggedInUser) (Some "interested")) _)
    as [x|] eqn:Hx; [exfalso | reflexivity].
  apply find_Some_elem in Hx as [Hxin Hxm].
  apply matches_pair_Some in Hxm as [Hxp Hxs].
  assert (Hrev : reverse_pair r = (_id target, _id loggedInUser))
    by (unfold reverse_pair; now injection Hpair as -> ->).
  destruct Hstatus as [Hacc|Hint].
  - destruct (Hsym r Hr Hacc) as (r' & Hr' & Hp' & Hs').
    assert (x = r') by (apply (unique_pairs_inj _ _ _ Huniq Hxin Hr'); congruence).
    congruence.
  - apply (Hmut r x Hr Hxin); try assumption; [|congruence].
    now injection Hpair as -> ->.
Qed.

Lemma repeated_right_swipe_flag_witness :
  let db :=
    mkDb [Sample.userA; Sample.userB]
         [mkConnectionRequest Sample.idA Sample.idB "accepted";
          mkConnectionRequest Sample.idB Sample.idA "accepted"] in
  swipe_right (H := Sample.driver) Sample.userA (Sample.to Sample.idB) db =
    (SwipeJson "Already swiped" (mkConnectionRequest Sample.idA Sample.idB "accepted")
       (Some false), db).
Proof.
  apply (repeated_right_swipe_flag (H := Sample.driver) Sample.userA Sample.userB
           (Js.VString Sample.idB)).
  - unfold unique_pairs; cbn. apply NoDup_cons. split; [|apply NoDup_singleton].
    rewrite list_elem_of_singleton. discriminate.
  - intros r Hr _. apply elem_of_cons in Hr as [->|Hr].
    + eexists. split; [right; left | now split].
    + apply list_elem_of_singleton in Hr. subst r.
      eexists. split; [left | now split].
  - intros r r' Hr _ _ Hs _. apply elem_of_cons in Hr as [->|Hr]; [discriminate|].
    apply list_elem_of_singleton in Hr. subst r. discriminate.
  - discriminate.
  - reflexivity.
  - reflexivity.
  - right; left.
  - left.
  - reflexivity.
  - now left.
Defined.

(** A swipe leaves alone the records of two users who both have a record
    toward the other. *)
Lemma swipe_frozen `{Mongoose} (s : Swipe) (db : Db) (a b : ObjectId) (i : nat)
    (r : ConnectionRequest) :
  (a, b) ∈ map pair_of (connectionRequests db) ->
  (b, a) ∈ map pair_of (connectionRequests db) ->
  connectionRequests db !! i = Some r ->
  pair_of r = (a, b) \/ pair_of r = (b, a) ->
  connectionRequests (snd (swipe s db)) !! i = Some r.
Proof.
  intros Hab Hba Hi Hp.
  assert (Hnot : forall x y, find (matches_pair x y None) (connectionRequests db) = None ->
                             (x, y) ∉ map pair_of (connectionRequests db)).
  { intros x y Hnone Hin.
    apply (list_elem_of_fmap_1 pair_of) in Hin as (z & Hz & Hin).
    rewrite find_None in Hnone. specialize (Hnone z Hin).
    assert (matches_pair x y None z = true) by (now apply matches_pair_None).
    congruence. }
  destruct (swipe_effect s db) as (_ & [->|(t & _ & _ & Hnone & Hcase)]); [exact Hi|].
  destruct Hcase as [->|[[_ ->]|(e & _ & ->)]];
    try (now apply lookup_app_l_Some).
  rewrite list_lookup_fmap, (lookup_app_l_Some _ _ _ _ Hi); cbn.
  destruct (between (_id (actor s)) t r) eqn:Hb; [exfalso | reflexivity].
  apply Hnot in Hnone. apply between_true in Hb.
  destruct Hp as [Hp|Hp], Hb as [Hb|Hb]; rewrite Hp in Hb;
    injection Hb as E1 E2; subst a b; contradiction.
Qed.

Lemma run_frozen `{Mongoose} (ops : list Swipe) (db : Db) (a b : ObjectId) (i : nat)
    (r : ConnectionRequest) :
  (a, b) ∈ map pair_of (connectionRequests db) ->
  (b, a) ∈ map pair_of (connectionRequests db) ->
  connectionRequests db !! i = Some r ->
  pair_of r = (a, b) \/ pair_of r = (b, a) ->
  connectionRequests (run ops db) !! i = Some r.
Proof.
  intros Hab Hba Hi Hp.
  revert db Hab Hba Hi. induction ops as [|s ops IH]; intros db Hab Hba Hi; [exact Hi|].
  rewrite run_cons. apply IH.
  - now apply swipe_keeps_pairs.
  - now apply swipe_keeps_pairs.
  - now apply (swipe_frozen s db _ _ i r Hab Hba).
Qed.

(** X8. Once each of two users has a record toward the other, no swipe
    ever changes either record: an ignored record is never turned into a
    match, and an interested record facing an ignored one stays pending,
    whatever any user swipes afterwards. *)
Theorem answered_pair_is_frozen `{Mongoose} (ops : list Swipe) (db : Db)
    (r1 r2 : ConnectionRequest) :
  r1 ∈ connectionRequests db ->
  r2 ∈ connectionRequests db ->
  pair_of r2 = reverse_pair r1 ->
  forall i r,
    connectionRequests db !! i = Some r ->
    pair_of r = pair_of r1 \/ pair_of r = pair_of r2 ->
    connectionRequests (run ops db) !! i = Some r.
Proof.
  intros H1 H2 Hrev i r Hi Hp.
  assert (Hab : pair_of r1 ∈ map pair_of (connectionRequests db))
    by (apply (list_elem_of_fmap_2 pair_of _ _ H1)).
  assert (Hba : reverse_pair r1 ∈ map pair_of (connectionRequests db))
    by (rewrite <- Hrev; apply (list_elem_of_fmap_2 pair_of _ _ H2)).
  rewrite Hrev in Hp.
  exact (run_frozen ops db (fromUserId r1) (toUserId r1) i r Hab Hba Hi Hp).
Qed.

Lemma answered_pair_is_frozen_witness :
  let db :=
    mkDb [Sample.userA; Sample.userB; Sample.userC]
         [mkConnectionRequest Sample.idA Sample.idB "interested";
          mkConnectionRequest Sample.idB Sample.idA "ignored"] in
  connectionRequests
    (run (H := Sample.driver)
       [mkSwipe Right Sample.userB (Sample.to Sample.idA);
        mkSwipe Right Sample.userA (Sample.to Sample.idB);
        mkSwipe Right Sample.userC (Sample.to Sample.idA)] db) !! 0%nat =
  Some (mkConnectionRequest Sample.idA Sample.idB "interested").
Proof.
  apply (answered_pair_is_frozen (H := Sample.driver) _ _
           (mkConnectionRequest Sample.idA Sample.idB "interested")
           (mkConnectionRequest Sample.idB Sample.idA "ignored")).
  - left.
  - right; left.
  - reflexivity.
  - reflexivity.
  - now left.
Defined.

(** * The read-only views *)

Lemma populated_Some (o : ObjectId) (db : Db) (u : User) :
  populated o db = Some u -> u ∈ users db /\ _id u = o.
Proof.
  intros Hp. apply find_Some_elem in Hp as [Hin Hid].
  split; [exact Hin | now apply eqb_id_eq].
Qed.

Lemma populated_exists (o : ObjectId) (db : Db) (u : User) :
  u ∈ users db -> _id u = o -> exists u', populated o db = Some u' /\ _id u' = o.
Proof.
  intros Hin Hid. destruct (find_user_Some o _ u Hin Hid) as [u' Hu'].
  exists u'. split; [exact Hu'|]. now apply (populated_Some o db u').
Qed.

Lemma requests_received_unfold (loggedInUser : User) (db : Db) :
  requests_received loggedInUser db =
  (ViewJson (Some "Data fetched successfully")
     (map (fun r => mkRow (populated (fromUserId r) db) (toUserId r) (status r))
          (List.filter (received_by (_id loggedInUser)) (connectionRequests db))),
   db).
Proof. reflexivity. Qed.

Lemma requests_sent_unfold (loggedInUser : User) (db : Db) :
  requests_sent loggedInUser db =
  (ViewJson (Some "Data fetched successfully")
     (map (fun r => mkRow (fromUserId r) (populated (toUserId r) db) (status r))
          (List.filter (sent_by (_id loggedInUser)) (connectionRequests db))),
   db).
Proof. reflexivity. Qed.

Lemma connections_unfold (loggedInUser : User) (db : Db) :
  connections loggedInUser db =
  match map_throwing (other_party loggedInUser)
          (map (fun r => mkRow (populated (fromUserId r) db)
                               (populated (toUserId r) db) (status r))
               (List.filter (accepted_with (_id loggedInUser)) (connectionRequests db)))
  with
  | Returned data => (ViewJson None data, db)
  | Thrown e => (ViewStatus 400 (message_or_default e), db)
  end.
Proof.
  unfold connections, try_catch, bind, ConnectionRequest_find, populate_both, ret.
  destruct (map_throwing _ _); reflexivity.
Qed.

Lemma received_by_true (id : ObjectId) (r : ConnectionRequest) :
  received_by id r = true <-> toUserId r = id /\ status r = "interested".
Proof.
  unfold received_by. now rewrite Bool.andb_true_iff, !eqb_id_eq, ?String.eqb_eq.
Qed.

Lemma sent_by_true (id : ObjectId) (r : ConnectionRequest) :
  sent_by id r = true <-> fromUserId r = id /\ status r = "interested".
Proof.
  unfold sent_by. now rewrite Bool.andb_true_iff, !eqb_id_eq, ?String.eqb_eq.
Qed.

Lemma accepted_with_true (id : ObjectId) (r : ConnectionRequest) :
  accepted_with id r = true <->
  status r = "accepted" /\ (toUserId r = id \/ fromUserId r = id).
Proof.
  unfold accepted_with.
  rewrite Bool.orb_true_iff, !Bool.andb_true_iff, !eqb_id_eq, ?String.eqb_eq.
  unfold ObjectId. tauto.
Qed.

Lemma elem_of_filter_bool {A} (p : A -> bool) (l : list A) (x : A) :
  x ∈ List.filter p l <-> x ∈ l /\ p x = true.
Proof. now rewrite !list_elem_of_In, filter_In. Qed.

(** X9. The two pending views list a record exactly while it is
    interested: a record of the ledger is in the received view of its
    recipient (with its sender populated) if and only if its status is
    ["interested"], and likewise in the sent view of its sender; both
    views leave the database as it is. *)
Theorem pending_views_list_interested (db : Db) (r : ConnectionRequest)
    (sender recipient : User) :
  r ∈ connectionRequests db ->
  _id sender = fromUserId r ->
  _id recipient = toUserId r ->
  (mkRow (populated (fromUserId r) db) (toUserId r) (status r) ∈
     view_data (fst (requests_received recipient db)) <->
   status r = "interested") /\
  (mkRow (fromUserId r) (populated (toUserId r) db) (status r) ∈
     view_data (fst (requests_sent sender db)) <->
   status r = "interested") /\
  snd (requests_received recipient db) = db /\
  snd (requests_sent sender db) = db.
Proof.
  intros Hr Hs Hrec. rewrite requests_received_unfold, requests_sent_unfold; cbn.
  repeat split; try (intros Hint).
  - apply (list_elem_of_fmap_1
             (fun r => mkRow (populated (fromUserId r) db) (toUserId r) (status r)))
      in Hint as (x & Hx & Hin).
    apply elem_of_filter_bool in Hin as [_ Hp]. apply received_by_true in Hp as [_ Hst].
    injection Hx as _ _ ->. exact Hst.
  - apply (list_elem_of_fmap_2
             (fun r => mkRow (populated (fromUserId r) db) (toUserId r) (status r))).
    apply elem_of_filter_bool. split; [exact Hr|]. apply received_by_true. now split.
  - apply (list_elem_of_fmap_1
             (fun r => mkRow (fromUserId r) (populated (toUserId r) db) (status r)))
      in Hint as (x & Hx & Hin).
    apply elem_of_filter_bool in Hin as [_ Hp]. apply sent_by_true in Hp as [_ Hst].
    injection Hx as _ _ ->. exact Hst.
  - apply (list_elem_of_fmap_2
             (fun r => mkRow (fromUserId r) (populated (toUserId r) db) (status r))).
    apply elem_of_filter_bool. split; [exact Hr|]. apply sent_by_true. now split.
Qed.

Lemma pending_views_list_interested_witness :
  mkRow (Some Sample.userA) Sample.idB "interested" ∈
    view_data (fst (requests_received Sample.userB Sample.db1)) /\
  mkRow Sample.idA (Some Sample.userB) "interested" ∈
    view_data (fst (requests_sent Sample.userA Sample.db1)).
Proof.
  destruct (pending_views_list_interested Sample.db1
              (mkConnectionRequest Sample.idA Sample.idB "interested")
              Sample.userA Sample.userB)
    as (Hrecv & Hsent & _); [left | reflexivity | reflexivity |].
  split; [now apply Hrecv | now apply Hsent].
Defined.

(** The [map] of [/connections] when every sender is populated. *)
Lemma map_other_party (loggedInUser : User) (db : Db) (l : list ConnectionRequest) :
  (forall r, r ∈ l -> exists u, u ∈ users db /\ _id u = fromUserId r) ->
  map_throwing (other_party loggedInUser)
    (map (fun r => mkRow (populated (fromUserId r) db)
                         (populated (toUserId r) db) (status r)) l) =
  Returned (map (other_of (_id loggedInUser) db) l).
Proof.
  induction l as [|r l IH]; intros Hsenders; [reflexivity|]. cbn.
  destruct (Hsenders r) as (u & Hu & Hid); [left|].
  destruct (populated_exists _ db u Hu Hid) as (u' & Hpop & Hid').
  unfold other_party at 1; cbn. rewrite Hpop.
  rewrite IH by (intros x Hx; apply Hsenders; now right).
  unfold other_of, ObjectId_toString, eqb_id. rewrite Hid', Hpop.
  now destruct (String.eqb _ _).
Qed.

(** X10. When the sender of every accepted record that involves the
    requester is a user of the collection, [/connections] answers with
    status 200 and one entry per such record, in ledger order: the
    populated recipient when the requester is the sender, the populated
    sender otherwise; an entry is [null] when the requester is the sender
    and no user has the recipient's identifier. The database is left as it
    is. *)
Theorem connections_lists_other_party (loggedInUser : User) (db : Db) :
  (forall r, r ∈ connectionRequests db ->
             accepted_with (_id loggedInUser) r = true ->
             exists u, u ∈ users db /\ _id u = fromUserId r) ->
  connections loggedInUser db =
    (ViewJson None
       (map (other_of (_id loggedInUser) db)
            (List.filter (accepted_with (_id loggedInUser)) (connectionRequests db))),
     db).
Proof.
  intros Hsenders. rewrite connections_unfold, map_other_party; [reflexivity|].
  intros r Hr. apply elem_of_filter_bool in Hr as [Hr Hacc]. now apply Hsenders.
Qed.

Lemma connections_lists_other_party_witness :
  let db :=
    mkDb [Sample.userA; Sample.userB]
         [mkConnectionRequest Sample.idA Sample.idB "accepted";
          mkConnectionRequest Sample.idB Sample.idA "accepted";
          mkConnectionRequest Sample.idA Sample.idC "accepted"] in
  connections Sample.userA db =
    (ViewJson None [Some Sample.userB; Some Sample.userB; None], db).
Proof.
  apply (connections_lists_other_party Sample.userA
           (mkDb [Sample.userA; Sample.userB]
                 [mkConnectionRequest Sample.idA Sample.idB "accepted";
                  mkConnectionRequest Sample.idB Sample.idA "accepted";
                  mkConnectionRequest Sample.idA Sample.idC "accepted"])).
  intros r Hr _.
  apply elem_of_cons in Hr as [->|Hr]; [exists Sample.userA; split; [left|reflexivity]|].
  apply elem_of_cons in Hr as [->|Hr];
    [exists Sample.userB; split; [right; left|reflexivity]|].
  apply list_elem_of_singleton in Hr. subst r.
  exists Sample.userA; split; [left|reflexivity].
Defined.

Lemma map_throwing_thrown {A B} (callback : A -> Outcome B) (rows : list A)
    (row : A) (e : string) :
  row ∈ rows -> callback row = Thrown e ->
  (forall x e', callback x = Thrown e' -> e' = e) ->
  map_throwing callback rows = Thrown e.
Proof.
  intros Hin Hrow Hsame. induction rows as [|x rows IH]; [inversion Hin|]. cbn.
  destruct (callback x) as [b|e'] eqn:Hx; [|now rewrite (Hsame x e' Hx)].
  apply elem_of_cons in Hin as [->|Hin]; [congruence|].
  now rewrite (IH Hin).
Qed.

(** X11. One accepted record that involves the requester and whose
    sender is no user of the collection makes [/connections] fail as a
    whole: the answer has status 400 and carries the message of the
    exception thrown on reading [_id] of [null], whatever the other
    records are; the database is left as it is. *)
Theorem connections_fails_on_missing_sender (loggedInUser : User) (db : Db)
    (r : ConnectionRequest) :
  r ∈ connectionRequests db ->
  accepted_with (_id loggedInUser) r = true ->
  (forall u, u ∈ users db -> _id u <> fromUserId r) ->
  exists message, connections loggedInUser db = (ViewStatus 400 message, db).
Proof.
  intros Hr Hacc Hmissing. rewrite connections_unfold.
  rewrite (map_throwing_thrown _ _
             (mkRow (populated (fromUserId r) db) (populated (toUserId r) db) (status r))
             "Cannot read properties of null (reading '_id')"); [now eexists| | |].
  - apply (list_elem_of_fmap_2
             (fun r => mkRow (populated (fromUserId r) db)
                             (populated (toUserId r) db) (status r))).
    now apply elem_of_filter_bool.
  - unfold other_party, populated; cbn. now rewrite (find_user_None _ _ Hmissing).
  - intros x e'. unfold other_party.
    destruct (row_fromUserId x); [destruct (String.eqb _ _); discriminate|].
    now intros [= <-].
Qed.

Lemma connections_fails_on_missing_sender_witness :
  let db :=
    mkDb [Sample.userA; Sample.userB]
         [mkConnectionRequest Sample.idA Sample.idB "accepted";
          mkConnectionRequest Sample.idC Sample.idA "accepted"] in
  exists message, connections Sample.userA db = (ViewStatus 400 message, db).
Proof.
  apply (connections_fails_on_missing_sender Sample.userA _
           (mkConnectionRequest Sample.idC Sample.idA "accepted")).
  - right; left.
  - reflexivity.
  - intros u Hu. apply elem_of_cons in Hu as [->|Hu]; [discriminate|].
    apply list_elem_of_singleton in Hu. subst u. discriminate.
Defined.

(** Who is listed in the connections of a user. *)
Lemma connection_listed (A B : User) (db : Db) :
  senders_exist db ->
  B ∈ users db ->
  _id A <> _id B ->
  (exists u, Some u ∈ view_data (fst (connections A db)) /\ _id u = _id B) <->
  (exists r, r ∈ connectionRequests db /\ status r = "accepted" /\
             (pair_of r = (_id A, _id B) \/ pair_of r = (_id B, _id A))).
Proof.
  intros Hsenders HB Hne.
  rewrite connections_unfold, map_other_party
    by (intros r Hr; apply elem_of_filter_bool in Hr as [Hr _]; now apply Hsenders).
  cbn. split.
  - intros (u & Hu & Hid).
    apply (list_elem_of_fmap_1 (other_of (_id A) db)) in Hu as (r & Hother & Hr).
    apply elem_of_filter_bool in Hr as [Hr Hacc].
    apply accepted_with_true in Hacc as [Hacc Hside].
    exists r. split; [exact Hr|]. split; [exact Hacc|].
    unfold other_of in Hother. destruct (eqb_id (fromUserId r) (_id A)) eqn:Hfrom.
    + apply eqb_id_eq in Hfrom. symmetry in Hother.
      apply populated_Some in Hother as [_ Hto].
      left. unfold pair_of. congruence.
    + apply eqb_id_neq in Hfrom. symmetry in Hother.
      apply populated_Some in Hother as [_ Hf].
      right. unfold pair_of. destruct Hside as [Hto|Hf']; congruence.
  - intros (r & Hr & Hacc & Hpair).
    assert (Hin : r ∈ List.filter (accepted_with (_id A)) (connectionRequests db)).
    { apply elem_of_filter_bool. split; [exact Hr|]. apply accepted_with_true.
      split; [exact Hacc|]. destruct Hpair as [[= ? ?]|[= ? ?]]; auto. }
    destruct (populated_exists (_id B) db B HB eq_refl) as (u & Hpop & Hid).
    exists u. split; [|exact Hid].
    apply (list_elem_of_fmap_2' (other_of (_id A) db) _ r); [exact Hin|].
    unfold other_of. destruct Hpair as [[= Hf Ht]|[= Hf Ht]]; rewrite Hf.
    + now rewrite eqb_id_refl, Ht.
    + replace (eqb_id (_id B) (_id A)) with false
        by (symmetry; apply eqb_id_neq; congruence).
      now symmetry.
Qed.

(** X12. Who is listed: when every sender of the ledger is a user of the
    collection, another user [B] of the collection is among the
    connections of [A] exactly when the ledger has an accepted record
    between them, in either direction. *)
Theorem connections_lists_accepted_pairs (A B : User) (db : Db) :
  senders_exist db ->
  B ∈ users db ->
  _id A <> _id B ->
  (exists u, Some u ∈ view_data (fst (connections A db)) /\ _id u = _id B) <->
  (exists r, r ∈ connectionRequests db /\ status r = "accepted" /\
             (pair_of r = (_id A, _id B) \/ pair_of r = (_id B, _id A))).
Proof. exact (connection_listed A B db). Qed.

Lemma sample_senders_exist (l : list ConnectionRequest) :
  Forall (fun r => fromUserId r = Sample.idA \/ fromUserId r = Sample.idB) l ->
  senders_exist (mkDb [Sample.userA; Sample.userB; Sample.userC] l).
Proof.
  intros Hall r Hr. rewrite Forall_forall in Hall. cbn in Hr.
  destruct (Hall r Hr) as [->| ->];
    [exists Sample.userA | exists Sample.userB]; (split; [|reflexivity]);
    [left | right; left].
Qed.

Lemma connections_lists_accepted_pairs_witness :
  let db :=
    mkDb [Sample.userA; Sample.userB; Sample.userC]
         [mkConnectionRequest Sample.idA Sample.idB "accepted";
          mkConnectionRequest Sample.idB Sample.idA "accepted"] in
  exists u, Some u ∈ view_data (fst (connections Sample.userA db)) /\
            _id u = Sample.idB.
Proof.
  apply (connections_lists_accepted_pairs Sample.userA Sample.userB).
  - apply sample_senders_exist.
    constructor; [now left|]. constructor; [now right|]. constructor.
  - right; left.
  - discriminate.
  - eexists. split; [left|]. split; [reflexivity | now left].
Defined.

(** X13. Connections are mutual: when every sender of the ledger is a
    user of the collection, a user [B] is among the connections of [A] if
    and only if [A] is among the connections of [B]. *)
Theorem connections_are_mutual (A B : User) (db : Db) :
  senders_exist db ->
  A ∈ users db -> B ∈ users db ->
  _id A <> _id B ->
  (exists u, Some u ∈ view_data (fst (connections A db)) /\ _id u = _id B) <->
  (exists u, Some u ∈ view_data (fst (connections B db)) /\ _id u = _id A).
Proof.
  intros Hsenders HA HB Hne.
  rewrite (connection_listed A B db Hsenders HB Hne).
  rewrite (connection_listed B A db Hsenders HA (not_eq_sym Hne)).
  split; intros (r & Hr & Hacc & Hp); exists r; (split; [exact Hr|]);
    (split; [exact Hacc|]); tauto.
Qed.

Lemma connections_are_mutual_witness :
  let db :=
    mkDb [Sample.userA; Sample.userB; Sample.userC]
         [mkConnectionRequest Sample.idA Sample.idB "accepted";
          mkConnectionRequest Sample.idB Sample.idA "accepted"] in
  (exists u, Some u ∈ view_data (fst (connections Sample.userA db)) /\
             _id u = Sample.idB) /\
  (exists u, Some u ∈ view_data (fst (connections Sample.userB db)) /\
             _id u = Sample.idA).
Proof.
  assert (HA : exists u,
             Some u ∈ view_data
               (fst (connections Sample.userA
                       (mkDb [Sample.userA; Sample.userB; Sample.userC]
                             [mkConnectionRequest Sample.idA Sample.idB "accepted";
                              mkConnectionRequest Sample.idB Sample.idA "accepted"]))) /\
             _id u = Sample.idB)
    by (exists Sample.userB; split; [left | reflexivity]).
  split; [exact HA|].
  apply (connections_are_mutual Sample.userA Sample.userB); try exact HA.
  - apply sample_senders_exist.
    constructor; [now left|]. constructor; [now right|]. constructor.
  - left.
  - right; left.
  - discriminate.
Defined.

(** One swipe by a user of the collection keeps every sender and every
    recipient of the ledger in the collection. *)
Lemma swipe_references `{Mongoose} (s : Swipe) (db : Db) :
  actor s ∈ users db ->
  senders_exist db -> recipients_exist db ->
  senders_exist (snd (swipe s db)) /\ recipients_exist (snd (swipe s db)).
Proof.
  intros Hactor Hs Hr.
  destruct (swipe_effect s db) as (Hus & Heff).
  assert (Hgen : forall l',
             (forall y, y ∈ l' ->
                exists x, pair_of y = pair_of x /\
                  (x ∈ connectionRequests db \/
                   exists t st, x = mkConnectionRequest (_id (actor s)) t st /\
                                exists u, u ∈ users db /\ _id u = t)) ->
             connectionRequests (snd (swipe s db)) = l' ->
             senders_exist (snd (swipe s db)) /\ recipients_exist (snd (swipe s db))).
  { intros l' Hl' Heq. unfold senders_exist, recipients_exist. rewrite Heq, Hus.
    split; intros y Hy; destruct (Hl' y Hy) as (x & Hp & Hx);
      unfold pair_of in Hp; injection Hp as Hf Ht; rewrite ?Hf, ?Ht;
      destruct Hx as [Hx|(t & st & -> & u & Hu & Hid)]; cbn.
    - now apply Hs.
    - exists (actor s). now split.
    - now apply Hr.
    - exists u. now split. }
  destruct Heff as [Heq|(t & _ & Hu & _ & Hcase)].
  - apply (Hgen _ (fun y Hy => ex_intro _ y (conj eq_refl (or_introl Hy))) Heq).
  - assert (Hsnoc : forall st y,
               y ∈ connectionRequests db ++ [mkConnectionRequest (_id (actor s)) t st] ->
               exists x, pair_of y = pair_of x /\
                 (x ∈ connectionRequests db \/
                  exists t st, x = mkConnectionRequest (_id (actor s)) t st /\
                               exists u, u ∈ users db /\ _id u = t)).
    { intros st y Hy. exists y. split; [reflexivity|].
      apply elem_of_app in Hy as [Hy|Hy]; [now left|].
      apply list_elem_of_singleton in Hy. right. now exists t, st. }
    destruct Hcase as [Heq|[[_ Heq]|(e & _ & Heq)]];
      try (apply (Hgen _ (Hsnoc _) Heq)).
    refine (Hgen _ _ Heq). intros y Hy.
    apply in_update_inv in Hy as (x & Hx & Hp & _).
    destruct (Hsnoc _ x Hx) as (x' & Hp' & Hx'). exists x'. split; [congruence | exact Hx'].
Qed.

(** X14. References resolve: if every sender and every recipient of the
    ledger is a user of the collection, this is still so after any
    sequence of swipes made by users of the collection (a swipe on an
    identifier of no user is refused). *)
Theorem references_stay_resolved `{Mongoose} (ops : list Swipe) (db : Db) :
  senders_exist db -> recipients_exist db ->
  Forall (fun s => actor s ∈ users db) ops ->
  senders_exist (run ops db) /\ recipients_exist (run ops db).
Proof.
  intros Hs Hr Hops. revert db Hs Hr Hops.
  induction ops as [|s ops IH]; intros db Hs Hr Hops; [now split|].
  rewrite run_cons. inversion Hops as [|? ? Hactor Hrest]; subst.
  destruct (swipe_references s db Hactor Hs Hr) as [Hs' Hr'].
  apply IH; try assumption.
  destruct (swipe_effect s db) as (-> & _). exact Hrest.
Qed.

Lemma references_stay_resolved_witness :
  let db' :=
    run (H := Sample.driver)
      [mkSwipe Right Sample.userB (Sample.to Sample.idA);
       mkSwipe Left Sample.userC (Sample.to "64b7f0a1c2d3e4f5a6b7c8ff");
       mkSwipe Left Sample.userC (Sample.to Sample.idA)] Sample.db1 in
  senders_exist db' /\ recipients_exist db'.
Proof.
  apply (references_stay_resolved (H := Sample.driver) _ Sample.db1).
  - intros r Hr. apply list_elem_of_singleton in Hr. subst r.
    exists Sample.userA. split; [left | reflexivity].
  - intros r Hr. apply list_elem_of_singleton in Hr. subst r.
    exists Sample.userB. split; [right; left | reflexivity].
  - repeat constructor.
Defined.

(** * Swipes seen through the views *)

(** An interested record is listed in the received view of its
    recipient. *)
Lemma interested_in_received (recipient : User) (db : Db) (r : ConnectionRequest) :
  r ∈ connectionRequests db ->
  toUserId r = _id recipient ->
  status r = "interested" ->
  mkRow (populated (fromUserId r) db) (_id recipient) "interested" ∈
    view_data (fst (requests_received recipient db)).
Proof.
  intros Hr Hto Hst. rewrite requests_received_unfold; cbn.
  apply (list_elem_of_fmap_2'
           (fun r => mkRow (populated (fromUserId r) db) (toUserId r) (status r)) _ r).
  - apply elem_of_filter_bool. split; [exact Hr|]. apply received_by_true. now split.
  - now rewrite Hto, Hst.
Qed.

(** An interested record is listed in the sent view of its sender. *)
Lemma interested_in_sent (sender : User) (db : Db) (r : ConnectionRequest) :
  r ∈ connectionRequests db ->
  fromUserId r = _id sender ->
  status r = "interested" ->
  mkRow (_id sender) (populated (toUserId r) db) "interested" ∈
    view_data (fst (requests_sent sender db)).
Proof.
  intros Hr Hfrom Hst. rewrite requests_sent_unfold; cbn.
  apply (list_elem_of_fmap_2'
           (fun r => mkRow (fromUserId r) (populated (toUserId r) db) (status r)) _ r).
  - apply elem_of_filter_bool. split; [exact Hr|]. apply sent_by_true. now split.
  - now rewrite Hfrom, Hst.
Qed.

(** The two states of a match: after the right-swipe of [A] on [B], and
    after the right-swipe of [B] on [A] that follows. *)
Lemma two_right_swipes `{Mongoose} (A B : User) (vA vB : Js.Value) (db : Db) :
  _id A <> _id B ->
  A ∈ users db -> B ∈ users db ->
  Js.truthy vA = true -> castObjectId vA = Some (_id A) ->
  Js.truthy vB = true -> castObjectId vB = Some (_id B) ->
  (forall r, r ∈ connectionRequests db -> between (_id A) (_id B) r = false) ->
  let db1 := snd (swipe_right A (Some (mkBody vB)) db) in
  let db2 := snd (swipe_right B (Some (mkBody vA)) db1) in
  db1 = mkDb (users db)
             (connectionRequests db ++
                [mkConnectionRequest (_id A) (_id B) "interested"]) /\
  db2 = mkDb (users db)
             (connectionRequests db ++
                [mkConnectionRequest (_id A) (_id B) "accepted";
                 mkConnectionRequest (_id B) (_id A) "accepted"]).
Proof.
  intros Hne HA HB HtA HcA HtB HcB Hno db1 db2.
  destruct (find_user_Some _ _ A HA eq_refl) as [uA HuA].
  destruct (find_user_Some _ _ B HB eq_refl) as [uB HuB].
  destruct (find_pair_None_of_between _ _ None _ Hno) as [HAB HBA].
  destruct (find_pair_None_of_between _ _ (Some "interested") _ Hno) as [HABi HBAi].
  assert (HneAB : eqb_id (_id A) (_id B) = false) by now apply eqb_id_neq.
  assert (HneBA : eqb_id (_id B) (_id A) = false)
    by (apply eqb_id_neq; congruence).
  assert (H1 : db1 = mkDb (users db)
                 (connectionRequests db ++
                    [mkConnectionRequest (_id A) (_id B) "interested"])).
  { unfold db1. rewrite swipe_right_unfold; cbn.
    rewrite HtB, HcB, HuB, HAB, HneAB, HBAi. reflexivity. }
  split; [exact H1|].
  unfold db2. rewrite H1, swipe_right_unfold; cbn.
  rewrite HtA, HcA, HuA, !find_app, HBA, HABi; cbn.
  set (r1 := mkConnectionRequest (_id A) (_id B) "interested").
  set (r2 := mkConnectionRequest (_id B) (_id A) "interested").
  assert (matches_pair (_id B) (_id A) None r1 = false) as ->
    by (apply Bool.not_true_is_false; intros Hm;
        apply matches_pair_None in Hm; injection Hm; intros; congruence).
  assert (matches_pair (_id A) (_id B) (Some "interested") r1 = true) as ->
    by (apply matches_pair_Some; split; reflexivity).
  rewrite HneBA.
  cbn. rewrite !map_app, map_update_id; cbn.
  - assert (between (_id B) (_id A) r1 = true) as ->
      by (apply between_true; right; reflexivity).
    assert (between (_id B) (_id A) r2 = true) as ->
      by (apply between_true; left; reflexivity).
    rewrite <- app_assoc. reflexivity.
  - intros x Hx. rewrite between_sym. now apply Hno.
Qed.

(** X15. A match seen through the views. Under the conditions of a match
    between [A] and [B] (distinct users of the collection, no record
    between them, every sender of the ledger in the collection): after
    the right-swipe of [A], the request is in the received view of [B]
    and in the sent view of [A]; after the right-swipe of [B] that
    follows, the pending views of every user are again what they were
    before the two swipes, and each of [A] and [B] is among the
    connections of the other. *)
Theorem match_seen_through_views `{Mongoose} (A B : User) (vA vB : Js.Value)
    (db : Db) :
  _id A <> _id B ->
  A ∈ users db -> B ∈ users db ->
  Js.truthy vA = true -> castObjectId vA = Some (_id A) ->
  Js.truthy vB = true -> castObjectId vB = Some (_id B) ->
  (forall r, r ∈ connectionRequests db -> between (_id A) (_id B) r = false) ->
  senders_exist db ->
  let db1 := snd (swipe_right A (Some (mkBody vB)) db) in
  let db2 := snd (swipe_right B (Some (mkBody vA)) db1) in
  mkRow (populated (_id A) db1) (_id B) "interested" ∈
    view_data (fst (requests_received B db1)) /\
  mkRow (_id A) (populated (_id B) db1) "interested" ∈
    view_data (fst (requests_sent A db1)) /\
  (forall X : User,
     fst (requests_received X db2) = fst (requests_received X db) /\
     fst (requests_sent X db2) = fst (requests_sent X db)) /\
  (exists u, Some u ∈ view_data (fst (connections A db2)) /\ _id u = _id B) /\
  (exists u, Some u ∈ view_data (fst (connections B db2)) /\ _id u = _id A).
Proof.
  intros Hne HA HB HtA HcA HtB HcB Hno Hsenders db1 db2.
  destruct (two_right_swipes A B vA vB db Hne HA HB HtA HcA HtB HcB Hno) as [H1 H2].
  change (snd (swipe_right A (Some (mkBody vB)) db)) with db1 in H1, H2.
  change (snd (swipe_right B (Some (mkBody vA)) db1)) with db2 in H2.
  set (rAB := mkConnectionRequest (_id A) (_id B) "accepted").
  set (rBA := mkConnectionRequest (_id B) (_id A) "accepted").
  assert (Hsenders2 : senders_exist db2).
  { rewrite H2. intros r Hr. cbn in Hr. apply elem_of_app in Hr as [Hr|Hr];
      [now apply Hsenders|].
    apply elem_of_cons in Hr as [->|Hr]; [exists A; now split|].
    apply list_elem_of_singleton in Hr. subst r. exists B. now split. }
  assert (HrAB : rAB ∈ connectionRequests db2)
    by (rewrite H2; cbn; apply elem_of_app; right; left).
  split; [|split; [|split; [|split]]].
  - apply (interested_in_received B db1 (mkConnectionRequest (_id A) (_id B) "interested"));
      [rewrite H1; apply elem_of_app; right; left | reflexivity | reflexivity].
  - apply (interested_in_sent A db1 (mkConnectionRequest (_id A) (_id B) "interested"));
      [rewrite H1; apply elem_of_app; right; left | reflexivity | reflexivity].
  - intros X. rewrite !requests_received_unfold, !requests_sent_unfold, H2; cbn.
    unfold populated; cbn. rewrite !List.filter_app; cbn.
    unfold received_by, sent_by; cbn. rewrite !Bool.andb_false_r, !app_nil_r.
    now split.
  - apply (connection_listed A B db2 Hsenders2); [now rewrite H2 | exact Hne |].
    exists rAB. split; [exact HrAB|]. split; [reflexivity | now left].
  - apply (connection_listed B A db2 Hsenders2); [now rewrite H2 | congruence |].
    exists rAB. split; [exact HrAB|]. split; [reflexivity | now right].
Qed.

Lemma match_seen_through_views_witness :
  let db1 :=
    snd (swipe_right (H := Sample.driver) Sample.userA (Sample.to Sample.idB)
           Sample.db0) in
  let db2 :=
    snd (swipe_right (H := Sample.driver) Sample.userB (Sample.to Sample.idA) db1) in
  mkRow (populated Sample.idA db1) Sample.idB "interested" ∈
    view_data (fst (requests_received Sample.userB db1)) /\
  mkRow Sample.idA (populated Sample.idB db1) "interested" ∈
    view_data (fst (requests_sent Sample.userA db1)) /\
  (forall X : User,
     fst (requests_received X db2) = fst (requests_received X Sample.db0) /\
     fst (requests_sent X db2) = fst (requests_sent X Sample.db0)) /\
  (exists u, Some u ∈ view_data (fst (connections Sample.userA db2)) /\
             _id u = Sample.idB) /\
  (exists u, Some u ∈ view_data (fst (connections Sample.userB db2)) /\
             _id u = Sample.idA).
Proof.
  apply (match_seen_through_views (H := Sample.driver) Sample.userA Sample.userB
           (Js.VString Sample.idA) (Js.VString Sample.idB) Sample.db0).
  - discriminate.
  - left.
  - right; left.
  - reflexivity.
  - reflexivity.
  - reflexivity.
  - reflexivity.
  - intros r Hr. inversion Hr.
  - intros r Hr. inversion Hr.
Defined.

(** X16. A left-swipe does not dismiss an incoming request. When [B] has
    an interested record toward [A] and [A], who has no record toward
    [B], swipes left on [B], the request of [B] stays in the received
    view of [A], after that swipe and after any sequence of swipes that
    follows. *)
Theorem left_swipe_keeps_request_pending `{Mongoose} (A B : User) (vB : Js.Value)
    (r : ConnectionRequest) (ops : list Swipe) (db : Db) :
  r ∈ connectionRequests db ->
  pair_of r = (_id B, _id A) ->
  status r = "interested" ->
  B ∈ users db ->
  Js.truthy vB = true -> castObjectId vB = Some (_id B) ->
  (forall x, x ∈ connectionRequests db -> pair_of x <> (_id A, _id B)) ->
  let db' := run ops (snd (swipe_left A (Some (mkBody vB)) db)) in
  mkRow (populated (_id B) db') (_id A) "interested" ∈
    view_data (fst (requests_received A db')).
Proof.
  intros Hr Hp Hst HB Ht Hc Hnone db'.
  destruct (find_user_Some _ _ B HB eq_refl) as [uB HuB].
  assert (HAB : find (matches_pair (_id A) (_id B) None) (connectionRequests db) = None).
  { apply find_None. intros x Hx. apply Bool.not_true_is_false. intros Hm.
    apply matches_pair_None in Hm. now apply (Hnone x Hx). }
  assert (H1 : connectionRequests (snd (swipe_left A (Some (mkBody vB)) db)) =
               connectionRequests db ++ [mkConnectionRequest (_id A) (_id B) "ignored"]).
  { assert (Hne : eqb_id (_id A) (_id B) = false).
    { apply eqb_id_neq. intros E. apply (Hnone r Hr). now rewrite Hp, E. }
    rewrite swipe_left_unfold; cbn. rewrite Ht, Hc, HuB, HAB, Hne. reflexivity. }
  apply list_elem_of_lookup in Hr as [i Hi].
  assert (Hfinal : connectionRequests db' !! i = Some r).
  { apply (run_frozen ops _ (_id A) (_id B) i r).
    - rewrite H1, map_app. apply elem_of_app. right. left.
    - rewrite H1, map_app. apply elem_of_app. left. rewrite <- Hp.
      apply (list_elem_of_fmap_2 pair_of). eapply list_elem_of_lookup_2, Hi.
    - rewrite H1. now apply lookup_app_l_Some.
    - now right. }
  injection Hp as Hf Hto. rewrite <- Hf.
  apply interested_in_received; [eapply list_elem_of_lookup_2, Hfinal | exact Hto | exact Hst].
Qed.

Lemma left_swipe_keeps_request_pending_witness :
  let db' :=
    run (H := Sample.driver)
      [mkSwipe Right Sample.userB (Sample.to Sample.idA);
       mkSwipe Right Sample.userB (Sample.to Sample.idC)]
      (snd (swipe_left (H := Sample.driver) Sample.userB (Sample.to Sample.idA)
              Sample.db1)) in
  mkRow (populated Sample.idA db') Sample.idB "interested" ∈
    view_data (fst (requests_received Sample.userB db')).
Proof.
  apply (left_swipe_keeps_request_pending (H := Sample.driver) Sample.userB Sample.userA
           (Js.VString Sample.idA)
           (mkConnectionRequest Sample.idA Sample.idB "interested")
           [mkSwipe Right Sample.userB (Sample.to Sample.idA);
            mkSwipe Right Sample.userB (Sample.to Sample.idC)] Sample.db1).
  - left.
  - reflexivity.
  - reflexivity.
  - left.
  - reflexivity.
  - reflexivity.
  - intros x Hx. apply list_elem_of_singleton in Hx. subst x. discriminate.
Defined.

(** * Further properties of the feed *)

(** X17. The feed only reads, and only returns eligible users: the
    database is left as it is, the answer has at most [limit] users and
    never more than 50, and every returned user is a user of the
    collection with a complete profile who is not the requester. *)
Theorem feed_returns_eligible_users `{Mongoose} (loggedInUser : User)
    (query : Query.t) (db : Db) :
  snd (feed loggedInUser query db) = db /\
  (List.length (feed_data (fst (feed loggedInUser query db))) <= 50)%nat /\
  (Z.of_nat (List.length (feed_data (fst (feed loggedInUser query db))))
     <= limit_of query)%Z /\
  (forall u, u ∈ feed_data (fst (feed loggedInUser query db)) ->
     u ∈ users db /\ isProfileComplete u = true /\ _id u <> _id loggedInUser).
Proof.
  pose proof (limit_of_range query) as Hrange.
  assert (Hlen : (Z.of_nat (List.length (feed_data (fst (feed loggedInUser query db))))
                    <= limit_of query)%Z).
  { rewrite feed_unfold.
    destruct (candidates loggedInUser query db) as [c|message]; cbn; [|lia].
    set (rows := firstn _ _).
    destruct (Z.ltb_spec (limit_of query) (Z.of_nat (List.length rows))); cbn;
      [rewrite length_take | ]; lia. }
  split; [|split; [lia|split; [exact Hlen|]]].
  - rewrite feed_unfold. now destruct (candidates loggedInUser query db).
  - intros u Hu.
    destruct (feed_data_candidates _ _ _ _ Hu) as (c & Hc & Hin).
    destruct (candidate_inv _ _ _ _ _ Hc Hin) as (Hus & _ & Hne & Hcomplete).
    now repeat split.
Qed.

Lemma take_app_drop {A} (n m : nat) (l : list A) :
  firstn n l ++ firstn m (skipn n l) = firstn (n + m) l.
Proof.
  revert l. induction n as [|n IH]; intros l; [reflexivity|].
  destruct l as [|x l]; cbn; [now rewrite take_nil | now rewrite IH].
Qed.

(** The answers to two consecutive pages of one request. *)
Lemma feed_next_page `{Mongoose} (loggedInUser : User) (query : Query.t)
    (v : Js.QueryValue) (db : Db) (c : list User) :
  candidates loggedInUser query db = Returned c ->
  page_of (with_page query v) = (page_of query + 1)%Z ->
  let limit := Z.to_nat (limit_of query) in
  let rest := skipn (Z.to_nat (skip_of query)) c in
  fst (feed loggedInUser query db) =
    FeedJson (firstn limit rest) (page_of query) (limit_of query)
             (limit_of query <? Z.of_nat (List.length rest))%Z /\
  fst (feed loggedInUser (with_page query v) db) =
    FeedJson (firstn limit (skipn limit rest)) (page_of query + 1) (limit_of query)
             (limit_of query <? Z.of_nat (List.length (skipn limit rest)))%Z.
Proof.
  intros Hc Hpage limit rest.
  pose proof (limit_of_range query) as Hrange.
  pose proof (page_of_positive query) as Hp.
  split; [now rewrite (feed_returns _ _ _ _ (proj1 Hrange) Hc)|].
  assert (Hc' : candidates loggedInUser (with_page query v) db = Returned c) by exact Hc.
  rewrite (feed_returns loggedInUser (with_page query v) db c (proj1 Hrange) Hc');
    cbn [fst].
  change (limit_of (with_page query v)) with (limit_of query).
  rewrite Hpage.
  replace (skipn (Z.to_nat (skip_of (with_page query v))) c) with (skipn limit rest);
    [reflexivity|].
  unfold rest, limit. rewrite drop_drop. f_equal.
  unfold skip_of. rewrite Hpage. change (limit_of (with_page query v)) with (limit_of query).
  nia.
Qed.

(** X18. [hasMore] announces the next page: when the query of a request
    runs, its answer has [hasMore = true] if and only if the answer to the
    same request for the following page has at least one user. *)
Theorem hasMore_iff_next_page `{Mongoose} (loggedInUser : User) (query : Query.t)
    (v : Js.QueryValue) (db : Db) (c : list User) :
  candidates loggedInUser query db = Returned c ->
  page_of (with_page query v) = (page_of query + 1)%Z ->
  exists data hasMore,
    fst (feed loggedInUser query db) =
      FeedJson data (page_of query) (limit_of query) hasMore /\
    (hasMore = true <->
     feed_data (fst (feed loggedInUser (with_page query v) db)) <> []).
Proof.
  intros Hc Hpage.
  destruct (feed_next_page loggedInUser query v db c Hc Hpage) as [H1 H2].
  pose proof (limit_of_range query) as Hrange.
  eexists _, _. split; [exact H1|]. rewrite H2; cbn.
  set (rest := skipn (Z.to_nat (skip_of query)) c).
  rewrite Z.ltb_lt. split.
  - intros Hlt Hnil. apply (f_equal (@List.length User)) in Hnil.
    rewrite length_take, length_drop in Hnil. cbn in Hnil. lia.
  - intros Hne. destruct (Z.lt_ge_cases (limit_of query) (Z.of_nat (List.length rest)))
      as [Hlt|Hge]; [exact Hlt|].
    exfalso. apply Hne. rewrite drop_ge by lia. apply take_nil.
Qed.

Lemma hasMore_iff_next_page_witness :
  let query := with_limit (with_page Sample.no_query (Js.QString "1")) (Js.QString "50") in
  exists data hasMore,
    fst (feed (H := Sample.driver) Sample.userA query Sample.db_crowd) =
      FeedJson data 1 50 hasMore /\
    (hasMore = true <->
     feed_data (fst (feed (H := Sample.driver) Sample.userA
                       (with_page query (Js.QString "2")) Sample.db_crowd)) <> []).
Proof.
  apply (hasMore_iff_next_page (H := Sample.driver) Sample.userA
           (with_limit (with_page Sample.no_query (Js.QString "1")) (Js.QString "50"))
           (Js.QString "2") Sample.db_crowd (Sample.crowd 60)).
  - vm_compute. reflexivity.
  - reflexivity.
Defined.

(** X19. Consecutive pages tile the candidates: when the query of a
    request runs, the users of its answer followed by the users of the
    answer for the following page are the first [2 * limit] candidates
    after the skipped ones, in order, none missing and none repeated. *)
Theorem consecutive_pages_tile `{Mongoose} (loggedInUser : User) (query : Query.t)
    (v : Js.QueryValue) (db : Db) (c : list User) :
  candidates loggedInUser query db = Returned c ->
  page_of (with_page query v) = (page_of query + 1)%Z ->
  feed_data (fst (feed loggedInUser query db)) ++
  feed_data (fst (feed loggedInUser (with_page query v) db)) =
  firstn (2 * Z.to_nat (limit_of query)) (skipn (Z.to_nat (skip_of query)) c).
Proof.
  intros Hc Hpage.
  destruct (feed_next_page loggedInUser query v db c Hc Hpage) as [-> ->]; cbn.
  rewrite take_app_drop. f_equal. lia.
Qed.

Lemma consecutive_pages_tile_witness :
  let query := with_limit (with_page Sample.no_query (Js.QString "1")) (Js.QString "25") in
  feed_data (fst (feed (H := Sample.driver) Sample.userA query Sample.db_crowd)) ++
  feed_data (fst (feed (H := Sample.driver) Sample.userA
                    (with_page query (Js.QString "2")) Sample.db_crowd)) =
  firstn 50 (Sample.crowd 60).
Proof.
  apply (consecutive_pages_tile (H := Sample.driver) Sample.userA
           (with_limit (with_page Sample.no_query (Js.QString "1")) (Js.QString "25"))
           (Js.QString "2") Sample.db_crowd (Sample.crowd 60)).
  - vm_compute. reflexivity.
  - reflexivity.
Defined.

Lemma feed_same_filter `{Mongoose} (loggedInUser : User) (q q' : Query.t) (db : Db) :
  filterQuery_of loggedInUser q db = filterQuery_of loggedInUser q' db ->
  page_of q = page_of q' -> limit_of q = limit_of q' ->
  feed loggedInUser q db = feed loggedInUser q' db.
Proof.
  intros Hfq Hp Hl. rewrite !feed_unfold. unfold candidates, skip_of.
  now rewrite Hfq, Hp, Hl.
Qed.

(** X20. The sentinel ["any"] and the empty value are no filter: a
    request whose [experience] parameter trims to ["any"] or to the empty
    string is answered as the same request without the parameter, and so
    for [role] and for [availability]. *)
Theorem any_is_no_filter `{Mongoose} (loggedInUser : User) (query : Query.t)
    (v : Js.QueryValue) (db : Db) :
  normalizeString v = "any" \/ normalizeString v = "" ->
  feed loggedInUser (with_experience query v) db =
    feed loggedInUser (with_experience query Js.QUndefined) db /\
  feed loggedInUser (with_role query v) db =
    feed loggedInUser (with_role query Js.QUndefined) db /\
  feed loggedInUser (with_availability query v) db =
    feed loggedInUser (with_availability query Js.QUndefined) db.
Proof.
  intros Hv. repeat split; apply feed_same_filter; try reflexivity;
    unfold filterQuery_of, with_experience, with_role, with_availability;
    cbn [Query.page Query.limit Query.skills Query.experience Query.role
         Query.availability Query.location];
    destruct Hv as [-> | ->]; reflexivity.
Qed.

Lemma any_is_no_filter_witness :
  feed (H := Sample.driver) Sample.userA
    (with_experience Sample.no_query (Js.QString " any ")) Sample.db0 =
  feed (H := Sample.driver) Sample.userA Sample.no_query Sample.db0.
Proof.
  apply (any_is_no_filter (H := Sample.driver) Sample.userA Sample.no_query
           (Js.QString " any ") Sample.db0).
  left. reflexivity.
Defined.

(** What the optional paths of the filter query require of a candidate. *)
Lemma candidate_filters `{Mongoose} (loggedInUser : User) (query : Query.t) (db : Db)
    (c : list User) (u : User) :
  candidates loggedInUser query db = Returned c -> u ∈ c ->
  let fq := filterQuery_of loggedInUser query db in
  (forall wanted, fq_skills_in fq = Some wanted ->
     exists s, s ∈ skills u /\ s ∈ wanted) /\
  (forall e, fq_experience fq = Some e -> experience u = e) /\
  (forall e, fq_role fq = Some e -> role u = e) /\
  (forall e, fq_availability fq = Some e -> availability u = e) /\
  (forall pattern, fq_location_regex fq = Some pattern ->
     exists re, compileRegex pattern = Some re /\ re (location u) = true).
Proof.
  intros Hc Hu fq. unfold candidates in Hc. fold fq in Hc.
  assert (Hsat : exists re,
             satisfies fq re u = true /\
             match fq_location_regex fq with
             | Some pattern => exists f, compileRegex pattern = Some f /\ re = Some f
             | None => re = None
             end).
  { destruct (fq_location_regex fq) as [pattern|];
      [destruct (compileRegex pattern) as [f|]; [|discriminate]|];
      injection Hc as <-; apply list_elem_of_In, filter_In in Hu as [_ Hs];
      eexists; (split; [exact Hs|]); eauto. }
  destruct Hsat as (re & Hs & Hre).
  unfold satisfies in Hs. rewrite !Bool.andb_true_iff in Hs.
  destruct Hs as [[[[[[[_ _] _] Hsk] Hex] Hro] Hav] Hloc].
  split; [|split; [|split; [|split]]].
  - intros wanted Hw. rewrite Hw in Hsk.
    apply existsb_exists in Hsk as (s & Hs & Hin).
    apply existsb_exists in Hin as (w & Hw' & Heq). apply String.eqb_eq in Heq. subst w.
    exists s. now rewrite !list_elem_of_In.
  - intros e He. rewrite He in Hex. now apply String.eqb_eq in Hex.
  - intros e He. rewrite He in Hro. now apply String.eqb_eq in Hro.
  - intros e He. rewrite He in Hav. now apply String.eqb_eq in Hav.
  - intros pattern Hp. rewrite Hp in Hre. destruct Hre as (f & Hf & ->).
    exists f. now split.
Qed.

(** X21. The filters of the feed are honoured: every user of an answer
    has at least one of the skills asked for, when any is asked for; has
    exactly the experience, the role and the availability asked for, when
    the parameter trims to a value other than the empty string and
    ["any"]; and has a location that the pattern asked for matches, when
    the [location] parameter does not trim to the empty string. *)
Theorem feed_honours_filters `{Mongoose} (loggedInUser : User) (query : Query.t)
    (db : Db) (u : User) :
  u ∈ feed_data (fst (feed loggedInUser query db)) ->
  let wanted := normalizeSkills (Query.skills query) in
  let e := normalizeString (Query.experience query) in
  let r := normalizeString (Query.role query) in
  let a := normalizeString (Query.availability query) in
  let l := normalizeString (Query.location query) in
  (wanted <> [] -> exists s, s ∈ skills u /\ s ∈ wanted) /\
  (e <> "" -> e <> "any" -> experience u = e) /\
  (r <> "" -> r <> "any" -> role u = r) /\
  (a <> "" -> a <> "any" -> availability u = a) /\
  (l <> "" -> exists re, compileRegex l = Some re /\ re (location u) = true).
Proof.
  intros Hu wanted e r a l.
  destruct (feed_data_candidates _ _ _ _ Hu) as (c & Hc & Hin).
  destruct (candidate_filters _ _ _ _ _ Hc Hin) as (Hsk & He & Hr & Ha & Hl).
  assert (Hsome : forall s : string, s <> "" -> s <> "any" ->
             some_if (Js.truthy_string s && negb (String.eqb s "any")) s = Some s).
  { intros s Hs Hany. unfold Js.truthy_string.
    apply String.eqb_neq in Hs, Hany. now rewrite Hs, Hany. }
  split; [|split; [|split; [|split]]].
  - intros Hw. apply Hsk. cbn. fold wanted. now destruct wanted.
  - intros H1 H2. apply He. cbn. now apply Hsome.
  - intros H1 H2. apply Hr. cbn. now apply Hsome.
  - intros H1 H2. apply Ha. cbn. now apply Hsome.
  - intros H1. apply Hl. cbn. fold l. unfold Js.truthy_string.
    apply String.eqb_neq in H1. now rewrite H1.
Qed.

Lemma feed_honours_filters_witness :
  let query :=
    Query.mk Js.QUndefined Js.QUndefined (Js.QString "rust, zig") (Js.QString "junior")
             Js.QUndefined Js.QUndefined (Js.QString "mum") in
  Sample.userC ∈ feed_data (fst (feed (H := Sample.driver) Sample.userA query Sample.db0))
  /\ (exists s, s ∈ skills Sample.userC /\ s ∈ ["rust"; "zig"])
  /\ experience Sample.userC = "junior".
Proof.
  intros query.
  assert (Hin : Sample.userC ∈
                feed_data (fst (feed (H := Sample.driver) Sample.userA query Sample.db0)))
    by (vm_compute; left).
  split; [exact Hin|].
  destruct (feed_honours_filters (H := Sample.driver) Sample.userA query Sample.db0
              Sample.userC Hin) as (Hsk & He & _).
  split; [apply Hsk; discriminate | apply He; discriminate].
Defined.

(** * Further properties of the helpers *)

(** ** Trimming *)

Arguments Js.is_space : simpl never.

Lemma trimStart_all_space (w s : string) :
  all_space w = true -> Js.trimStart (w ++ s) = Js.trimStart s.
Proof.
  induction w as [|c w IH]; simpl; [reflexivity|].
  intros Hw. apply Bool.andb_true_iff in Hw as [Hc Hw]. rewrite Hc. now apply IH.
Qed.

Lemma trimStart_first (s : string) :
  (forall c, first_char s = Some c -> Js.is_space c = false) -> Js.trimStart s = s.
Proof.
  destruct s as [|c r]; simpl; [reflexivity|]. intros Hc. now rewrite (Hc c eq_refl).
Qed.

Lemma trimStart_first_char (s : string) (c : ascii) :
  first_char (Js.trimStart s) = Some c -> Js.is_space c = false.
Proof.
  induction s as [|x r IH]; simpl; [discriminate|].
  destruct (Js.is_space x) eqn:Hx; [exact IH|]. simpl. now intros [= <-].
Qed.

Lemma trimEnd_all_space (w : string) : all_space w = true -> Js.trimEnd w = "".
Proof.
  induction w as [|c w IH]; simpl; [reflexivity|].
  intros Hw. apply Bool.andb_true_iff in Hw as [Hc Hw]. now rewrite (IH Hw), Hc.
Qed.

Lemma trimEnd_app_space (s w : string) :
  all_space w = true -> Js.trimEnd (s ++ w) = Js.trimEnd s.
Proof.
  intros Hw. induction s as [|c r IH]; simpl; [now apply trimEnd_all_space|].
  now rewrite IH.
Qed.

Lemma trimEnd_last (s : string) :
  (forall c, last_char s = Some c -> Js.is_space c = false) -> Js.trimEnd s = s.
Proof.
  induction s as [|c r IH]; [reflexivity|]. intros Hlast.
  destruct r as [|c' r'].
  - simpl. now rewrite (Hlast c eq_refl).
  - assert (Hr : Js.trimEnd (String c' r') = String c' r') by (apply IH; exact Hlast).
    change (Js.trimEnd (String c (String c' r'))) with
      (match Js.trimEnd (String c' r') with
       | EmptyString => if Js.is_space c then EmptyString else String c EmptyString
       | r0 => String c r0
       end).
    now rewrite Hr.
Qed.

Lemma trimEnd_first_char (s : string) (c : ascii) :
  (forall x, first_char s = Some x -> Js.is_space x = false) ->
  first_char (Js.trimEnd s) = Some c -> Js.is_space c = false.
Proof.
  destruct s as [|x r]; simpl; [discriminate|]. intros Hx.
  destruct (Js.trimEnd r); [destruct (Js.is_space x) eqn:E; [discriminate|]|];
    simpl; intros [= <-]; now apply Hx.
Qed.

Lemma trimEnd_last_char (s : string) (c : ascii) :
  last_char (Js.trimEnd s) = Some c -> Js.is_space c = false.
Proof.
  induction s as [|x r IH]; simpl; [discriminate|].
  destruct (Js.trimEnd r) as [|y r'] eqn:Hr.
  - destruct (Js.is_space x) eqn:Hx; simpl; [discriminate | now intros [= <-]].
  - exact IH.
Qed.

Lemma trim_trimmed (s : string) : trimmed (Js.trim s).
Proof.
  unfold Js.trim. split; intros c Hc.
  - apply (trimEnd_first_char (Js.trimStart s)); [|exact Hc].
    intros x. apply trimStart_first_char.
  - now apply (trimEnd_last_char (Js.trimStart s)).
Qed.

Lemma trim_of_trimmed (s : string) : trimmed s -> Js.trim s = s.
Proof.
  intros [Hfirst Hlast]. unfold Js.trim.
  rewrite (trimStart_first s Hfirst). now apply trimEnd_last.
Qed.

(** X22. [normalizeString] strips the white space around a value and
    nothing else: its result neither starts nor ends with white space,
    and a string that neither starts nor ends with white space is given
    back as it is, whatever white space is put before and after it. *)
Theorem normalizeString_strips_around (v : Js.QueryValue) (w1 w2 s : string) :
  trimmed (normalizeString v) /\
  (all_space w1 = true -> all_space w2 = true -> trimmed s ->
   normalizeString (Js.QString (w1 ++ s ++ w2)) = s).
Proof.
  split.
  - destruct v; simpl; [split; discriminate | apply trim_trimmed | apply trim_trimmed].
  - intros H1 H2 [Hfirst Hlast]. simpl. unfold Js.trim.
    rewrite (trimStart_all_space w1 _ H1).
    destruct s as [|c r].
    + assert (Hall : forall w, all_space w = true -> Js.trimStart w = "")
        by (clear; induction w as [|c w IH]; simpl; [reflexivity|];
            intros Hw; apply Bool.andb_true_iff in Hw as [-> Hw]; now apply IH).
      change (Js.trimEnd (Js.trimStart w2) = ""). now rewrite (Hall w2 H2).
    + rewrite (trimStart_first (String c r ++ w2)) by
        (simpl; intros x [= <-]; now apply Hfirst).
      rewrite (trimEnd_app_space _ _ H2). now apply trimEnd_last.
Qed.

Lemma normalizeString_strips_around_witness :
  normalizeString (Js.QString "  full stack ") = "full stack".
Proof.
  apply (proj2 (normalizeString_strips_around Js.QUndefined "  " " " "full stack")).
  - reflexivity.
  - reflexivity.
  - split; intros c [= <-]; reflexivity.
Defined.

(** ** Skills *)

Lemma includes_comma_app (a b : string) :
  Js.includes_comma (a ++ b) = Js.includes_comma a || Js.includes_comma b.
Proof.
  induction a as [|c a IH]; simpl; [reflexivity|]. now destruct (Ascii.eqb c ",").
Qed.

Lemma split_comma_aux_pieces (s cur piece : string) :
  Js.includes_comma cur = false ->
  piece ∈ Js.split_comma_aux s cur -> Js.includes_comma piece = false.
Proof.
  revert cur. induction s as [|c r IH]; intros cur Hcur Hin; simpl in Hin.
  - apply list_elem_of_singleton in Hin. now subst.
  - destruct (Ascii.eqb c ",") eqn:Hc.
    + apply elem_of_cons in Hin as [->|Hin]; [exact Hcur | now apply (IH "")].
    + apply (IH (cur ++ String c "")%string); [|exact Hin].
      rewrite includes_comma_app, Hcur. simpl. now rewrite Hc.
Qed.

Lemma trimStart_no_comma (s : string) :
  Js.includes_comma s = false -> Js.includes_comma (Js.trimStart s) = false.
Proof.
  induction s as [|c r IH]; simpl; [reflexivity|].
  destruct (Ascii.eqb c ",") eqn:Hc; [discriminate|]. intros Hr.
  destruct (Js.is_space c); [now apply IH | simpl; now rewrite Hc].
Qed.

Lemma trimEnd_no_comma (s : string) :
  Js.includes_comma s = false -> Js.includes_comma (Js.trimEnd s) = false.
Proof.
  induction s as [|c r IH]; simpl; [reflexivity|].
  destruct (Ascii.eqb c ",") eqn:Hc; [discriminate|]. intros Hr.
  specialize (IH Hr). destruct (Js.trimEnd r) as [|y r'].
  - destruct (Js.is_space c); simpl; [reflexivity | now rewrite Hc].
  - simpl in *. now rewrite Hc.
Qed.

Lemma truthy_string_true (s : string) : Js.truthy_string s = true <-> s <> "".
Proof.
  unfold Js.truthy_string. rewrite Bool.negb_true_iff. apply String.eqb_neq.
Qed.

Lemma map_filter_clean (l : list string) :
  (forall s, s ∈ l -> s <> "" /\ trimmed s) ->
  List.filter Js.truthy_string (map (fun v => normalizeString (Js.QString v)) l) = l.
Proof.
  induction l as [|x l IH]; intros Hall; [reflexivity|]. simpl.
  destruct (Hall x) as [Hne Htr]; [left|].
  rewrite (trim_of_trimmed x Htr), (proj2 (truthy_string_true x) Hne).
  f_equal. apply IH. intros s Hs. apply Hall. now right.
Qed.

(** X23. [normalizeSkills] returns clean skills: none is empty, none
    starts or ends with white space, none of those read from a single
    string contains a comma; and the result is stable, in that
    normalizing it again, given as an array, returns it unchanged. *)
Theorem normalizeSkills_returns_clean_skills (v : Js.QueryValue) :
  (forall s, s ∈ normalizeSkills v -> s <> "" /\ trimmed s) /\
  (forall str s, v = Js.QString str -> s ∈ normalizeSkills v ->
     Js.includes_comma s = false) /\
  normalizeSkills (Js.QArray (normalizeSkills v)) = normalizeSkills v.
Proof.
  assert (Hclean : forall s, s ∈ normalizeSkills v -> s <> "" /\ trimmed s).
  { intros s Hs. destruct v as [|str|l]; simpl in Hs.
    - inversion Hs.
    - destruct (Js.truthy_string (Js.trim str)) eqn:Ht; simpl in Hs; [|inversion Hs].
      destruct (Js.includes_comma (Js.trim str)).
      + apply elem_of_filter_bool in Hs as [Hin Htruthy].
        apply truthy_string_true in Htruthy. split; [exact Htruthy|].
        apply (list_elem_of_fmap_1 Js.trim) in Hin as (x & -> & _). apply trim_trimmed.
      + apply list_elem_of_singleton in Hs. subst s.
        split; [now apply truthy_string_true | apply trim_trimmed].
    - apply elem_of_filter_bool in Hs as [Hin Htruthy].
      apply truthy_string_true in Htruthy. split; [exact Htruthy|].
      apply (list_elem_of_fmap_1 (fun v => normalizeString (Js.QString v))) in Hin
        as (x & -> & _).
      apply trim_trimmed. }
  split; [exact Hclean|]. split.
  - intros str s -> Hs. simpl in Hs.
    destruct (Js.truthy_string (Js.trim str)); simpl in Hs; [|inversion Hs].
    destruct (Js.includes_comma (Js.trim str)) eqn:Hcomma.
    + apply elem_of_filter_bool in Hs as [Hin _].
      apply (list_elem_of_fmap_1 Js.trim) in Hin as (x & -> & Hx).
      unfold Js.trim. apply trimEnd_no_comma, trimStart_no_comma.
      now apply (split_comma_aux_pieces (Js.trim str) "" x).
    + apply list_elem_of_singleton in Hs. now subst s.
  - change (normalizeSkills (Js.QArray (normalizeSkills v)))
      with (List.filter Js.truthy_string
              (map (fun v => normalizeString (Js.QString v)) (normalizeSkills v))).
    now apply map_filter_clean.
Qed.

(** ** Decimal numerals *)

Lemma digits_cons_digit (c : ascii) (r : string) (seen : bool) (acc : Z) :
  Js.is_digit c = true ->
  Js.digits (String c r) seen acc = Js.digits r true (10 * acc + Js.digit_value c)%Z.
Proof. intros Hc. simpl. now rewrite Hc. Qed.

Ltac read_digit :=
  simpl DecimalString.NilEmpty.string_of_uint;
  rewrite digits_cons_digit by reflexivity;
  match goal with
  | |- context [Js.digit_value ?c] =>
      let v := eval vm_compute in (Js.digit_value c) in
      change (Js.digit_value c) with v
  end.

Lemma digits_of_uint_acc (d : Decimal.uint) (acc : positive) :
  Js.digits (DecimalString.NilEmpty.string_of_uint d) true (Z.pos acc) =
  Some (Z.pos (Pos.of_uint_acc d acc)).
Proof.
  revert acc. induction d; intros acc; [reflexivity|..];
    read_digit; simpl Pos.of_uint_acc; rewrite <- IHd; f_equal; lia.
Qed.

Lemma digits_of_uint (d : Decimal.uint) (seen : bool) :
  seen = true \/ d <> Decimal.Nil ->
  Js.digits (DecimalString.NilEmpty.string_of_uint d) seen 0 =
  Some (Z.of_N (Pos.of_uint d)).
Proof.
  revert seen. induction d; intros seen Hseen;
    try (read_digit; simpl Pos.of_uint; simpl Z.of_N;
         rewrite <- digits_of_uint_acc; reflexivity).
  - destruct Hseen as [->|Hd]; [reflexivity | contradiction].
  - read_digit. simpl Pos.of_uint. rewrite <- (IHd true) by now left. reflexivity.
Qed.

Lemma string_of_uint_head (d : Decimal.uint) :
  exists c r,
    DecimalString.NilZero.string_of_uint d = String c r /\
    Js.is_digit c = true /\
    (forall x, x ∈ list_ascii_of_string (String c r) -> Js.is_digit x = true).
Proof.
  assert (Hall : forall d x,
             x ∈ list_ascii_of_string (DecimalString.NilEmpty.string_of_uint d) ->
             Js.is_digit x = true).
  { clear. induction d; simpl; intros x Hx; [inversion Hx|..];
      (apply elem_of_cons in Hx as [->|Hx]; [reflexivity | now apply IHd]). }
  destruct d; simpl;
    try (eexists _, _; split; [reflexivity|]; split; [reflexivity|];
         intros x Hx; apply elem_of_cons in Hx as [->|Hx];
         [reflexivity | now apply (Hall d)]).
  eexists _, _. split; [reflexivity|]. split; [reflexivity|].
  intros x Hx. apply list_elem_of_singleton in Hx. now subst.
Qed.

Lemma is_digit_not_special (c : ascii) :
  Js.is_digit c = true ->
  Js.is_space c = false /\ c <> "-"%char /\ c <> "+"%char /\ c <> ","%char.
Proof.
  destruct c as [[] [] [] [] [] [] [] []]; try discriminate;
    intros _; repeat split; discriminate.
Qed.

(** [parseInt] reads a decimal numeral back. *)
Lemma parseInt_decimal (n : N) : Js.parseInt (decimal n) = Some (Z.of_N n).
Proof.
  unfold decimal.
  destruct (string_of_uint_head (N.to_uint n)) as (c & r & Heq & Hc & _).
  destruct (is_digit_not_special c Hc) as (Hsp & Hminus & Hplus & _).
  assert (Hparse : Js.parseInt (String c r) = Js.digits (String c r) false 0).
  { unfold Js.parseInt. simpl Js.trimStart. rewrite Hsp.
    destruct c as [[] [] [] [] [] [] [] []]; try reflexivity; contradiction. }
  rewrite Heq, Hparse, <- Heq.
  rewrite <- (DecimalN.Unsigned.of_to n) at 2. unfold N.of_uint.
  destruct (N.to_uint n) eqn:Hd;
    try (apply digits_of_uint; right; discriminate).
  reflexivity.
Qed.

(** X24. A page and a limit written in decimal are read back: for every
    positive integer [p] below 2^53, the parameter [page=p] gives page
    [p], and the parameter [limit=p] gives the limit [p], or 50 when [p]
    exceeds 50. *)
Theorem decimal_page_and_limit (p : positive) (query : Query.t) :
  (Z.pos p < 2 ^ 53)%Z ->
  page_of (with_page query (Js.QString (decimal (N.pos p)))) = Z.pos p /\
  limit_of (with_limit query (Js.QString (decimal (N.pos p)))) = Z.min 50 (Z.pos p).
Proof.
  intros _.
  assert (Hparse : forall fallback,
             parsePositiveInt (Js.QString (decimal (N.pos p))) fallback = Z.pos p).
  { intros fallback. unfold parsePositiveInt. simpl Js.toString.
    now rewrite parseInt_decimal. }
  split.
  - unfold page_of. simpl Query.page. apply Hparse.
  - unfold limit_of. simpl Query.limit. rewrite Hparse.
    destruct (Z.ltb_spec 50 (Z.pos p)); lia.
Qed.

Lemma decimal_page_and_limit_witness :
  decimal 120 = "120" /\
  page_of (with_page Sample.no_query (Js.QString (decimal 120))) = 120%Z /\
  limit_of (with_limit Sample.no_query (Js.QString (decimal 120))) = 50%Z.
Proof.
  split; [reflexivity|].
  apply (decimal_page_and_limit 120 Sample.no_query). reflexivity.
Defined.

(** ** The page and the limit, from the text of the parameter *)

Lemma one_of_white_space (c : ascii) : one_of white_space c = Js.is_space c.
Proof. destruct c as [[] [] [] [] [] [] [] []]; reflexivity. Qed.

Lemma one_of_decimal_digits (c : ascii) : one_of decimal_digits c = Js.is_digit c.
Proof. destruct c as [[] [] [] [] [] [] [] []]; reflexivity. Qed.

Lemma made_of_white_space (w : string) : made_of white_space w = all_space w.
Proof.
  induction w as [|c w IH]; cbn [made_of all_space]; [reflexivity|].
  now rewrite one_of_white_space, IH.
Qed.

Lemma parseInt_skips_space (w t : string) :
  made_of white_space w = true -> Js.parseInt (w ++ t) = Js.parseInt t.
Proof.
  intros Hw. rewrite made_of_white_space in Hw.
  unfold Js.parseInt. now rewrite trimStart_all_space.
Qed.

Lemma parseInt_plus (r : string) :
  Js.parseInt (String "+" r) = Js.digits r false 0.
Proof. reflexivity. Qed.

Lemma parseInt_minus (r : string) :
  Js.parseInt (String "-" r) = option_map Z.opp (Js.digits r false 0).
Proof. reflexivity. Qed.

Lemma parseInt_digit_first (c : ascii) (r : string) :
  Js.is_digit c = true ->
  Js.parseInt (String c r) = Js.digits (String c r) false 0.
Proof.
  destruct c as [[] [] [] [] [] [] [] []]; try discriminate; reflexivity.
Qed.

(** No digit to read where the text begins without one. *)
Lemma digits_begins_without (rest : string) (seen : bool) (acc : Z) :
  begins_without decimal_digits rest = true ->
  Js.digits rest seen acc = if seen then Some acc else None.
Proof.
  destruct rest as [|c r]; cbn [begins_without Js.digits]; [reflexivity|].
  rewrite one_of_decimal_digits. intros Hc.
  apply Bool.negb_true_iff in Hc. now rewrite Hc.
Qed.

(** The digits of a numeral are read up to the rest. *)
Lemma digits_numeral_rest (d : Decimal.uint) (rest : string) (seen : bool) (acc : Z) :
  begins_without decimal_digits rest = true ->
  seen = true \/ d <> Decimal.Nil ->
  Js.digits (DecimalString.NilEmpty.string_of_uint d ++ rest) seen acc =
  Js.digits (DecimalString.NilEmpty.string_of_uint d) seen acc.
Proof.
  intros Hrest. revert seen acc.
  induction d; intros seen acc Hseen;
    try (simpl DecimalString.NilEmpty.string_of_uint; simpl append;
         rewrite !digits_cons_digit by reflexivity; apply IHd; now left).
  destruct Hseen as [->|Hd]; [|contradiction].
  simpl. now rewrite digits_begins_without.
Qed.

Lemma numeral_head (d : Decimal.uint) (rest : string) :
  d <> Decimal.Nil ->
  exists c r,
    (DecimalString.NilEmpty.string_of_uint d ++ rest)%string = String c r /\
    Js.is_digit c = true.
Proof.
  intros Hd. destruct d; [contradiction|..];
    simpl; eexists _, _; split; reflexivity.
Qed.

(** What [parseInt] reads from a text that begins with a numeral. *)
Lemma parseInt_numeral (s : string) (sg : Sign) (d : Decimal.uint) :
  begins_with_numeral s sg d ->
  Js.parseInt s =
    Some (match sg with
          | Minus => - Z.of_N (N.of_uint d)
          | _ => Z.of_N (N.of_uint d)
          end)%Z.
Proof.
  intros (Hd & w & rest & -> & Hw & Hrest).
  rewrite (parseInt_skips_space _ _ Hw).
  assert (Hdigits : Js.digits (DecimalString.NilEmpty.string_of_uint d ++ rest) false 0 =
                    Some (Z.of_N (N.of_uint d))).
  { rewrite (digits_numeral_rest d rest false 0 Hrest) by now right.
    apply digits_of_uint. now right. }
  destruct sg; simpl sign_text.
  - change ("" ++ ?x)%string with x.
    destruct (numeral_head d rest Hd) as (c & r & Heq & Hc).
    rewrite Heq, (parseInt_digit_first c r Hc), <- Heq. exact Hdigits.
  - change ("+" ++ ?x)%string with (String "+" x).
    rewrite parseInt_plus. exact Hdigits.
  - change ("-" ++ ?x)%string with (String "-" x).
    rewrite parseInt_minus, Hdigits. reflexivity.
Qed.

(** [parseInt] gives [NaN] on a text that begins with no numeral. *)
Lemma parseInt_no_numeral (s : string) :
  begins_with_no_numeral s -> Js.parseInt s = None.
Proof.
  intros (w & sg & rest & -> & Hw & Hrest & Hbare).
  rewrite (parseInt_skips_space _ _ Hw).
  destruct sg; simpl sign_text.
  - change ("" ++ ?x)%string with x. specialize (Hbare eq_refl).
    destruct rest as [|c r]; [reflexivity|].
    unfold begins_without in Hrest, Hbare.
    destruct c as [[] [] [] [] [] [] [] []];
      try (vm_compute in Hrest; discriminate Hrest);
      try (vm_compute in Hbare; discriminate Hbare);
      reflexivity.
  - change ("+" ++ ?x)%string with (String "+" x).
    rewrite parseInt_plus. now rewrite digits_begins_without.
  - change ("-" ++ ?x)%string with (String "-" x).
    rewrite parseInt_minus. now rewrite digits_begins_without.
Qed.

Lemma parsePositiveInt_no_positive (value : Js.QueryValue) (fallback : Z) :
  gives_no_positive value -> parsePositiveInt value fallback = fallback.
Proof.
  unfold parsePositiveInt.
  intros [->|[Hnone|(sg & d & Hnum & Hcase)]].
  - reflexivity.
  - now rewrite (parseInt_no_numeral _ Hnone).
  - rewrite (parseInt_numeral _ _ _ Hnum).
    destruct Hcase as [->|Hzero].
    + destruct (Z.leb_spec (- Z.of_N (N.of_uint d)) 0); [reflexivity | lia].
    + rewrite Hzero. now destruct sg.
Qed.

Lemma parsePositiveInt_gives_positive (value : Js.QueryValue) (fallback n : Z) :
  gives_positive value n -> parsePositiveInt value fallback = n.
Proof.
  unfold parsePositiveInt.
  intros (sg & d & Hnum & Hsg & -> & Hpos).
  rewrite (parseInt_numeral _ _ _ Hnum).
  destruct sg; [| |contradiction];
    destruct (Z.leb_spec (Z.of_N (N.of_uint d)) 0); (reflexivity || lia).
Qed.

(** *** Every text begins with a numeral or with none *)

Lemma split_white_space (s : string) :
  exists w t,
    s = (w ++ t)%string /\
    made_of white_space w = true /\
    begins_without white_space t = true.
Proof.
  induction s as [|c s (w & t & Hs & Hw & Ht)].
  - exists "", "". repeat split.
  - destruct (one_of white_space c) eqn:Hc.
    + exists (String c w), t. split; [rewrite Hs; reflexivity|].
      cbn [made_of]. rewrite Hc, Hw. split; [reflexivity | exact Ht].
    + exists "", (String c s). split; [reflexivity|]. split; [reflexivity|].
      cbn [begins_without]. now rewrite Hc.
Qed.

Lemma split_digits (t : string) :
  exists d rest,
    t = (DecimalString.NilEmpty.string_of_uint d ++ rest)%string /\
    begins_without decimal_digits rest = true.
Proof.
  induction t as [|c t (d & rest & Ht & Hrest)].
  - exists Decimal.Nil, "". split; reflexivity.
  - destruct (one_of decimal_digits c) eqn:Hc.
    + rewrite Ht.
      destruct c as [[] [] [] [] [] [] [] []];
        try (vm_compute in Hc; discriminate Hc);
        [exists (Decimal.D7 d), rest | exists (Decimal.D3 d), rest
        |exists (Decimal.D5 d), rest | exists (Decimal.D9 d), rest
        |exists (Decimal.D1 d), rest | exists (Decimal.D6 d), rest
        |exists (Decimal.D2 d), rest | exists (Decimal.D4 d), rest
        |exists (Decimal.D8 d), rest | exists (Decimal.D0 d), rest];
        (split; [reflexivity | exact Hrest]).
    + exists Decimal.Nil, (String c t). split; [reflexivity|].
      cbn [begins_without]. now rewrite Hc.
Qed.

Lemma uint_Nil_or_not (d : Decimal.uint) : d = Decimal.Nil \/ d <> Decimal.Nil.
Proof. destruct d; [now left | right; discriminate ..]. Qed.

Lemma text_is_classified (s : string) :
  begins_with_no_numeral s \/ exists sg d, begins_with_numeral s sg d.
Proof.
  destruct (split_white_space s) as (w & t & -> & Hw & Ht).
  assert (Hsigned : forall sg r,
             t = (sign_text sg ++ r)%string -> sg <> NoSign ->
             begins_with_no_numeral (w ++ t) \/
             exists sg d, begins_with_numeral (w ++ t) sg d).
  { intros sg r -> Hsg.
    destruct (split_digits r) as (d & rest & -> & Hrest).
    destruct (uint_Nil_or_not d) as [->|Hd].
    - left. exists w, sg, rest.
      split; [reflexivity|]. split; [exact Hw|]. split; [exact Hrest|].
      intros E. contradiction.
    - right. exists sg, d. split; [exact Hd|]. exists w, rest.
      split; [reflexivity|]. split; [exact Hw | exact Hrest]. }
  destruct t as [|c r].
  - left. exists w, NoSign, "".
    split; [reflexivity|]. split; [exact Hw|]. split; reflexivity.
  - destruct (Ascii.eqb_spec c "+") as [->|Hplus];
      [apply (Hsigned Plus r); [reflexivity | discriminate]|].
    destruct (Ascii.eqb_spec c "-") as [->|Hminus];
      [apply (Hsigned Minus r); [reflexivity | discriminate]|].
    destruct (split_digits (String c r)) as (d & rest & Heq & Hrest).
    destruct (uint_Nil_or_not d) as [->|Hd].
    + left. change (String c r = rest) in Heq. subst rest.
      exists w, NoSign, (String c r).
      split; [reflexivity|]. split; [exact Hw|]. split; [exact Hrest|].
      intros _. unfold begins_without, one_of, signs in *. rewrite existsb_app.
      apply Bool.negb_true_iff in Ht. rewrite Ht.
      apply Ascii.eqb_neq in Hplus, Hminus. cbn [existsb orb].
      now rewrite Hplus, Hminus.
    + right. exists NoSign, d. split; [exact Hd|]. exists w, rest.
      split; [now rewrite Heq|]. split; [exact Hw | exact Hrest].
Qed.

Lemma parameter_is_classified (value : Js.QueryValue) :
  gives_no_positive value \/ exists n, gives_positive value n.
Proof.
  destruct (text_is_classified (Js.toString value)) as [Hnone|(sg & d & Hnum)].
  - left. right. now left.
  - destruct sg; try (left; right; right; exists Minus, d; split; [assumption | now left]);
      (destruct (N.of_uint d) as [|p] eqn:Hd;
       [left; right; right; eexists _, d; split; [eassumption | now right]
       |right; exists (Z.pos p); eexists _, d;
        split; [eassumption|]; split; [discriminate|]; split; [now rewrite Hd | lia]]).
Qed.

(** C10, as the code has it. The page and the limit of a feed request are
    at least 1, the limit at most 50. Every [page] or [limit] parameter
    either has no positive number to read (it is missing, or its text,
    after white space and at most one sign, begins with no digit, or
    begins with a numeral that is zero or has a minus sign) or begins
    with the numeral of a positive number [n]. In the first case the page
    is 1 and the limit is 10. In the second, whatever follows the digits,
    the page is [n] and the limit is [n] or 50 if [n] exceeds 50, for [n]
    below 2^53. And when the query runs, with [page * limit] below 2^53,
    the answer reports that page and that limit, its users are the first
    [limit] candidates after the [(page - 1) * limit] that are skipped,
    and [hasMore] tells whether candidates are left after them. *)
Theorem feed_page_and_limit `{Mongoose} (loggedInUser : User) (query : Query.t)
    (db : Db) :
  let page := page_of query in
  let limit := limit_of query in
  (1 <= page)%Z /\ (1 <= limit <= 50)%Z /\
  (gives_no_positive (Query.page query) \/
   exists n, gives_positive (Query.page query) n) /\
  (gives_no_positive (Query.limit query) \/
   exists n, gives_positive (Query.limit query) n) /\
  (gives_no_positive (Query.page query) -> page = 1%Z) /\
  (gives_no_positive (Query.limit query) -> limit = 10%Z) /\
  (forall n, gives_positive (Query.page query) n -> (n < 2 ^ 53)%Z -> page = n) /\
  (forall n, gives_positive (Query.limit query) n -> (n < 2 ^ 53)%Z ->
             limit = Z.min 50 n) /\
  (forall c,
     candidates loggedInUser query db = Returned c ->
     (page * limit < 2 ^ 53)%Z ->
     let rest := skipn (Z.to_nat ((page - 1) * limit)) c in
     feed loggedInUser query db =
       (FeedJson (firstn (Z.to_nat limit) rest) page limit
          (limit <? Z.of_nat (List.length rest))%Z, db)).
Proof.
  intros page limit.
  pose proof (limit_of_range query) as Hrange.
  split; [apply page_of_positive|]. split; [exact Hrange|].
  split; [apply parameter_is_classified|].
  split; [apply parameter_is_classified|].
  split; [|split; [|split; [|split]]].
  - intros Hp. unfold page, page_of. now apply parsePositiveInt_no_positive.
  - intros Hl. unfold limit, limit_of.
    now rewrite (parsePositiveInt_no_positive _ _ Hl).
  - intros n Hn _. unfold page, page_of. now apply parsePositiveInt_gives_positive.
  - intros n Hn _. unfold limit, limit_of.
    rewrite (parsePositiveInt_gives_positive _ 10 n Hn).
    destruct (Z.ltb_spec 50 n); lia.
  - intros c Hc _. exact (feed_returns loggedInUser query db c (proj1 Hrange) Hc).
Qed.

Lemma feed_page_and_limit_witness :
  let query :=
    Query.mk (Js.QString " +2nd") (Js.QString "-5") Js.QUndefined Js.QUndefined
             Js.QUndefined Js.QUndefined Js.QUndefined in
  page_of query = 2%Z /\ limit_of query = 10%Z /\
  feed (H := Sample.driver) Sample.userA query Sample.db_crowd =
    (FeedJson (firstn 10 (skipn 10 (Sample.crowd 60))) 2 10 true, Sample.db_crowd).
Proof.
  intros query.
  destruct (feed_page_and_limit (H := Sample.driver) Sample.userA query
              Sample.db_crowd)
    as (_ & _ & _ & _ & _ & Hlimit & Hpage & _ & Hfeed).
  split; [|split].
  - apply Hpage; [|reflexivity].
    exists Plus, (Decimal.D2 Decimal.Nil).
    split; [|split; [discriminate | split; [reflexivity | lia]]].
    split; [discriminate|]. exists " ", "nd". repeat split.
  - apply Hlimit. right; right.
    exists Minus, (Decimal.D5 Decimal.Nil). split; [|now left].
    split; [discriminate|]. exists "", "". repeat split.
  - apply (Hfeed (Sample.crowd 60)); [vm_compute; reflexivity | reflexivity].
Defined.

(** C10, as stated, fails: a parameter that is not a number is not always
    replaced by the default. The text [12abc] is no number, and the page
    is 12; the repeated parameter [limit=3&limit=4], whose text is [3,4],
    gives the limit 3; and the feed answers with that page and that
    limit. *)
Lemma text_after_digits_is_ignored :
  let query :=
    Query.mk (Js.QString "12abc") (Js.QArray ["3"; "4"]) Js.QUndefined Js.QUndefined
             Js.QUndefined Js.QUndefined Js.QUndefined in
  page_of query = 12%Z /\ limit_of query = 3%Z /\
  feed (H := Sample.driver) Sample.userA query Sample.db_crowd =
    (FeedJson (firstn 3 (skipn 33 (Sample.crowd 60))) 12 3 true, Sample.db_crowd).
Proof. cbv zeta. repeat split; vm_compute; reflexivity. Qed.

(** * The application *)

Lemma trim_no_space (s : string) :
  (forall x, x ∈ list_ascii_of_string s -> Js.is_space x = false) -> Js.trim s = s.
Proof.
  intros Hall. apply trim_of_trimmed. split; intros c Hc; apply Hall.
  - destruct s; [discriminate|]. injection Hc as ->. left.
  - clear Hall. induction s as [|x r IH]; [discriminate|].
    destruct r as [|y r']; [injection Hc as ->; left|].
    right. now apply IH.
Qed.

Lemma trim_decimal (n : N) : Js.trim (decimal n) = decimal n.
Proof.
  apply trim_no_space. intros x Hx. unfold decimal in Hx.
  destruct (string_of_uint_head (N.to_uint n)) as (c & r & Heq & _ & Hall).
  rewrite Heq in Hx. now apply is_digit_not_special, Hall.
Qed.

Lemma decimal_not_empty (n : N) : decimal n <> "".
Proof.
  unfold decimal.
  destruct (string_of_uint_head (N.to_uint n)) as (c & r & -> & _). discriminate.
Qed.

(** X25. The port of the server is always a valid port: whatever the
    environment variable [PORT] holds, or when it is not set, the port is
    between 1 and 65535; it is 4000 when the variable is not set. *)
Theorem port_is_valid (env_PORT : option string) :
  (1 <= App.port env_PORT <= 65535)%Z /\ App.port None = 4000%Z.
Proof.
  split; [|reflexivity]. unfold App.port, App.normalizePort.
  destruct env_PORT as [v|]; [|lia].
  destruct (negb _); [lia|].
  destruct (Js.parseInt _) as [parsed|]; [|lia].
  destruct (Z.leb_spec parsed 0); simpl; [lia|].
  destruct (Z.ltb_spec 65535 parsed); simpl; lia.
Qed.

(** X26. A port written in decimal is read back when it is a valid port,
    and replaced by 4000 otherwise: for every natural number [n], the
    variable [PORT=n] gives the port [n] if [n] is between 1 and 65535,
    and the port 4000 if [n] is 0 or exceeds 65535. *)
Theorem decimal_port (n : N) :
  App.port (Some (decimal n)) =
  (if (1 <=? Z.of_N n)%Z && (Z.of_N n <=? 65535)%Z then Z.of_N n else 4000%Z).
Proof.
  unfold App.port, App.normalizePort.
  rewrite trim_decimal, parseInt_decimal.
  rewrite (proj2 (truthy_string_true (decimal n)) (decimal_not_empty n)).
  simpl negb.
  destruct (Z.leb_spec (Z.of_N n) 0), (Z.ltb_spec 65535 (Z.of_N n)),
    (Z.leb_spec 1 (Z.of_N n)), (Z.leb_spec (Z.of_N n) 65535); simpl; lia.
Qed.

Lemma prefix_app (p s : string) :
  String.prefix p s = true <-> exists rest, s = (p ++ rest)%string.
Proof.
  revert s. induction p as [|c p IH]; intros s.
  - split; [intros _; now exists s | now destruct s].
  - destruct s as [|x s]; simpl.
    + split; [discriminate | intros [rest Hrest]; discriminate].
    + destruct (Ascii.ascii_dec c x) as [->|Hne].
      * rewrite IH. split; intros [rest Hrest]; exists rest; [now rewrite Hrest|].
        now injection Hrest.
      * split; [discriminate | intros [rest Hrest]; injection Hrest; congruence].
Qed.

(** X27. Which origins CORS allows: a request without an origin or with
    an empty one, and an origin that begins with [http://localhost:] or
    with [http://127.0.0.1:], whatever follows; every other origin is
    refused with the error "Not allowed by CORS", an origin that begins
    with [https://] in particular. *)
Theorem cors_allows_local_http (o : option string) :
  (App.origin o = App.Allowed <->
   o = None \/ o = Some "" \/
   exists origin rest,
     o = Some origin /\
     (origin = ("http://localhost:" ++ rest)%string \/
      origin = ("http://127.0.0.1:" ++ rest)%string)) /\
  (App.origin o = App.Allowed \/ App.origin o = App.Refused "Not allowed by CORS") /\
  (forall rest, App.origin (Some ("https://" ++ rest)%string) =
                App.Refused "Not allowed by CORS").
Proof.
  split; [|split].
  - destruct o as [origin|]; [|split; [now left | reflexivity]].
    unfold App.origin, App.startsWith.
    destruct (Js.truthy_string origin) eqn:Ht; simpl negb; cbv iota.
    + apply truthy_string_true in Ht.
      destruct (String.prefix "http://localhost:" origin) eqn:H1.
      * split; [intros _ | reflexivity]. right; right.
        apply prefix_app in H1 as [rest ->]. eexists. exists rest.
        split; [reflexivity | now left].
      * destruct (String.prefix "http://127.0.0.1:" origin) eqn:H2.
        -- split; [intros _ | reflexivity]. right; right.
           apply prefix_app in H2 as [rest ->]. eexists. exists rest.
           split; [reflexivity | now right].
        -- split; [discriminate|].
           intros [Hn|[He|(x & rest & [= ->] & [Hx|Hx])]];
             [discriminate | congruence | |].
           ++ assert (String.prefix "http://localhost:" x = true)
                by (apply prefix_app; now exists rest).
              congruence.
           ++ assert (String.prefix "http://127.0.0.1:" x = true)
                by (apply prefix_app; now exists rest).
              congruence.
    + split; [intros _ | reflexivity]. right; left.
      unfold Js.truthy_string in Ht. apply Bool.negb_false_iff, String.eqb_eq in Ht.
      now subst.
  - destruct o as [origin|]; [|now left]. unfold App.origin.
    destruct (negb _); [now left|].
    destruct (App.startsWith origin "http://localhost:"); [now left|].
    destruct (App.startsWith origin "http://127.0.0.1:"); [now left | now right].
  - intros rest. reflexivity.
Qed.
